(** * CPAP analysis pipeline (cpap_analysis.py): a shallow embedding

    The module reads a comma-separated recording of a CPAP flow sensor,
    converts the ADC codes to pressures and to a signed volumetric flow,
    counts breaths (scipy's [find_peaks] followed by a cycle-completion
    filter), counts apnea events, integrates the flow into a leakage volume
    and writes the metrics next to the program.

    Modelling conventions.
    - Python [int] is [Z].  Python [float] is modelled by exact rationals
      ([Q]): every arithmetic operation is the exact one, so rounding,
      overflow, signed zeros and the non-finite values are outside the model
      of the analysis functions.  The only place where a non-finite value
      can enter the program is [float(token)] on the time column; its result
      is kept in [pyfloat], which has the two infinities and NaN.
    - [math.sqrt] on a non-negative argument is a parameter of the section
      [Flow] ([sqrt]); on a negative argument it raises, as in Python.
    - Exceptions are values of [exn]; a computation that can raise returns a
      [result].  Code that also logs, reads or writes files runs in the
      state-and-exception monad [M] over a [world].
    - [scipy.signal.find_peaks] is not part of the repository; module
      [Scipy] models the three conditions the program uses (height,
      distance, prominence) after scipy's implementation. *)

From Stdlib Require Import QArith ZArith List String Ascii Bool Arith Lia Lqa.
From Stdlib Require Import Sorting.Sorted Permutation.
Import ListNotations.

Open Scope string_scope.
Open Scope list_scope.

(** ** Exceptions and results *)

Inductive exn : Type :=
| ValueError (msg : string)
| ZeroDivisionError
| IndexError
| OSError (path : string).

Inductive result (A : Type) : Type :=
| Ok (a : A)
| Raise (e : exn).

Arguments Ok {A} a.
Arguments Raise {A} e.

Definition rbind {A B} (c : result A) (k : A -> result B) : result B :=
  match c with
  | Ok a => k a
  | Raise e => Raise e
  end.

Notation "x <- c ;; k" := (rbind c (fun x => k))
  (at level 61, c at next level, right associativity).

Definition is_ok {A} (r : result A) : bool :=
  match r with Ok _ => true | Raise _ => false end.

(** ** Strings as Python uses them here *)

Definition newline : ascii := "010"%char.
Definition comma : ascii := ","%char.

(** [str.strip("\n")]: drop every leading and trailing newline. *)
Fixpoint lstrip_nl (s : string) : string :=
  match s with
  | String c r => if Ascii.eqb c newline then lstrip_nl r else s
  | EmptyString => s
  end.

Fixpoint rstrip_nl (s : string) : string :=
  match s with
  | String c r =>
      match rstrip_nl r with
      | EmptyString => if Ascii.eqb c newline then EmptyString else String c EmptyString
      | r' => String c r'
      end
  | EmptyString => EmptyString
  end.

Definition strip_nl (s : string) : string := rstrip_nl (lstrip_nl s).

(** [str.split(sep)] with a one-character separator: always at least one
    field, the empty string splits into one empty field. *)
Fixpoint split (sep : ascii) (s : string) : list string :=
  match s with
  | EmptyString => [EmptyString]
  | String c r =>
      if Ascii.eqb c sep then EmptyString :: split sep r
      else match split sep r with
           | f :: fs => String c f :: fs
           | [] => [String c EmptyString]
           end
  end.

(** The lines a text file yields to [readline] and to iteration: each line
    keeps its terminating newline, the last one may lack it.  The content is
    the text after Python's newline translation. *)
Fixpoint readlines_from (cur : string -> string) (s : string) : list string :=
  match s with
  | EmptyString =>
      match cur EmptyString with
      | EmptyString => []
      | l => [l]
      end
  | String c r =>
      if Ascii.eqb c newline
      then cur (String c EmptyString) :: readlines_from (fun x => x) r
      else readlines_from (fun x => cur (String c x)) r
  end.

Definition readlines (s : string) : list string := readlines_from (fun x => x) s.

(** ** Python's numeric literals, as [float(str)] and [int(str)] read them

    ASCII input only.  [float] accepts, between optional white space,
    [[sign] (number [exponent] | "inf" | "infinity" | "nan")] with the words
    in any case; [int] accepts [[sign] digitpart].  A [digitpart] is a run of
    digits in which single underscores may separate digits. *)

Definition is_digit (c : ascii) : bool :=
  let n := nat_of_ascii c in (48 <=? n)%nat && (n <=? 57)%nat.

Definition digit_val (c : ascii) : Z := Z.of_nat (nat_of_ascii c - 48).

(** White space for [str.strip()] without argument, in ASCII: TAB, LF, VT,
    FF, CR, the separators FS, GS, RS, US, and the space. *)
Definition is_space (c : ascii) : bool :=
  let n := nat_of_ascii c in
  ((9 <=? n)%nat && (n <=? 13)%nat) || ((28 <=? n)%nat && (n <=? 32)%nat).

Fixpoint lstrip_ws (s : string) : string :=
  match s with
  | String c r => if is_space c then lstrip_ws r else s
  | EmptyString => s
  end.

Fixpoint rstrip_ws (s : string) : string :=
  match s with
  | String c r =>
      match rstrip_ws r with
      | EmptyString => if is_space c then EmptyString else String c EmptyString
      | r' => String c r'
      end
  | EmptyString => EmptyString
  end.

Definition strip_ws (s : string) : string := rstrip_ws (lstrip_ws s).

Definition to_lower (c : ascii) : ascii :=
  let n := nat_of_ascii c in
  if (65 <=? n)%nat && (n <=? 90)%nat then ascii_of_nat (n + 32) else c.

Fixpoint lower (s : string) : string :=
  match s with
  | String c r => String (to_lower c) (lower r)
  | EmptyString => EmptyString
  end.

(** The digits after the first one of a digitpart: [acc] is the value read
    so far, [n] the number of digits read so far. *)
Fixpoint digits_tail (s : string) (acc : Z) (n : nat) : Z * nat * string :=
  match s with
  | String c r =>
      if is_digit c then digits_tail r (10 * acc + digit_val c)%Z (S n)
      else if Ascii.eqb c "_"%char then
        match r with
        | String c' r' =>
            if is_digit c' then digits_tail r' (10 * acc + digit_val c')%Z (S n)
            else (acc, n, s)
        | EmptyString => (acc, n, s)
        end
      else (acc, n, s)
  | EmptyString => (acc, n, s)
  end.

(** [digitpart_from acc n s]: a digitpart at the head of [s], continuing
    the value [acc] of [n] digits; [None] when [s] does not start with a
    digit. *)
Definition digitpart_from (acc : Z) (n : nat) (s : string) : option (Z * nat * string) :=
  match s with
  | String c r =>
      if is_digit c then Some (digits_tail r (10 * acc + digit_val c)%Z (S n)) else None
  | EmptyString => None
  end.

Definition digitpart (s : string) : option (Z * nat * string) := digitpart_from 0%Z 0%nat s.

(** An optional sign: [true] for a minus. *)
Definition sign_of (s : string) : bool * string :=
  match s with
  | String "-"%char r => (true, r)
  | String "+"%char r => (false, r)
  | _ => (false, s)
  end.

Inductive pyfloat : Type :=
| Finite (q : Q)
| Infinite (negative : bool)
| NotANumber.

(** [[("e"|"E") [sign] digitpart]] at the head of [s], or nothing: the
    exponent and the rest.  An "e" that no digits follow is left in place. *)
Definition exponent_of (s : string) : Z * string :=
  match s with
  | String c r =>
      if Ascii.eqb (to_lower c) "e"%char then
        let '(neg, r1) := sign_of r in
        match digitpart r1 with
        | Some (e, _, r2) => ((if neg then - e else e)%Z, r2)
        | None => (0%Z, s)
        end
      else (0%Z, s)
  | EmptyString => (0%Z, s)
  end.

(** mantissa digits [m], of which [k] are after the point, exponent [e] *)
Definition decimal_value (neg : bool) (m : Z) (k : nat) (e : Z) : Q :=
  let v := (inject_Z m * 10 ^ (e - Z.of_nat k))%Q in
  if neg then (- v)%Q else v.

(** The part of a float literal after the sign, when it is a number. *)
Definition floatnumber (neg : bool) (s : string) : option Q :=
  let mantissa :=
    match s with
    | String "."%char r =>
        match digitpart r with
        | Some (m, k, r') => Some (m, k, r')
        | None => None
        end
    | _ =>
        match digitpart s with
        | Some (m, _, String "."%char r) =>
            match digitpart_from m 0%nat r with
            | Some (m', k, r') => Some (m', k, r')
            | None => Some (m, 0%nat, r)
            end
        | Some (m, _, r) => Some (m, 0%nat, r)
        | None => None
        end
    end in
  match mantissa with
  | Some (m, k, r) =>
      match exponent_of r with
      | (e, EmptyString) => Some (decimal_value neg m k e)
      | _ => None
      end
  | None => None
  end.

(** [float(s)] for a [str] argument. *)
Definition py_float (s : string) : result pyfloat :=
  let '(neg, body) := sign_of (strip_ws s) in
  let word := lower body in
  if (word =? "inf") || (word =? "infinity") then Ok (Infinite neg)
  else if word =? "nan" then Ok NotANumber
  else match floatnumber neg body with
       | Some q => Ok (Finite q)
       | None => Raise (ValueError ("could not convert string to float: " ++ s))
       end.

(** [int(s)] for a [str] argument, base 10. *)
Definition py_int (s : string) : result Z :=
  let '(neg, body) := sign_of (strip_ws s) in
  match digitpart body with
  | Some (v, _, EmptyString) => Ok (if neg then (- v)%Z else v)
  | _ => Raise (ValueError ("invalid literal for int() with base 10: " ++ s))
  end.

(** ** The world: files, the log, and the monad of effectful code *)

(** The dictionary [get_metrics] builds and dumps as JSON. *)
Record metrics : Type := {
  duration : Q;
  breaths : nat;
  breath_rate_bpm : Q;
  breath_times : list Q;
  apnea_count : nat;
  leakage : Q
}.

(** The records the module sends to [logging]; the constructor says which
    call made it, the arguments are what its message is formatted from. *)
Inductive log_record : Type :=
| Error_missing_value (line : nat) (patient : list string)
| Error_non_numeric (line : nat) (patient : list string)
| Error_nan_value (line : nat) (patient : list string)
| Info_starting_analysis (path : string)
| Warning_negative_leakage.

Record world : Type := {
  files : list (string * string);        (* text files that can be read *)
  unwritable : list string;              (* paths [open(_, "w")] fails on *)
  artifacts : list (string * metrics);   (* JSON files written, newest first *)
  log : list log_record                  (* cpap_analysis.log, oldest first *)
}.

Definition M (A : Type) : Type := world -> result A * world.

Definition mret {A} (a : A) : M A := fun w => (Ok a, w).

Definition mraise {A} (e : exn) : M A := fun w => (Raise e, w).

Definition mbind {A B} (c : M A) (k : A -> M B) : M B :=
  fun w =>
    match c w with
    | (Ok a, w') => k a w'
    | (Raise e, w') => (Raise e, w')
    end.

Notation "x <~ c ;; k" := (mbind c (fun x => k))
  (at level 61, c at next level, right associativity).

Definition lift {A} (r : result A) : M A := fun w => (r, w).

Definition add_log (w : world) (r : log_record) : world :=
  {| files := files w; unwritable := unwritable w;
     artifacts := artifacts w; log := log w ++ [r] |}.

Definition add_artifact (w : world) (path : string) (m : metrics) : world :=
  {| files := files w; unwritable := unwritable w;
     artifacts := (path, m) :: artifacts w; log := log w |}.

Definition logging (r : log_record) : M unit := fun w => (Ok tt, add_log w r).

Fixpoint lookup {V} (k : string) (l : list (string * V)) : option V :=
  match l with
  | [] => None
  | (k', v) :: l' => if k' =? k then Some v else lookup k l'
  end.

(** [open(path, "r")] followed by reading the whole text. *)
Definition open_read (path : string) : M string :=
  fun w =>
    match lookup path (files w) with
    | Some content => (Ok content, w)
    | None => (Raise (OSError path), w)
    end.

(** [open(path, "w")] followed by [json.dump(m, f)]. *)
Definition dump_json (path : string) (m : metrics) : M unit :=
  fun w =>
    if existsb (String.eqb path) (unwritable w) then (Raise (OSError path), w)
    else (Ok tt, add_artifact w path m).

(** ** Loading and validating the records *)

(** The loop of [is_correct_data] over the tokens not yet looked at. *)
Fixpoint check_tokens (line : nat) (patient todo : list string) : M bool :=
  match todo with
  | [] => mret true
  | data :: todo' =>
      match py_float data with
      | Raise _ =>
          _ <~ logging (Error_non_numeric line patient) ;; mret false
      | Ok _ =>
          if data =? "NaN"
          then _ <~ logging (Error_nan_value line patient) ;; mret false
          else check_tokens line patient todo'
      end
  end.

Definition is_correct_data (line : nat) (patient : list string) : M bool :=
  if negb (List.length patient =? 7)%nat
  then _ <~ logging (Error_missing_value line patient) ;; mret false
  else check_tokens line patient patient.

(** The loop [for i, line in enumerate(file)] of [load_patient]; it appends
    to [valid_data]. *)
Fixpoint load_rows (i : nat) (lines : list string) (valid_data : list (list string))
  : M (list (list string)) :=
  match lines with
  | [] => mret valid_data
  | line :: lines' =>
      let patient_data := split comma (strip_nl line) in
      ok <~ is_correct_data (i + 2) patient_data ;;
      load_rows (S i) lines' (if ok then valid_data ++ [patient_data] else valid_data)
  end.

Definition load_patient (path : string) : M (list (list string)) :=
  content <~ open_read path ;;
  let file := readlines content in
  let keys := split comma (strip_nl (hd EmptyString file)) in
  load_rows 0 (tl file) [keys].

(** What the specification asks of a record, in its words: exactly seven
    tokens, each one parses as a float, none is the string "NaN". *)
Definition accepted (patient : list string) : bool :=
  (List.length patient =? 7)%nat
  && forallb (fun data => is_ok (py_float data)) patient
  && forallb (fun data => negb (data =? "NaN")) patient.

(** The token lists of the lines after the header. *)
Definition records_of (content : string) : list (list string) :=
  map (fun line => split comma (strip_nl line)) (tl (readlines content)).

Definition header_of (content : string) : list string :=
  split comma (strip_nl (hd EmptyString (readlines content))).

(** ** From ADC codes to pressure and to flow *)

Open Scope Q_scope.

Definition ADC_to_pascal (ADC_value : Z) : Q :=
  let cm_H2O := (25.4 / inject_Z (14745 - 1638)) * inject_Z (ADC_value - 1638) in
  let pascal := 98.0665 * cm_H2O in
  pascal.

Definition Qltb (x y : Q) : bool := negb (Qle_bool y x).

(** [l[i]] for an index that is not negative. *)
Definition item {A} (l : list A) (i : nat) : result A :=
  match nth_error l i with
  | Some a => Ok a
  | None => Raise IndexError
  end.

(** [numpy.pi]: the binary64 number nearest to pi, as the rational it is. *)
Definition np_pi : Q := 884279719003555 # 281474976710656.

Section Flow.

(** [math.sqrt] where it is defined. *)
Variable sqrt : Q -> Q.

Definition math_sqrt (x : Q) : result Q :=
  if Qltb x 0 then Raise (ValueError "math domain error") else Ok (sqrt x).

Definition flow_calculation (p1 p2 : Q) : result Q :=
  let density := 1.199 in
  let d1 := 15 * 10 ^ (-3) in
  let d2 := 12 * 10 ^ (-3) in
  let A1 := np_pi * (d1 / 2) ^ 2 in
  let A2 := np_pi * (d2 / 2) ^ 2 in
  root <- math_sqrt ((2 / density) * (p1 - p2) / ((A1 / A2) ^ 2 - 1)) ;;
  Ok (A1 * root).

(** The body of the loop of [flow_analysis] for the record [row]: the time
    and the flow it appends. *)
Definition flow_step (row : list string) : result (pyfloat * Q) :=
  tok0 <- item row 0 ;;
  t <- py_float tok0 ;;
  tok1 <- item row 1 ;;
  c2 <- py_int tok1 ;;
  let p2 := ADC_to_pascal c2 in
  tok2 <- item row 2 ;;
  c_ins <- py_int tok2 ;;
  let p1_ins := ADC_to_pascal c_ins in
  tok3 <- item row 3 ;;
  c_exp <- py_int tok3 ;;
  let p1_exp := ADC_to_pascal c_exp in
  Q <- (if Qle_bool p1_exp p1_ins
        then flow_calculation p1_ins p2
        else q <- flow_calculation p1_exp p2 ;; Ok (- q)) ;;
  Ok (t, Q).

(** The loop [for i in range(1, len(valid_data))], over the records still
    to do, appending to [time] and [flow_data]. *)
Fixpoint flow_loop (rows : list (list string)) (time : list pyfloat) (flow_data : list Q)
  : result (list pyfloat * list Q) :=
  match rows with
  | [] => Ok (time, flow_data)
  | row :: rows' =>
      tq <- flow_step row ;;
      flow_loop rows' (time ++ [fst tq]) (flow_data ++ [snd tq])
  end.

Definition flow_analysis (path : string) : M (list pyfloat * list Q) :=
  _ <~ logging (Info_starting_analysis path) ;;
  valid_data <~ load_patient path ;;
  lift (flow_loop (tl valid_data) [] []).

(** The specification's flow equation, in its words. *)
Definition circle_area (diameter : Q) : Q := np_pi * (diameter / 2) ^ 2.

Definition orifice_flow (p1 p2 : Q) : Q :=
  let A1 := circle_area 0.015 in
  let A2 := circle_area 0.012 in
  A1 * sqrt ((2 / 1.199) * (p1 - p2) / ((A1 / A2) ^ 2 - 1)).

Definition signed_flow (p_ins p_exp p2 : Q) : Q :=
  if Qle_bool p_exp p_ins then orifice_flow p_ins p2 else - orifice_flow p_exp p2.

End Flow.

(** A concrete root for closed examples: the square root truncated to
    fifteen decimals. *)
Definition sqrt_15 (x : Q) : Q :=
  inject_Z (Z.sqrt (Qnum x * 10 ^ 30 / Z.pos (Qden x))) / inject_Z (10 ^ 15).

(** ** scipy.signal.find_peaks, for the conditions the program uses

    [find_peaks(x, height=h, prominence=pro, distance=d)] finds the local
    maxima of [x], keeps those of height at least [h], then enforces the
    distance [d] between peaks (peaks are visited from the highest to the
    lowest, a visited peak that is still kept removes every other peak
    closer than [d] samples), then keeps the peaks of prominence at least
    [pro].  [x[i]] is [sample x i]. *)

Module Scipy.

Definition sample (x : list Q) (i : nat) : Q := nth i x 0.

(** The inner loop of [_local_maxima_1d]: the first index from [i_ahead]
    on that is [i_max] or holds a sample different from [x[i]]. *)
Fixpoint plateau_end (fuel : nat) (x : list Q) (i i_ahead i_max : nat) : nat :=
  match fuel with
  | O => i_ahead
  | S fuel' =>
      if (i_ahead <? i_max)%nat && Qeq_bool (sample x i_ahead) (sample x i)
      then plateau_end fuel' x i (S i_ahead) i_max
      else i_ahead
  end.

(** The outer loop of [_local_maxima_1d], from the index [i]: the
    midpoints of the plateaus that rise above both neighbours. *)
Fixpoint local_maxima_loop (fuel : nat) (x : list Q) (i i_max : nat) : list nat :=
  match fuel with
  | O => []
  | S fuel' =>
      if (i <? i_max)%nat then
        if Qltb (sample x (i - 1)) (sample x i) then
          let i_ahead := plateau_end (List.length x) x i (i + 1) i_max in
          if Qltb (sample x i_ahead) (sample x i)
          then ((i + (i_ahead - 1)) / 2)%nat :: local_maxima_loop fuel' x (i_ahead + 1) i_max
          else local_maxima_loop fuel' x (i + 1) i_max
        else local_maxima_loop fuel' x (i + 1) i_max
      else []
  end.

Definition local_maxima_1d (x : list Q) : list nat :=
  local_maxima_loop (List.length x) x 1 (List.length x - 1).

(** [peaks[hmin <= x[peaks]]] *)
Definition select_by_height (x : list Q) (hmin : Q) (peaks : list nat) : list nat :=
  filter (fun p => Qle_bool hmin (sample x p)) peaks.

(** [numpy.argsort] of the priorities [x[peaks]], as the peaks in
    ascending order of priority.  The sort is taken stable (peaks of equal
    priority stay in index order); numpy leaves the order of equal keys
    open. *)
Fixpoint insert_by_priority (x : list Q) (p : nat) (sorted : list nat) : list nat :=
  match sorted with
  | [] => [p]
  | q :: sorted' =>
      if Qle_bool (sample x p) (sample x q) then p :: sorted
      else q :: insert_by_priority x p sorted'
  end.

Definition argsort_priority (x : list Q) (peaks : list nat) : list nat :=
  fold_right (insert_by_priority x) [] peaks.

Definition closer_than (d p q : nat) : bool :=
  ((p - q <? d)%nat && (q - p <? d)%nat).

(** The loop of [_select_by_peak_distance] over the peaks still to visit;
    [kept] are the peaks whose flag is still set, in index order. *)
Fixpoint suppress_neighbours (d : nat) (visit kept : list nat) : list nat :=
  match visit with
  | [] => kept
  | p :: visit' =>
      if existsb (Nat.eqb p) kept
      then suppress_neighbours d visit'
             (filter (fun q => (q =? p)%nat || negb (closer_than d p q)) kept)
      else suppress_neighbours d visit' kept
  end.

Definition select_by_peak_distance (x : list Q) (peaks : list nat) (d : nat) : list nat :=
  suppress_neighbours d (rev (argsort_priority x peaks)) peaks.

(** The walk of [_peak_prominences] away from the peak over the samples
    [walk], while they do not exceed the peak: the lowest sample met. *)
Fixpoint base_min (x_peak lowest : Q) (walk : list Q) : Q :=
  match walk with
  | [] => lowest
  | v :: walk' =>
      if Qle_bool v x_peak
      then base_min x_peak (if Qltb v lowest then v else lowest) walk'
      else lowest
  end.

Definition peak_prominence (x : list Q) (peak : nat) : Q :=
  let x_peak := sample x peak in
  let left_min := base_min x_peak x_peak (rev (firstn (S peak) x)) in
  let right_min := base_min x_peak x_peak (skipn peak x) in
  x_peak - (if Qltb left_min right_min then right_min else left_min).

Definition select_by_prominence (x : list Q) (pmin : Q) (peaks : list nat) : list nat :=
  filter (fun p => Qle_bool pmin (peak_prominence x p)) peaks.

Definition find_peaks (x : list Q) (height prominence : Q) (distance : nat)
  : result (list nat) :=
  if (distance <? 1)%nat
  then Raise (ValueError "`distance` must be greater or equal to 1")
  else
    let peaks := local_maxima_1d x in
    let peaks := select_by_height x height peaks in
    let peaks := select_by_peak_distance x peaks distance in
    let peaks := select_by_prominence x prominence peaks in
    Ok peaks.

(** [_select_by_peak_distance] and [find_peaks] for any order [order] that
    [numpy.argsort] returns for the priorities of the peaks the height
    condition leaves, given as these peaks in ascending order of priority:
    numpy's default sort is not stable, so the order of peaks of equal
    priority is not determined. *)
Definition select_by_peak_distance_in (order peaks : list nat) (d : nat) : list nat :=
  suppress_neighbours d (rev order) peaks.

Definition find_peaks_in (order : list nat) (x : list Q) (height prominence : Q)
    (distance : nat) : result (list nat) :=
  if (distance <? 1)%nat
  then Raise (ValueError "`distance` must be greater or equal to 1")
  else
    let peaks := local_maxima_1d x in
    let peaks := select_by_height x height peaks in
    let peaks := select_by_peak_distance_in order peaks distance in
    let peaks := select_by_prominence x prominence peaks in
    Ok peaks.

End Scipy.

(** ** Breaths, apnea, leakage and the metrics *)

(** [l[start:stop]] for indices that are not negative. *)
Definition py_slice {A} (l : list A) (start stop : nat) : list A :=
  firstn (stop - start) (skipn start l).

(** [0 in l] *)
Definition contains_zero (l : list Q) : bool := existsb (fun v => Qeq_bool v 0) l.

(** [any(n < 0 for n in l)] *)
Definition any_negative (l : list Q) : bool := existsb (fun n => Qltb n 0) l.

(** The loop [for i in range(length-1)] of [count_breaths] over the peaks
    from [peaks[i]] on, appending to [valid_peaks]. *)
Fixpoint validate_peaks (flow_data : list Q) (peaks valid_peaks : list nat)
  : result (list nat) :=
  match peaks with
  | peak :: ((next :: _) as peaks') =>
      let check_zero := contains_zero (py_slice flow_data peak next) in
      let check_negative := any_negative (py_slice flow_data peak next) in
      after <- item flow_data (peak + 1) ;;
      let check_time := negb (Qeq_bool after 0) in
      validate_peaks flow_data peaks'
        (if check_time && (check_zero || check_negative)
         then valid_peaks ++ [peak] else valid_peaks)
  | _ => Ok valid_peaks
  end.

Definition count_breaths (flow_data : list Q) (h pro : Q) (d : nat) : result (list nat * nat) :=
  peaks <- Scipy.find_peaks flow_data h pro d ;;
  if (List.length peaks =? 0)%nat then Ok ([], 0%nat)
  else
    valid_peaks <- validate_peaks flow_data peaks [] ;;
    let final := last peaks 0%nat in
    let valid_peaks :=
      if contains_zero (py_slice flow_data final (List.length flow_data - 1))
      then valid_peaks ++ [final] else valid_peaks in
    Ok (valid_peaks, List.length valid_peaks).

(** The defaults of [count_breaths]: [h=11e-5, pro=2.5e-4, d=49]. *)
Definition default_h : Q := 11e-5.
Definition default_pro : Q := 2.5e-4.
Definition default_d : nat := 49.

Definition t_vs_flow : Type := list Q * list Q.

Definition calculate_duration (tf : t_vs_flow) : result Q :=
  let time := fst tf in
  match time with
  | [] => Raise IndexError
  | first :: _ => Ok (last time 0 - first)
  end.

Definition calculate_breath_rate_bpm (tf : t_vs_flow) : result Q :=
  duration <- calculate_duration tf ;;
  counted <- count_breaths (snd tf) default_h default_pro default_d ;;
  let breaths := snd counted in
  if Qeq_bool duration 0 then Raise ZeroDivisionError
  else Ok (inject_Z (Z.of_nat breaths) / duration * 60).

(** [time[valid_peaks].tolist()] *)
Fixpoint take_items (time : list Q) (valid_peaks : list nat) : result (list Q) :=
  match valid_peaks with
  | [] => Ok []
  | p :: ps => t <- item time p ;; ts <- take_items time ps ;; Ok (t :: ts)
  end.

Definition calculate_breath_times (tf : t_vs_flow) : result (list Q) :=
  let '(time, flow_data) := tf in
  counted <- count_breaths flow_data default_h default_pro default_d ;;
  let '(valid_peaks, breaths) := counted in
  if (breaths =? 0)%nat then Ok [] else take_items time valid_peaks.

(** The loop of [count_apnea] over the breath times from index [i] on. *)
Fixpoint apnea_loop (breath_times : list Q) (apnea_count : nat) : nat :=
  match breath_times with
  | t :: ((t' :: _) as rest) =>
      apnea_loop rest (if Qltb 10 (t' - t) then apnea_count + 1 else apnea_count)%nat
  | _ => apnea_count
  end.

Definition count_apnea_of (breath_times : list Q) : nat :=
  match breath_times with
  | [] => 0%nat
  | _ => apnea_loop breath_times 0
  end.

Definition count_apnea (tf : t_vs_flow) : result nat :=
  breath_times <- calculate_breath_times tf ;;
  Ok (count_apnea_of breath_times).

(** [numpy.diff] *)
Fixpoint np_diff (a : list Q) : list Q :=
  match a with
  | x :: ((y :: _) as a') => (y - x) :: np_diff a'
  | _ => []
  end.

(** The loop [for i in range(len(flow) - 1)] of [calculate_leakage] over
    the indices still to do. *)
Fixpoint leakage_loop (flow dt : list Q) (range : list nat) (total_leakage : Q) : result Q :=
  match range with
  | [] => Ok total_leakage
  | i :: range' =>
      f <- item flow i ;;
      step <- item dt i ;;
      leakage_loop flow dt range' (total_leakage + f * step)
  end.

Definition calculate_leakage (tf : t_vs_flow) : M Q :=
  let '(time, flow) := tf in
  let dt := np_diff time in
  total_leakage <~ lift (leakage_loop flow dt (seq 0 (List.length flow - 1)) 0) ;;
  let total_leakage_liters := total_leakage * 1000 in
  _ <~ (if Qltb total_leakage_liters 0 then logging Warning_negative_leakage else mret tt) ;;
  mret total_leakage_liters.

(** [os.path.basename] *)
Definition basename (p : string) : string := last (split "/"%char p) EmptyString.

(** [sep.join(pieces)] *)
Fixpoint join (sep : string) (pieces : list string) : string :=
  match pieces with
  | [] => EmptyString
  | [s] => s
  | s :: pieces' => (s ++ sep ++ join sep pieces')%string
  end.

(** [os.path.splitext(name)[0]] for a name without directory: the name up
    to its last dot, unless only dots come before that dot. *)
Definition splitext_root (name : string) : string :=
  let before := removelast (split "."%char name) in
  if existsb (fun s => negb (s =? EmptyString)%string) before then join "." before else name.

Definition get_metrics (tf : t_vs_flow) (input_file : string) : M metrics :=
  duration <~ lift (calculate_duration tf) ;;
  counted <~ lift (count_breaths (snd tf) default_h default_pro default_d) ;;
  let breaths := snd counted in
  breath_rate_bpm <~ lift (calculate_breath_rate_bpm tf) ;;
  breath_times <~ lift (calculate_breath_times tf) ;;
  apnea_count <~ lift (count_apnea tf) ;;
  leakage <~ calculate_leakage tf ;;
  let metrics :=
    {| duration := duration; breaths := breaths; breath_rate_bpm := breath_rate_bpm;
       breath_times := breath_times; apnea_count := apnea_count; leakage := leakage |} in
  let output_file := (splitext_root (basename input_file) ++ ".json")%string in
  _ <~ dump_json output_file metrics ;;
  mret metrics.

(** ** The specification's own formulations, to compare the code with *)

(** The adjacent pairs of a sequence. *)
Definition adjacent_pairs {A} (l : list A) : list (A * A) := combine l (tl l).

(** The adjacent breath times more than 10 seconds apart. *)
Definition gaps_over_10 (breath_times : list Q) : list (Q * Q) :=
  filter (fun tt' => if Qlt_le_dec 10 (snd tt' - fst tt') then true else false)
         (adjacent_pairs breath_times).

(** The left-endpoint sum: [flow[i] * (time[i+1] - time[i])] over the
    consecutive pairs of index-aligned sequences. *)
Fixpoint rectangle_sum (time flow : list Q) : Q :=
  match time, flow with
  | t :: ((t' :: _) as time'), f :: flow' => f * (t' - t) + rectangle_sum time' flow'
  | _, _ => 0
  end.

(** The text of a file from its lines: each line is followed by a newline. *)
Fixpoint unlines (ls : list string) : string :=
  match ls with
  | [] => EmptyString
  | l :: ls' => (l ++ String newline (unlines ls'))%string
  end.

Definition empty_world : world :=
  {| files := []; unwritable := []; artifacts := []; log := [] |}.

(** A world with one readable file. *)
Definition world_with_file (path content : string) : world :=
  {| files := [(path, content)]; unwritable := []; artifacts := []; log := [] |}.

(** A recording with a header and five records: the validator rejects
    three (a word, too few fields, the string "NaN") and accepts two, one of
    them with the lower-case "nan" in its last field. *)
Definition sample_recording : string :=
  unlines ["t,p2,pi,pe,a,b,c"; "0,1638,1700,1638,0,0,0"; "1,x,1700,1638,0,0,0";
           "2,1638,1700"; "3,1638,NaN,1638,0,0,0"; "4,1638,1638,1700,0,0,nan"].

(** The three pressures of a record: constriction, inspiratory upstream and
    expiratory upstream, from the ADC codes in its fields 1, 2 and 3. *)
Definition row_pressures (row : list string) : option (Q * Q * Q) :=
  match row with
  | _ :: tok1 :: tok2 :: tok3 :: _ =>
      match py_int tok1, py_int tok2, py_int tok3 with
      | Ok c2, Ok c_ins, Ok c_exp =>
          Some (ADC_to_pascal c2, ADC_to_pascal c_ins, ADC_to_pascal c_exp)
      | _, _, _ => None
      end
  | _ => None
  end.

(** The upstream pressure of the selected branch: the larger of the two. *)
Definition selected_upstream (p_ins p_exp : Q) : Q :=
  if Qle_bool p_exp p_ins then p_ins else p_exp.

(** The argument of the square root in the flow equation. *)
Definition radicand (p1 p2 : Q) : Q :=
  (2 / 1.199) * (p1 - p2) / ((circle_area 0.015 / circle_area 0.012) ^ 2 - 1).

(** The record [row] gives the flow [q] of the specification's equation. *)
Definition emits (sqrt : Q -> Q) (row : list string) (q : Q) : Prop :=
  exists p2 p_ins p_exp,
    row_pressures row = Some (p2, p_ins, p_exp) /\ q = signed_flow sqrt p_ins p_exp p2.

(** The record's selected branch has its upstream pressure below the
    constriction pressure. *)
Definition offending (row : list string) : Prop :=
  exists p2 p_ins p_exp,
    row_pressures row = Some (p2, p_ins, p_exp) /\ selected_upstream p_ins p_exp < p2.

(** Two recordings whose only offending record (expiratory branch selected,
    upstream pressure below the constriction pressure) is the first,
    respectively the second, accepted record. *)
Definition recording_offending_first : string :=
  unlines ["t,p2,pi,pe,a,b,c"; "0,1700,1638,1650,0,0,0"; "1,1638,1700,1638,0,0,0"].

Definition recording_offending_second : string :=
  unlines ["t,p2,pi,pe,a,b,c"; "0,1638,1700,1638,0,0,0"; "1,1700,1638,1650,0,0,0"].

(** A recording whose record passes the validation with the ADC field
    "4.5". *)
Definition recording_fractional_code : string :=
  unlines ["t,p2,pi,pe,a,b,c"; "0,4.5,1700,1638,0,0,0"].

(** The dictionary [get_metrics] builds, before it is written. *)
Definition build_metrics (tf : t_vs_flow) : M metrics :=
  duration <~ lift (calculate_duration tf) ;;
  counted <~ lift (count_breaths (snd tf) default_h default_pro default_d) ;;
  breath_rate_bpm <~ lift (calculate_breath_rate_bpm tf) ;;
  breath_times <~ lift (calculate_breath_times tf) ;;
  apnea_count <~ lift (count_apnea tf) ;;
  leakage <~ calculate_leakage tf ;;
  mret {| duration := duration; breaths := snd counted; breath_rate_bpm := breath_rate_bpm;
          breath_times := breath_times; apnea_count := apnea_count; leakage := leakage |}.

(** The name of the artifact of [get_metrics]. *)
Definition output_file_of (input_file : string) : string :=
  (splitext_root (basename input_file) ++ ".json")%string.

(** The file next to the input file: the directory of the input path, then
    the stem of its name with the extension [.json]. *)
Definition sibling_json (input_file : string) : string :=
  match removelast (split "/"%char input_file) with
  | [] => output_file_of input_file
  | directory => (join "/" directory ++ "/" ++ output_file_of input_file)%string
  end.

(** Scenario A of the specification: four samples of zero flow. *)
Definition flat_recording : t_vs_flow := ([0; 1; 2; 3], [0; 0; 0; 0]).

Definition world_unwritable (paths : list string) : world :=
  {| files := []; unwritable := paths; artifacts := []; log := [] |}.

(** [l] is strictly increasing and lies in the interval [[lo, hi)]. *)
Fixpoint increasing_within (lo hi : nat) (l : list nat) : Prop :=
  match l with
  | [] => True
  | p :: l' => (lo <= p < hi)%nat /\ increasing_within (S p) hi l'
  end.

(** The cycle-completion rule in the specification's words.  A window is a
    half-open interval of sample indices. *)
Definition zero_in_window (flow : list Q) (lo hi : nat) : Prop :=
  exists k v, (lo <= k < hi)%nat /\ nth_error flow k = Some v /\ v == 0.

Definition negative_in_window (flow : list Q) (lo hi : nat) : Prop :=
  exists k v, (lo <= k < hi)%nat /\ nth_error flow k = Some v /\ v < 0.

Definition returns_to_baseline (flow : list Q) (peak next : nat) : Prop :=
  zero_in_window flow peak next.

Definition goes_negative (flow : list Q) (peak next : nat) : Prop :=
  negative_in_window flow peak next.

Definition cycle_started (flow : list Q) (peak : nat) : Prop :=
  exists v, nth_error flow (peak + 1) = Some v /\ ~ v == 0.

Definition accepts_pair (flow : list Q) (peak next : nat) : Prop :=
  cycle_started flow peak /\ (returns_to_baseline flow peak next \/ goes_negative flow peak next).

Definition accepts_final (flow : list Q) (peak : nat) : Prop :=
  zero_in_window flow peak (List.length flow - 1).

(** The same rule as a filter over the candidate peaks. *)
Definition keep_pair (flow : list Q) (peak next : nat) : bool :=
  negb (Qeq_bool (nth (peak + 1) flow 0) 0)
  && (contains_zero (py_slice flow peak next) || any_negative (py_slice flow peak next)).

Definition keep_final (flow : list Q) (peak : nat) : bool :=
  contains_zero (py_slice flow peak (List.length flow - 1)).

Fixpoint accepted_peaks (flow : list Q) (peaks : list nat) : list nat :=
  match peaks with
  | [] => []
  | peak :: peaks' =>
      match peaks' with
      | [] => if keep_final flow peak then [peak] else []
      | next :: _ =>
          if keep_pair flow peak next
          then peak :: accepted_peaks flow peaks'
          else accepted_peaks flow peaks'
      end
  end.

(** A flow with three local maxima: two of height 10e-4 at the indices 1
    and 120, and one of height 4e-4 at the index 60, whose next sample is
    the only zero between the high peaks. *)
Definition flow_with_low_peak : list Q :=
  [0; 10e-4] ++ repeat 1e-4 58 ++ [4e-4; 0] ++ repeat 1e-4 58 ++ [10e-4; 0; 0].

(** The worlds [w] and [w'] differ at most in their logs. *)
Definition same_files (w w' : world) : Prop :=
  files w' = files w /\ unwritable w' = unwritable w /\ artifacts w' = artifacts w.

(** Scenarios B and C of the specification: two breaths, each followed by a
    return to zero, sampled every [dt] seconds. *)
Definition flow_two_breaths : list Q :=
  [0; 10e-4; 5e-4; 0] ++ repeat 0 56 ++ [10e-4; 5e-4; 0; 0].

Definition sampled_every (dt : Q) (n : nat) : list Q :=
  map (fun i => inject_Z (Z.of_nat i) * dt) (seq 0 n).

(** ** The order of peaks of equal height *)

(** The peaks the height condition leaves: the local maxima of height at
    least [h]. *)
Definition candidates (x : list Q) (h : Q) : list nat :=
  Scipy.select_by_height x h (Scipy.local_maxima_1d x).

(** [order] is an order [numpy.argsort] can return for the priorities of
    [peaks]: the peaks rearranged so that the priorities never decrease,
    peaks of equal priority in any order. *)
Definition is_argsort (x : list Q) (peaks order : list nat) : Prop :=
  Permutation order peaks
  /\ StronglySorted (fun p q => Scipy.sample x p <= Scipy.sample x q) order.


(** [a] comes before some occurrence of [b] in [l]. *)
Definition before {A} (a b : A) (l : list A) : Prop :=
  exists l1 l2, l = l1 ++ a :: l2 /\ In b l2.



(** Three peaks of height 1 at the indices 2, 6 and 10, four samples apart,
    and a peak of height 1/4 at the index 4. *)
Definition tied_flow : list Q := [0; 0; 1; 0; 1 # 4; 0; 1; 0; 0; 0; 1; 0].

(** * The patient station and the server: what is uploaded and how it is
    validated (validate.py, patient_interface.py, server.py) *)

(** ** JSON values and Python dictionaries

    The values [request.get_json()] yields and [requests.post(json=...)]
    sends.  A dictionary is the list of its items in insertion order, its
    keys distinct. *)

#[warnings="-register-all"]
Inductive json : Type :=
| JNone
| JBool (b : bool)
| JInt (z : Z)
| JFloat (f : pyfloat)
| JStr (s : string)
| JList (items : list json)
| JDict (entries : list (string * json)).

Definition dict : Type := list (string * json).

(** [key in d] *)
Definition has_key (d : dict) (key : string) : bool :=
  match lookup key d with Some _ => true | None => false end.

(** [d[key] = v] *)
Fixpoint dict_set (d : dict) (key : string) (v : json) : dict :=
  match d with
  | [] => [(key, v)]
  | (k, v') :: d' => if (k =? key)%string then (k, v) :: d' else (k, v') :: dict_set d' key v
  end.

(** The classes the validation tests with [isinstance]; [bool] is a
    subclass of [int]. *)
Inductive pytype : Type := Py_int | Py_str | Py_list | Py_dict.

Definition isinstance (v : json) (t : pytype) : bool :=
  match t, v with
  | Py_int, (JInt _ | JBool _) => true
  | Py_str, JStr _ => true
  | Py_list, JList _ => true
  | Py_dict, JDict _ => true
  | _, _ => false
  end.

(** ** validate.py

    Both functions return [True] or the text of an error. *)

Inductive verdict : Type :=
| Valid
| Invalid (message : string).

(** The loop over [zip(expected_keys, expected_types)]. *)
Fixpoint check_expected (expected : list (string * pytype)) (in_data : dict) : verdict :=
  match expected with
  | [] => Valid
  | (key, expected_type) :: expected' =>
      match lookup key in_data with
      | None => Invalid ("The " ++ key ++ " was not found.")
      | Some v =>
          if negb (isinstance v expected_type)
          then Invalid ("Invalid type for key '" ++ key ++ "'.")
          else check_expected expected' in_data
      end
  end.

(** The loop over [required_data_keys] for one entry. *)
Fixpoint check_required (required_data_keys : list string) (entry : dict) : verdict :=
  match required_data_keys with
  | [] => Valid
  | key :: keys' =>
      if negb (has_key entry key)
      then Invalid ("Missing key '" ++ key ++ "' in data entry.")
      else check_required keys' entry
  end.

Definition required_data_keys : list string :=
  ["cpap_pressure"; "breathing_rate"; "apnea_count"; "flow_image_base64"].

(** The loop [for entry in in_data["data"]]. *)
Fixpoint check_entries (entries : list json) : verdict :=
  match entries with
  | [] => Valid
  | entry :: entries' =>
      match entry with
      | JDict e =>
          match check_required required_data_keys e with
          | Valid => check_entries entries'
          | Invalid message => Invalid message
          end
      | _ => Invalid "Each entry in 'data' must be a dictionary."
      end
  end.

Definition validate_input_data (in_data : dict) : verdict :=
  match check_expected [("mrn", Py_int); ("room", Py_int)] in_data with
  | Invalid message => Invalid message
  | Valid =>
      if match lookup "name" in_data with
         | Some name => negb (isinstance name Py_str)
         | None => false
         end
      then Invalid "Invalid type for key 'name'. Expected str."
      else
        match lookup "data" in_data with
        | Some data =>
            match data with
            | JList [] => Valid
            | JList entries => check_entries entries
            | _ => Invalid "Invalid type for key 'data'. Expected list."
            end
        | None => Valid
        end
  end.

(** The integer a value of class [int] compares as: [True] is 1 and
    [False] is 0. *)
Definition int_value (v : json) : Z :=
  match v with
  | JInt z => z
  | JBool true => 1
  | _ => 0
  end.

Definition validate_cpap_data (cpap_value : json) : verdict :=
  if negb (isinstance cpap_value Py_int)
  then Invalid "The CPAP entry must be an integer."
  else if negb ((4 <=? int_value cpap_value)%Z && (int_value cpap_value <=? 25)%Z)
  then Invalid "CPAP value out of range. Must be between 4 and 25 inclusive."
  else Valid.

(** ** patient_interface.py: the record the station uploads *)

(** What [read_file_as_b64] (module [image_toolbox], not part of the
    repository) does for a file name: it returns the encoded content or
    raises an exception, of which only the text [str(e)] is used. *)
Inductive file_read : Type :=
| Encoded (b64 : string)
| Read_error (str_e : string).

(** [str(b)] of a boolean, as [print] shows it. *)
Definition str_of_bool (b : bool) : string := if b then "True" else "False".

Definition no_data : string := "No available data".

Section Station.

Variable read_file_as_b64 : string -> file_read.

(** The [try] block of [generate_json_file] that builds the data entry:
    the entry, or the text of the exception raised in the block. *)
Definition data_entry (cpap_value BR apnea_count : string) : dict + string :=
  match py_int cpap_value with
  | Raise (ValueError msg) => inr msg
  | Raise _ => inr EmptyString
  | Ok cpap_pressure =>
      match validate_cpap_data (JInt cpap_pressure) with
      | Invalid cpap_check => inr cpap_check
      | Valid =>
          match py_float BR with
          | Raise (ValueError msg) => inr msg
          | Raise _ => inr EmptyString
          | Ok breathing_rate =>
              match py_int apnea_count with
              | Raise (ValueError msg) => inr msg
              | Raise _ => inr EmptyString
              | Ok apnea =>
                  match read_file_as_b64 "flow_plot.jpg" with
                  | Read_error str_e => inr str_e
                  | Encoded b64 =>
                      inl [("cpap_pressure", JInt cpap_pressure);
                           ("breathing_rate", JFloat breathing_rate);
                           ("apnea_count", JInt apnea);
                           ("flow_image_base64", JStr b64)]
                  end
              end
          end
      end
  end.

(** [generate_json_file]: the lines it prints, and the dictionary it
    returns or the exception it raises. *)
Definition generate_json_file (mrn_value room_value name_value cpap_value BR apnea_count : string)
  : list string * result dict :=
  if (mrn_value =? EmptyString)%string || (room_value =? EmptyString)%string
  then ([], Raise (ValueError "MRN and Room Number are required."))
  else
    match py_int mrn_value, py_int room_value with
    | Ok mrn, Ok room =>
        let out_json := [("mrn", JInt mrn); ("room", JInt room)] in
        let out_json :=
          if negb (name_value =? EmptyString)%string
          then dict_set out_json "name" (JStr name_value) else out_json in
        let check_cpap := negb (cpap_value =? EmptyString)%string in
        let check_data := negb (BR =? no_data)%string && negb (apnea_count =? no_data)%string in
        let printed := [(BR ++ " " ++ apnea_count)%string;
                        ("cpap check: " ++ str_of_bool check_cpap)%string;
                        ("cal_check: " ++ str_of_bool check_data)%string] in
        if negb check_cpap && negb check_data then (printed, Ok out_json)
        else if check_cpap && negb check_data
        then (printed,
              Raise (ValueError "Cannot upload CPAP pressure without CPAP calculated data."))
        else if negb check_cpap && check_data
        then (printed,
              Raise (ValueError "Cannot upload CPAP calculated data without CPAP pressure."))
        else
          match data_entry cpap_value BR apnea_count with
          | inl entry => (printed, Ok (dict_set out_json "data" (JList [JDict entry])))
          | inr str_e => (printed, Raise (ValueError ("Invalid CPAP pressure: " ++ str_e)))
          end
    | _, _ => ([], Raise (ValueError "MRN and Room Number must be integers."))
    end.

End Station.

(** ** server.py: a CPAP entry of the database *)

Module Server.

Record CPAPdata : Type := {
  cpap_pressure : json;
  breathing_rate : json;
  apnea_count : json;
  flow_image_base64 : json;
  timestamp : Z
}.

Inductive raised : Type :=
| KeyError (key : string)
| ValueError (msg : string).

(** [entry[key]] *)
Definition getitem (entry : dict) (key : string) : json + raised :=
  match lookup key entry with
  | Some v => inl v
  | None => inr (KeyError key)
  end.

(** [create_cpap_entry(entry)], [now] being what [datetime.now()] returns:
    the new [CPAPdata], or the exception raised. *)
Definition create_cpap_entry (now : Z) (entry : dict) : CPAPdata + raised :=
  match getitem entry "cpap_pressure" with
  | inr e => inr e
  | inl pressure =>
      match validate_cpap_data pressure with
      | Invalid cpap_check => inr (ValueError cpap_check)
      | Valid =>
          match getitem entry "breathing_rate" with
          | inr e => inr e
          | inl rate =>
              match getitem entry "apnea_count" with
              | inr e => inr e
              | inl apnea =>
                  match getitem entry "flow_image_base64" with
                  | inr e => inr e
                  | inl image =>
                      inl {| cpap_pressure := pressure; breathing_rate := rate;
                             apnea_count := apnea; flow_image_base64 := image;
                             timestamp := now |}
                  end
              end
          end
      end
  end.

End Server.

(** ** Notions used to state further properties of the code *)

(** The samples [p] and [q] are at least [d] samples apart. *)
Definition apart (d p q : nat) : Prop := (p + d <= q \/ q + d <= p)%nat.

(** The timestamps never decrease. *)
Definition nondecreasing (time : list Q) : Prop :=
  forall i j, (i <= j < List.length time)%nat -> nth i time 0 <= nth j time 0.

(** No character of [s] is [c]. *)
Fixpoint free_of (c : ascii) (s : string) : bool :=
  match s with
  | EmptyString => true
  | String c' r => negb (Ascii.eqb c' c) && free_of c r
  end.

(** A field of a comma-separated line: no comma, no newline. *)
Definition plain_field (s : string) : bool := free_of comma s && free_of newline s.

(** A line of fields: at least one field, all of them plain. *)
Definition plain_row (row : list string) : Prop :=
  row <> [] /\ Forall (fun field => plain_field field = true) row.

(** The comma-separated text of a header and rows. *)
Definition csv_text (header : list string) (rows : list (list string)) : string :=
  unlines (map (join ",") (header :: rows)).

(** The entry has the four keys a CPAP entry is built from. *)
Definition has_required_keys (entry : dict) : Prop :=
  Forall (fun key => has_key entry key = true) required_data_keys.

(** What [validate_input_data] asks of an upload: an [mrn] and a [room] of
    class [int]; a [name], if there is one, of class [str]; a [data], if
    there is one, that is a list of dictionaries with the four keys of a
    CPAP entry. *)
Definition well_formed_upload (in_data : dict) : Prop :=
  (exists mrn, lookup "mrn" in_data = Some mrn /\ isinstance mrn Py_int = true)
  /\ (exists room, lookup "room" in_data = Some room /\ isinstance room Py_int = true)
  /\ (forall name, lookup "name" in_data = Some name -> exists s, name = JStr s)
  /\ (forall data, lookup "data" in_data = Some data ->
        exists entries,
          data = JList entries
          /\ Forall (fun entry => exists e, entry = JDict e /\ has_required_keys e) entries).

Definition range_message : string :=
  "CPAP value out of range. Must be between 4 and 25 inclusive.".

(** The data entry the station uploads for a pressure, a breathing rate, an
    apnea count and the encoded flow plot. *)
Definition uploaded_entry (p : Z) (rate : pyfloat) (apnea : Z) (b64 : string) : dict :=
  [("cpap_pressure", JInt p); ("breathing_rate", JFloat rate);
   ("apnea_count", JInt apnea); ("flow_image_base64", JStr b64)].

(** A reader of image files that always succeeds, and one that always
    fails. *)
Definition reads_as (b64 : string) (path : string) : file_read := Encoded b64.
Definition read_fails (str_e : string) (path : string) : file_read := Read_error str_e.

(** An upload as a client other than the station could send it: the four
    keys are there, the pressure is one the server does not take. *)
Definition foreign_upload (pressure : json) : dict :=
  [("mrn", JInt 7); ("room", JInt 3);
   ("data", JList [JDict [("cpap_pressure", pressure); ("breathing_rate", JInt 12);
                          ("apnea_count", JNone); ("flow_image_base64", JInt 0)]])].

(** The part of an uploaded record that identifies the patient. *)
Definition patient_part (mrn room : Z) (name_value : string) : dict :=
  [("mrn", JInt mrn); ("room", JInt room)]
  ++ (if (name_value =? EmptyString)%string then [] else [("name", JStr name_value)]).

(** A token the validation lets pass: [float] reads it and it is not the
    string NaN. *)
Definition fine (data : string) : bool := is_ok (py_float data) && negb (data =? "NaN").

(** The error the validation logs for the record [tokens] of the line
    [line], if it logs one: a wrong number of tokens, or else what is wrong
    with the first token that is not fine. *)
Definition rejection_of (line : nat) (tokens : list string) : option log_record :=
  if negb (List.length tokens =? 7)%nat then Some (Error_missing_value line tokens)
  else
    match find (fun data => negb (fine data)) tokens with
    | Some data =>
        Some (if is_ok (py_float data) then Error_nan_value line tokens
              else Error_non_numeric line tokens)
    | None => None
    end.

(** The records with their line numbers in the file, the header being
    line 1. *)
Definition numbered (first : nat) (records : list (list string)) : list (nat * list string) :=
  combine (seq first (List.length records)) records.

(** The errors to log for the records: one for each rejected record, in
    the order of the lines. *)
Definition rejections (first : nat) (records : list (list string)) : list log_record :=
  flat_map (fun '(line, tokens) =>
              match rejection_of line tokens with Some r => [r] | None => [] end)
           (numbered first records).


(** The times [flow_analysis] returns, as the rationals the metrics are
    modelled over, when all of them are finite.  [float] reads the words
    inf and nan too; with such a time the metrics of the source are NaN,
    zero or infinite, which the model of the metrics leaves out. *)
Fixpoint finite_times (times : list pyfloat) : option (list Q) :=
  match times with
  | [] => Some []
  | Finite q :: times' =>
      match finite_times times' with
      | Some time => Some (q :: time)
      | None => None
      end
  | _ :: _ => None
  end.

(** * Checks of the model on concrete inputs *)

Example py_float_examples :
  map (fun s => is_ok (py_float s))
      ["1"; "4.5"; "-.5"; "5."; "1e3"; "1_000.2_5E-1_0"; " 7 "; "NaN"; "-inF"; "Infinity";
       EmptyString; "."; "1__0"; "_1"; "1_"; "1e"; "e5"; "1._5"; "0x10"; "1 2"; "abc"; "+-1"]
  = [true; true; true; true; true; true; true; true; true; true;
     false; false; false; false; false; false; false; false; false; false; false; false].
Proof. vm_compute. reflexivity. Qed.

Example py_int_examples :
  map py_int ["12"; "-7"; "+1_000"; " 42 "; "007"]
  = [Ok 12%Z; Ok (-7)%Z; Ok 1000%Z; Ok 42%Z; Ok 7%Z]
  /\ map (fun s => is_ok (py_int s)) ["4.5"; "1e3"; EmptyString; "1__0"; "12a"; "nan"]
     = [false; false; false; false; false; false].
Proof. split; vm_compute; reflexivity. Qed.

Example py_float_values :
  py_float "4.5" = Ok (Finite (45 * 10 ^ (-1))%Q)
  /\ py_float "-1.25e2" = Ok (Finite (- (125 * 10 ^ 0))%Q).
Proof. split; reflexivity. Qed.

Example split_examples :
  split comma "a,b,,c" = ["a"; "b"; EmptyString; "c"] /\ split comma EmptyString = [EmptyString]
  /\ readlines ("h1,h2" ++ String newline "1,2" ++ String newline "3,4")
     = [("h1,h2" ++ String newline EmptyString)%string; ("1,2" ++ String newline EmptyString)%string; "3,4"]
  /\ strip_nl ("1,2" ++ String newline EmptyString) = "1,2".
Proof. repeat split; reflexivity. Qed.

Example find_peaks_examples :
  Scipy.local_maxima_1d [0; 1; 0; 2; 2; 2; 1; 3; 3; 5; 4; 4] = [1; 4; 9]%nat
  /\ Scipy.find_peaks [0; 1; 0; 2; 2; 2; 1; 3; 3; 5; 4; 4] 2 0 1 = Ok [4; 9]%nat
  /\ Scipy.find_peaks [0; 1; 0; 2; 2; 2; 1; 3; 3; 5; 4; 4] 0 0 6 = Ok [1; 9]%nat
  /\ Scipy.find_peaks [0; 1; 0; 2; 2; 2; 1; 3; 3; 5; 4; 4] 0 2 1 = Ok []
  /\ map (Scipy.peak_prominence [0; 1; 0; 2; 2; 2; 1; 3; 3; 5; 4; 4]) [1; 4; 9]%nat
     = [1 - 0; 2 - 1; 5 - 4].
Proof. repeat split; vm_compute; reflexivity. Qed.

Example basename_splitext_examples :
  map (fun p => splitext_root (basename p))
      ["sample_data/patient_02.txt"; "p.txt"; "a.b.c"; ".bashrc"; "dir.d/x"; "/abs/a."; "..a"]
  = ["patient_02"; "p"; "a.b"; ".bashrc"; "x"; "a"; "..a"].
Proof. reflexivity. Qed.

Example count_apnea_example : count_apnea_of [0; 5; 17; 20] = 1%nat.
Proof. reflexivity. Qed.

Example get_metrics_flat_recording :
  get_metrics flat_recording "sample_data/patient_02.txt" empty_world
  = (Ok {| duration := 3 - 0; breaths := 0; breath_rate_bpm := 0 / (3 - 0) * 60;
           breath_times := []; apnea_count := 0; leakage := (0 + 0 * (1 - 0) + 0 * (2 - 1) + 0 * (3 - 2)) * 1000 |},
     add_artifact empty_world "patient_02.json"
       {| duration := 3 - 0; breaths := 0; breath_rate_bpm := 0 / (3 - 0) * 60;
          breath_times := []; apnea_count := 0; leakage := (0 + 0 * (1 - 0) + 0 * (2 - 1) + 0 * (3 - 2)) * 1000 |}).
Proof. vm_compute. reflexivity. Qed.

Example sibling_json_example :
  sibling_json "sample_data/patient_02.txt" = "sample_data/patient_02.json".
Proof. reflexivity. Qed.

Example find_peaks_flow_with_low_peak :
  Scipy.find_peaks flow_with_low_peak default_h default_pro default_d = Ok [1; 60; 120]%nat
  /\ Scipy.find_peaks flow_with_low_peak 5e-4 default_pro default_d = Ok [1; 120]%nat
  /\ count_breaths flow_with_low_peak default_h default_pro default_d = Ok ([120]%nat, 1%nat)
  /\ count_breaths flow_with_low_peak 5e-4 default_pro default_d = Ok ([1; 120]%nat, 2%nat).
Proof. repeat split; vm_compute; reflexivity. Qed.

Example load_patient_logs_rejected_lines :
  log (snd (load_patient "p.txt" (world_with_file "p.txt" sample_recording)))
  = [Error_non_numeric 3 ["1"; "x"; "1700"; "1638"; "0"; "0"; "0"];
     Error_missing_value 4 ["2"; "1638"; "1700"];
     Error_nan_value 5 ["3"; "1638"; "NaN"; "1638"; "0"; "0"; "0"]].
Proof. vm_compute. reflexivity. Qed.

Example load_patient_missing_file :
  fst (load_patient "q.txt" (world_with_file "p.txt" sample_recording)) = Raise (OSError "q.txt").
Proof. reflexivity. Qed.

Example two_breaths_close :
  let tf := (sampled_every 0.1 64, flow_two_breaths) in
  count_breaths flow_two_breaths default_h default_pro default_d = Ok ([1; 60]%nat, 2%nat)
  /\ calculate_breath_times tf = Ok [1 * 0.1; 60 * 0.1]
  /\ count_apnea tf = Ok 0%nat.
Proof. repeat split; vm_compute; reflexivity. Qed.

Example two_breaths_apart :
  let tf := (sampled_every 0.2 64, flow_two_breaths) in
  calculate_breath_times tf = Ok [1 * 0.2; 60 * 0.2]
  /\ count_apnea tf = Ok 1%nat.
Proof. repeat split; vm_compute; reflexivity. Qed.

Example breath_rate_of_single_sample :
  calculate_breath_rate_bpm ([5], [0]) = Raise ZeroDivisionError
  /\ calculate_duration ([], []) = Raise IndexError.
Proof. split; reflexivity. Qed.

Example negative_leakage_is_logged :
  calculate_leakage ([0; 1; 3], [-2; 1; 0]) empty_world
  = (Ok ((0 + -2 * (1 - 0) + 1 * (3 - 1)) * 1000), empty_world)
  /\ calculate_leakage ([0; 1; 3], [-2; 0; 0]) empty_world
     = (Ok ((0 + -2 * (1 - 0) + 0 * (3 - 1)) * 1000),
        add_log empty_world Warning_negative_leakage).
Proof. split; vm_compute; reflexivity. Qed.

(** ** The cases of test_validation.py and test_patient_interface.py *)

Example validate_cpap_data_cases :
  validate_cpap_data (JInt 4) = Valid
  /\ validate_cpap_data (JStr "4") = Invalid "The CPAP entry must be an integer."
  /\ validate_cpap_data (JInt 27)
     = Invalid "CPAP value out of range. Must be between 4 and 25 inclusive.".
Proof. split; [|split]; reflexivity. Qed.

Example validate_input_data_mrn_room_cases :
  validate_input_data [("room", JInt 123); ("mrn", JInt 7823)] = Valid
  /\ validate_input_data [("room", JInt 123)] = Invalid "The mrn was not found."
  /\ validate_input_data [("room", JInt 123); ("mrn", JStr "7823")]
     = Invalid "Invalid type for key 'mrn'.".
Proof. split; [|split]; reflexivity. Qed.

Example validate_input_data_name_cases :
  validate_input_data [("room", JInt 123); ("mrn", JInt 7823); ("name", JStr "Qinmeng Yu")]
  = Valid
  /\ validate_input_data [("room", JInt 123); ("mrn", JInt 7823); ("name", JInt 1234)]
     = Invalid "Invalid type for key 'name'. Expected str.".
Proof. split; reflexivity. Qed.

Definition tested_entry : dict :=
  [("cpap_pressure", JInt 12); ("breathing_rate", JInt 17); ("apnea_count", JInt 4);
   ("flow_image_base64", JStr "iVBORw0KGgo"); ("timestamp", JStr "2024-11-23T12:00:00Z")].

Definition tested_upload (data : json) : dict :=
  [("room", JInt 123); ("mrn", JInt 7823); ("name", JStr "Qinmeng Yu"); ("data", data)].

Example validate_input_data_data_cases :
  validate_input_data (tested_upload (JList [])) = Valid
  /\ validate_input_data (tested_upload (JDict tested_entry))
     = Invalid "Invalid type for key 'data'. Expected list."
  /\ validate_input_data (tested_upload (JList [JDict tested_entry])) = Valid
  /\ validate_input_data (tested_upload (JList [JList [JInt 12; JInt 17]]))
     = Invalid "Each entry in 'data' must be a dictionary."
  /\ validate_input_data
       (tested_upload
          (JList [JDict [("cpap_pressure", JInt 12); ("breathing_rate", JInt 17);
                         ("apnea_count", JInt 4);
                         ("timestamp", JStr "2024-11-23T12:00:00Z")]]))
     = Invalid "Missing key 'flow_image_base64' in data entry.".
Proof. split; [|split; [|split; [|split]]]; reflexivity. Qed.

Example generate_json_valid_data :
  generate_json_file (reads_as "dummy_base64") "123" "101" "Chloe Yu" "24" "15.9" "3"
  = (["15.9 3"; "cpap check: True"; "cal_check: True"],
     Ok [("mrn", JInt 123); ("room", JInt 101); ("name", JStr "Chloe Yu");
         ("data", JList [JDict (uploaded_entry 24 (Finite 15.9) 3 "dummy_base64")])]).
Proof. vm_compute. reflexivity. Qed.

Example generate_json_no_data :
  snd (generate_json_file (reads_as "dummy_base64") "123" "101" "Chloe Yu" EmptyString
         no_data no_data)
  = Ok [("mrn", JInt 123); ("room", JInt 101); ("name", JStr "Chloe Yu")].
Proof. vm_compute. reflexivity. Qed.

Example generate_json_failures :
  snd (generate_json_file (reads_as "dummy_base64") "123" "101" "Chloe Yu" "24" no_data no_data)
  = Raise (ValueError "Cannot upload CPAP pressure without CPAP calculated data.")
  /\ snd (generate_json_file (reads_as "dummy_base64") "123" "101" "Chloe Yu" EmptyString
            "15.9" "3")
     = Raise (ValueError "Cannot upload CPAP calculated data without CPAP pressure.")
  /\ snd (generate_json_file (reads_as "dummy_base64") "abc" "101" "Chloe Yu" "24" "15.9" "3")
     = Raise (ValueError "MRN and Room Number must be integers.")
  /\ snd (generate_json_file (reads_as "dummy_base64") EmptyString "101" "Chloe Yu" "24"
            "15.9" "3")
     = Raise (ValueError "MRN and Room Number are required.").
Proof. split; [|split; [|split]]; vm_compute; reflexivity. Qed.

Example create_cpap_entry_cases :
  Server.create_cpap_entry 1700000000 tested_entry
  = inl {| Server.cpap_pressure := JInt 12; Server.breathing_rate := JInt 17;
           Server.apnea_count := JInt 4; Server.flow_image_base64 := JStr "iVBORw0KGgo";
           Server.timestamp := 1700000000 |}
  /\ Server.create_cpap_entry 1700000000 [("breathing_rate", JInt 17)]
     = inr (Server.KeyError "cpap_pressure")
  /\ Server.create_cpap_entry 1700000000 [("cpap_pressure", JInt 12)]
     = inr (Server.KeyError "breathing_rate").
Proof. split; [|split]; reflexivity. Qed.

(** * Properties *)

(** ** Pressure conversion *)

Lemma ADC_to_pascal_linear (v : Z) :
  ADC_to_pascal v == 98.0665 * (25.4 / 13107) * (inject_Z v - 1638).
Proof.
  unfold ADC_to_pascal. cbv zeta.
  replace (14745 - 1638)%Z with 13107%Z by reflexivity.
  unfold Z.sub. rewrite inject_Z_plus. rewrite inject_Z_opp.
  change (inject_Z 1638) with 1638. change (inject_Z 13107) with 13107.
  field.
Qed.

(** C8: [ADC_to_pascal(1638)] is 0, the conversion is strictly increasing
    over all integer codes, and every code, in the sensor's range or not,
    goes through the same linear formula (nothing is clamped). *)
Theorem ADC_to_pascal_zero_increasing_unclamped :
  ADC_to_pascal 1638 == 0
  /\ (forall a b : Z, (a < b)%Z -> ADC_to_pascal a < ADC_to_pascal b)
  /\ (forall v : Z, ADC_to_pascal v == 98.0665 * (25.4 / 13107) * (inject_Z v - 1638))
  /\ ADC_to_pascal 0 < 0.
Proof.
  split; [reflexivity|]. split; [|split; [exact ADC_to_pascal_linear | reflexivity]].
  intros a b Hab. rewrite !ADC_to_pascal_linear.
  apply Qmult_lt_l; [reflexivity|].
  rewrite Zlt_Qlt in Hab. lra.
Qed.

Lemma ADC_to_pascal_zero_increasing_unclamped_witness :
  ADC_to_pascal 1638 == 0 /\ ADC_to_pascal (-5) < ADC_to_pascal 20000.
Proof.
  split.
  - apply ADC_to_pascal_zero_increasing_unclamped.
  - apply (proj1 (proj2 ADC_to_pascal_zero_increasing_unclamped) (-5)%Z 20000%Z). lia.
Defined.

(** ** Comparisons on [Q] *)

Lemma Qltb_lt (x y : Q) : Qltb x y = true <-> x < y.
Proof.
  unfold Qltb. rewrite negb_true_iff. split; intros H.
  - apply Qnot_le_lt. intros Hle. apply Qle_bool_iff in Hle. congruence.
  - destruct (Qle_bool y x) eqn:E; [|reflexivity].
    apply Qle_bool_iff in E. apply Qle_not_lt in E. contradiction.
Qed.

Lemma Qltb_ge (x y : Q) : Qltb x y = false <-> y <= x.
Proof.
  unfold Qltb. rewrite negb_false_iff. apply Qle_bool_iff.
Qed.

(** ** Apnea counting *)

Lemma apnea_loop_counts (breath_times : list Q) (n : nat) :
  apnea_loop breath_times n = (n + List.length (gaps_over_10 breath_times))%nat.
Proof.
  revert n. induction breath_times as [|t rest IH]; intros n.
  - simpl. lia.
  - destruct rest as [|t' rest'].
    + simpl. lia.
    + change (apnea_loop (t :: t' :: rest') n)
        with (apnea_loop (t' :: rest') (if Qltb 10 (t' - t) then n + 1 else n)%nat).
      rewrite IH. unfold gaps_over_10, adjacent_pairs.
      change (combine (t :: t' :: rest') (tl (t :: t' :: rest')))
        with ((t, t') :: combine (t' :: rest') (tl (t' :: rest'))).
      cbn [filter fst snd].
      destruct (Qlt_le_dec 10 (t' - t)) as [Hlt|Hle].
      * apply Qltb_lt in Hlt. rewrite Hlt. cbn [List.length]. lia.
      * apply Qltb_ge in Hle. rewrite Hle. lia.
Qed.

(** C5: the apnea count is the number of adjacent breath times whose gap is
    strictly greater than 10 seconds; it is 0 for no breath and for a single
    breath, and 1 for the breath times 0, 5, 17, 20. *)
Theorem count_apnea_counts_gaps_over_10 :
  (forall breath_times : list Q,
      count_apnea_of breath_times = List.length (gaps_over_10 breath_times))
  /\ (forall t t' : Q, In (t, t') (gaps_over_10 [t; t']) <-> 10 < t' - t)
  /\ count_apnea_of [] = 0%nat
  /\ (forall t : Q, count_apnea_of [t] = 0%nat)
  /\ count_apnea_of [0; 5; 17; 20] = 1%nat
  /\ (forall (tf : t_vs_flow) (breath_times : list Q),
         calculate_breath_times tf = Ok breath_times ->
         count_apnea tf = Ok (List.length (gaps_over_10 breath_times))).
Proof.
  assert (H : forall bt, count_apnea_of bt = List.length (gaps_over_10 bt)).
  { intros [|t rest]; [reflexivity|].
    unfold count_apnea_of. rewrite apnea_loop_counts. reflexivity. }
  split; [exact H|]. split.
  { intros t t'. unfold gaps_over_10, adjacent_pairs. cbn [combine tl filter fst snd].
    destruct (Qlt_le_dec 10 (t' - t)) as [Hlt|Hle]; split; intros H'.
    - exact Hlt.
    - left. reflexivity.
    - destruct H'.
    - apply Qle_not_lt in Hle. contradiction. }
  split; [reflexivity|]. split; [reflexivity|]. split; [reflexivity|].
  intros tf bt Hbt. unfold count_apnea. rewrite Hbt. cbn [rbind]. rewrite H. reflexivity.
Qed.

Lemma count_apnea_counts_gaps_over_10_witness :
  calculate_breath_times ([0; 1; 2; 3], [0; 0; 0; 0]) = Ok []
  /\ count_apnea ([0; 1; 2; 3], [0; 0; 0; 0]) = Ok 0%nat.
Proof.
  split.
  - vm_compute. reflexivity.
  - apply (proj2 (proj2 (proj2 (proj2 (proj2 count_apnea_counts_gaps_over_10))))
             ([0; 1; 2; 3], [0; 0; 0; 0]) []).
    vm_compute. reflexivity.
Defined.

(** ** Leakage *)

Lemma item_app_length {A} (pre : list A) (a : A) (post : list A) :
  item (pre ++ a :: post) (List.length pre) = Ok a.
Proof.
  unfold item. rewrite nth_error_app2 by lia.
  rewrite Nat.sub_diag. reflexivity.
Qed.

(** The loop, started at the index [length done_flow] with [acc]
    accumulated, adds the rectangles of the remaining samples. *)
Lemma leakage_loop_rectangles (time flow done_flow done_dt : list Q) (acc : Q) :
  List.length done_flow = List.length done_dt ->
  List.length time = List.length flow ->
  exists total,
    leakage_loop (done_flow ++ flow) (done_dt ++ np_diff time)
                 (seq (List.length done_flow) (List.length flow - 1)) acc = Ok total
    /\ total == acc + rectangle_sum time flow.
Proof.
  revert flow done_flow done_dt acc.
  induction time as [|t time' IH]; intros flow done_flow done_dt acc Hdone Hlen.
  - destruct flow; [|discriminate]. exists acc. split; [reflexivity|]. simpl. ring.
  - destruct flow as [|f flow']; [discriminate|].
    destruct time' as [|t' time''].
    + destruct flow'; [|discriminate]. exists acc. split; [reflexivity|]. simpl. ring.
    + destruct flow' as [|f' flow'']; [discriminate|].
      replace (List.length (f :: f' :: flow'') - 1)%nat
        with (S (List.length (f' :: flow'') - 1)) by (simpl; lia).
      cbn [seq leakage_loop].
      rewrite item_app_length.
      change (np_diff (t :: t' :: time'')) with ((t' - t) :: np_diff (t' :: time'')).
      assert (Hdt : item (done_dt ++ (t' - t) :: np_diff (t' :: time'')) (List.length done_flow)
                    = Ok (t' - t)) by (rewrite Hdone; apply item_app_length).
      rewrite Hdt. cbn [rbind].
      destruct (IH (f' :: flow'') (done_flow ++ [f]) (done_dt ++ [t' - t]) (acc + f * (t' - t)))
        as [total [Hloop Htotal]].
      * rewrite !length_app. simpl. lia.
      * simpl in Hlen |- *. lia.
      * exists total. split.
        -- rewrite <- !app_assoc in Hloop. cbn [app] in Hloop.
           rewrite length_app in Hloop. cbn [List.length] in Hloop.
           rewrite Nat.add_1_r in Hloop. exact Hloop.
        -- rewrite Htotal.
           change (rectangle_sum (t :: t' :: time'') (f :: f' :: flow''))
             with (f * (t' - t) + rectangle_sum (t' :: time'') (f' :: flow'')).
           ring.
Qed.

Lemma rectangle_sum_zero_flow (time flow : list Q) :
  Forall (fun f => f == 0) flow -> rectangle_sum time flow == 0.
Proof.
  revert flow. induction time as [|t time' IH]; intros flow Hzero.
  - reflexivity.
  - destruct flow as [|f flow']; [destruct time'; reflexivity|].
    destruct time' as [|t' time'']; [reflexivity|].
    change (rectangle_sum (t :: t' :: time'') (f :: flow'))
      with (f * (t' - t) + rectangle_sum (t' :: time'') flow').
    inversion Hzero as [|? ? Hf Hrest]; subst.
    rewrite (IH flow' Hrest). rewrite Hf. ring.
Qed.

(** C6: for index-aligned time and flow sequences the leakage is 1000 times
    the left-endpoint sum of [flow[i] * (time[i+1] - time[i])]; it is
    returned as it is whatever its sign, a warning being logged exactly when
    it is negative; a flow that is zero throughout gives 0. *)
Theorem calculate_leakage_rectangle_rule (time flow : list Q) (w : world) :
  List.length time = List.length flow ->
  exists liters : Q,
    calculate_leakage (time, flow) w
    = (Ok liters, if Qltb liters 0 then add_log w Warning_negative_leakage else w)
    /\ liters == 1000 * rectangle_sum time flow
    /\ (Qltb liters 0 = true <-> 1000 * rectangle_sum time flow < 0)
    /\ (Forall (fun f => f == 0) flow -> liters == 0).
Proof.
  intros Hlen.
  destruct (leakage_loop_rectangles time flow [] [] 0 eq_refl Hlen) as [total [Hloop Htotal]].
  cbn [app List.length] in Hloop.
  exists (total * 1000).
  assert (Hl : total * 1000 == 1000 * rectangle_sum time flow) by (rewrite Htotal; ring).
  split; [|split; [exact Hl|split]].
  - unfold calculate_leakage, mbind, lift. rewrite Hloop.
    destruct (Qltb (total * 1000) 0); reflexivity.
  - rewrite Qltb_lt. rewrite Hl. reflexivity.
  - intros Hzero. rewrite Hl. rewrite (rectangle_sum_zero_flow time flow Hzero). ring.
Qed.

Lemma calculate_leakage_rectangle_rule_witness :
  exists liters : Q,
    calculate_leakage ([0; 1; 3], [-2; 0; 0]) empty_world
    = (Ok liters,
       if Qltb liters 0 then add_log empty_world Warning_negative_leakage else empty_world)
    /\ liters == 1000 * rectangle_sum [0; 1; 3] [-2; 0; 0]
    /\ (Qltb liters 0 = true <-> 1000 * rectangle_sum [0; 1; 3] [-2; 0; 0] < 0)
    /\ (Forall (fun f => f == 0) [-2; 0; 0] -> liters == 0).
Proof.
  apply (calculate_leakage_rectangle_rule [0; 1; 3] [-2; 0; 0] empty_world). reflexivity.
Defined.

(** ** The loader *)

Lemma py_float_raises_ValueError (s : string) (e : exn) :
  py_float s = Raise e -> exists msg, e = ValueError msg.
Proof.
  unfold py_float. destruct (sign_of (strip_ws s)) as [neg body].
  destruct (_ || _); [discriminate|].
  destruct (_ =? _)%string; [discriminate|].
  destruct (floatnumber neg body); [discriminate|].
  intros H. injection H as <-. eexists. reflexivity.
Qed.

Lemma same_files_refl (w : world) : same_files w w.
Proof. repeat split. Qed.

Lemma same_files_add_log (w w' : world) (r : log_record) :
  same_files w w' -> same_files w (add_log w' r).
Proof. intros H. exact H. Qed.

Lemma same_files_trans (w1 w2 w3 : world) :
  same_files w1 w2 -> same_files w2 w3 -> same_files w1 w3.
Proof.
  intros (H1 & H2 & H3) (H1' & H2' & H3'). repeat split; congruence.
Qed.

Lemma check_tokens_forallb (line : nat) (patient todo : list string) (w : world) :
  exists w',
    check_tokens line patient todo w
    = (Ok (forallb (fun data => is_ok (py_float data) && negb (data =? "NaN")%string) todo), w')
    /\ same_files w w'.
Proof.
  induction todo as [|data todo' IH].
  - exists w. split; [reflexivity | apply same_files_refl].
  - cbn [check_tokens forallb].
    destruct (py_float data) as [v|e]; cbn [is_ok andb].
    + destruct (data =? "NaN")%string; cbn [negb andb].
      * exists (add_log w (Error_nan_value line patient)).
        split; [reflexivity | apply same_files_add_log, same_files_refl].
      * exact IH.
    + exists (add_log w (Error_non_numeric line patient)).
      split; [reflexivity | apply same_files_add_log, same_files_refl].
Qed.

Lemma forallb_andb {A} (f g : A -> bool) (l : list A) :
  forallb (fun a => f a && g a) l = forallb f l && forallb g l.
Proof.
  induction l as [|a l IH]; [reflexivity|].
  cbn [forallb]. rewrite IH.
  destruct (f a), (g a), (forallb f l), (forallb g l); reflexivity.
Qed.

Lemma is_correct_data_accepted (line : nat) (patient : list string) (w : world) :
  exists w', is_correct_data line patient w = (Ok (accepted patient), w') /\ same_files w w'.
Proof.
  unfold is_correct_data, accepted.
  destruct (List.length patient =? 7)%nat; cbn [negb andb].
  - rewrite <- forallb_andb. apply check_tokens_forallb.
  - exists (add_log w (Error_missing_value line patient)).
    split; [reflexivity | apply same_files_add_log, same_files_refl].
Qed.

Lemma load_rows_filter (lines : list string) (i : nat) (valid_data : list (list string)) (w : world) :
  exists w',
    load_rows i lines valid_data w
    = (Ok (valid_data
           ++ filter accepted (map (fun line => split comma (strip_nl line)) lines)), w')
    /\ same_files w w'.
Proof.
  revert i valid_data w. induction lines as [|line lines' IH]; intros i valid_data w.
  - exists w. cbn. rewrite app_nil_r. split; [reflexivity | apply same_files_refl].
  - cbn [load_rows map filter]. unfold mbind.
    destruct (is_correct_data_accepted (i + 2) (split comma (strip_nl line)) w)
      as [w1 [Hcheck Hsame1]].
    rewrite Hcheck.
    destruct (IH (S i) (if accepted (split comma (strip_nl line))
                        then valid_data ++ [split comma (strip_nl line)]
                        else valid_data) w1) as [w2 [Hrows Hsame2]].
    exists w2. split; [|exact (same_files_trans _ _ _ Hsame1 Hsame2)].
    rewrite Hrows. destruct (accepted (split comma (strip_nl line))).
    + rewrite <- app_assoc. reflexivity.
    + reflexivity.
Qed.

Lemma load_patient_result (w : world) (path content : string) :
  lookup path (files w) = Some content ->
  exists w',
    load_patient path w = (Ok (header_of content :: filter accepted (records_of content)), w')
    /\ same_files w w'.
Proof.
  intros Hfile. unfold load_patient, mbind, open_read. rewrite Hfile.
  destruct (load_rows_filter (tl (readlines content)) 0
              [split comma (strip_nl (hd EmptyString (readlines content)))] w) as [w' [Hrows Hsame]].
  exists w'. split; [|exact Hsame]. rewrite Hrows. reflexivity.
Qed.

(** C2, as the code has it: for a readable file the load never aborts and
    returns the header's tokens followed by exactly the records that have
    seven tokens, all of them float literals and none of them the string
    "NaN", in their order in the file. *)
Theorem load_patient_header_then_accepted (w : world) (path content : string) :
  lookup path (files w) = Some content ->
  fst (load_patient path w)
  = Ok (header_of content :: filter accepted (records_of content)).
Proof.
  intros Hfile. destruct (load_patient_result w path content Hfile) as [w' [H _]].
  rewrite H. reflexivity.
Qed.

Lemma load_patient_header_then_accepted_witness :
  fst (load_patient "p.txt" (world_with_file "p.txt" sample_recording))
  = Ok [["t"; "p2"; "pi"; "pe"; "a"; "b"; "c"];
        ["0"; "1638"; "1700"; "1638"; "0"; "0"; "0"];
        ["4"; "1638"; "1638"; "1700"; "0"; "0"; "nan"]].
Proof.
  exact (load_patient_header_then_accepted
           (world_with_file "p.txt" sample_recording) "p.txt" sample_recording eq_refl).
Defined.

(** C2 as the specification words it, with the header left out of the
    returned list, fails: the header's tokens are the first element. *)
Lemma load_patient_returns_header :
  ~ (forall (w : world) (path content : string),
        lookup path (files w) = Some content ->
        fst (load_patient path w) = Ok (filter accepted (records_of content))).
Proof.
  intros H.
  specialize (H (world_with_file "p.txt" (unlines ["t,p2,pi,pe,a,b,c"; "0,1638,1700,1638,0,0,0"]))
                "p.txt" _ eq_refl).
  vm_compute in H. discriminate H.
Qed.

(** ** The flow equation *)

Lemma flow_calculation_eq (sqrt : Q -> Q) (p1 p2 : Q) :
  flow_calculation sqrt p1 p2
  = if Qltb (radicand p1 p2) 0 then Raise (ValueError "math domain error")
    else Ok (orifice_flow sqrt p1 p2).
Proof.
  unfold flow_calculation, math_sqrt. cbv zeta.
  change ((2 / 1.199) * (p1 - p2)
          / ((np_pi * (15 * 10 ^ (-3) / 2) ^ 2 / (np_pi * (12 * 10 ^ (-3) / 2) ^ 2)) ^ 2 - 1))
    with (radicand p1 p2).
  destruct (Qltb (radicand p1 p2) 0); reflexivity.
Qed.

Lemma radicand_linear (p1 p2 : Q) : radicand p1 p2 == (512000 # 442431) * (p1 - p2).
Proof.
  unfold radicand.
  setoid_replace ((circle_area 0.015 / circle_area 0.012) ^ 2 - 1) with (369 # 256)
    by reflexivity.
  field.
Qed.

Lemma radicand_negative (p1 p2 : Q) : radicand p1 p2 < 0 <-> p1 < p2.
Proof.
  rewrite radicand_linear. split; intros H; lra.
Qed.

Lemma flow_step_eq (sqrt : Q -> Q) (tok0 tok1 tok2 tok3 : string) (rest : list string) :
  flow_step sqrt (tok0 :: tok1 :: tok2 :: tok3 :: rest)
  = (t <- py_float tok0 ;;
     c2 <- py_int tok1 ;;
     c_ins <- py_int tok2 ;;
     c_exp <- py_int tok3 ;;
     if Qltb (radicand (selected_upstream (ADC_to_pascal c_ins) (ADC_to_pascal c_exp))
                       (ADC_to_pascal c2)) 0
     then Raise (ValueError "math domain error")
     else Ok (t, signed_flow sqrt (ADC_to_pascal c_ins) (ADC_to_pascal c_exp) (ADC_to_pascal c2))).
Proof.
  unfold flow_step. cbn [item nth_error rbind].
  destruct (py_float tok0) as [t|e]; [|reflexivity].
  destruct (py_int tok1) as [c2|e]; [|reflexivity].
  destruct (py_int tok2) as [c_ins|e]; [|reflexivity].
  destruct (py_int tok3) as [c_exp|e]; [|reflexivity].
  cbn [rbind]. unfold selected_upstream, signed_flow.
  destruct (Qle_bool (ADC_to_pascal c_exp) (ADC_to_pascal c_ins));
    rewrite flow_calculation_eq;
    match goal with |- context [Qltb ?r 0] => destruct (Qltb r 0) end; reflexivity.
Qed.

Lemma flow_step_emits (sqrt : Q -> Q) (row : list string) (t : pyfloat) (q : Q) :
  flow_step sqrt row = Ok (t, q) -> emits sqrt row q.
Proof.
  destruct row as [|tok0 [|tok1 [|tok2 [|tok3 rest]]]];
    try (unfold flow_step; cbn [item nth_error rbind];
         repeat match goal with |- context [rbind ?c _] => destruct c; cbn [rbind] end;
         discriminate).
  rewrite flow_step_eq. unfold emits, row_pressures.
  destruct (py_float tok0) as [t'|e]; [|discriminate].
  destruct (py_int tok1) as [c2|e]; [|discriminate].
  destruct (py_int tok2) as [c_ins|e]; [|discriminate].
  destruct (py_int tok3) as [c_exp|e]; [|discriminate].
  cbn [rbind]. destruct (Qltb _ 0); [discriminate|].
  intros H. injection H as _ <-. eauto.
Qed.

(** An accepted record has seven fields and a first one [float] reads. *)
Lemma accepted_shape (row : list string) :
  accepted row = true ->
  exists tok0 tok1 tok2 tok3 rest t,
    row = tok0 :: tok1 :: tok2 :: tok3 :: rest /\ py_float tok0 = Ok t.
Proof.
  unfold accepted. intros H. apply andb_prop in H as [H _]. apply andb_prop in H as [Hlen Hfloat].
  destruct row as [|tok0 [|tok1 [|tok2 [|tok3 rest]]]]; try discriminate Hlen.
  cbn [forallb] in Hfloat. apply andb_prop in Hfloat as [H0 _].
  destruct (py_float tok0) as [t|e] eqn:E; [|discriminate H0].
  exists tok0, tok1, tok2, tok3, rest, t. split; [reflexivity | exact E].
Qed.

Lemma flow_step_of_pressures (sqrt : Q -> Q) (row : list string) (p2 p_ins p_exp : Q) :
  accepted row = true ->
  row_pressures row = Some (p2, p_ins, p_exp) ->
  exists t,
    flow_step sqrt row
    = if Qltb (radicand (selected_upstream p_ins p_exp) p2) 0
      then Raise (ValueError "math domain error")
      else Ok (t, signed_flow sqrt p_ins p_exp p2).
Proof.
  intros Hacc Hpress.
  destruct (accepted_shape row Hacc) as (tok0 & tok1 & tok2 & tok3 & rest & t & -> & Ht).
  exists t. rewrite flow_step_eq. rewrite Ht. unfold row_pressures in Hpress.
  destruct (py_int tok1) as [c2|e]; [|discriminate].
  destruct (py_int tok2) as [c_ins|e]; [|discriminate].
  destruct (py_int tok3) as [c_exp|e]; [|discriminate].
  injection Hpress as <- <- <-. reflexivity.
Qed.

Lemma flow_loop_ok_inv (sqrt : Q -> Q) (rows : list (list string)) :
  forall time flow_data time' flow_data',
    flow_loop sqrt rows time flow_data = Ok (time', flow_data') ->
    exists times flows,
      time' = time ++ times /\ flow_data' = flow_data ++ flows
      /\ List.length times = List.length flows
      /\ Forall2 (emits sqrt) rows flows.
Proof.
  induction rows as [|row rows' IH]; intros time flow_data time' flow_data' H.
  - cbn in H. injection H as <- <-. exists [], []. rewrite !app_nil_r.
    repeat split; constructor.
  - cbn [flow_loop] in H. destruct (flow_step sqrt row) as [[t q]|e] eqn:Hstep; [|discriminate H].
    cbn [rbind fst snd] in H. apply IH in H as (times & flows & -> & -> & Hlen & Hall).
    exists (t :: times), (q :: flows). repeat split.
    + rewrite <- app_assoc. reflexivity.
    + rewrite <- app_assoc. reflexivity.
    + cbn [List.length]. rewrite Hlen. reflexivity.
    + constructor; [exact (flow_step_emits sqrt row t q Hstep) | exact Hall].
Qed.

Lemma flow_loop_total (sqrt : Q -> Q) (rows : list (list string)) :
  Forall (fun row => is_ok (flow_step sqrt row) = true) rows ->
  forall time flow_data, exists time' flow_data',
    flow_loop sqrt rows time flow_data = Ok (time', flow_data').
Proof.
  induction 1 as [|row rows' Hrow _ IH]; intros time flow_data.
  - exists time, flow_data. reflexivity.
  - cbn [flow_loop]. destruct (flow_step sqrt row) as [tq|e]; [|discriminate Hrow].
    cbn [rbind]. apply IH.
Qed.

Lemma flow_loop_raise (sqrt : Q -> Q) (before : list (list string)) (row : list string)
      (after : list (list string)) (e : exn) :
  Forall (fun r => is_ok (flow_step sqrt r) = true) before ->
  flow_step sqrt row = Raise e ->
  forall time flow_data, flow_loop sqrt (before ++ row :: after) time flow_data = Raise e.
Proof.
  intros Hbefore Hrow. induction Hbefore as [|r before' Hr _ IH]; intros time flow_data.
  - cbn [app flow_loop]. rewrite Hrow. reflexivity.
  - cbn [app flow_loop]. destruct (flow_step sqrt r) as [tq|e']; [|discriminate Hr].
    cbn [rbind]. apply IH.
Qed.

Lemma flow_analysis_result (sqrt : Q -> Q) (w : world) (path content : string) :
  lookup path (files w) = Some content ->
  fst (flow_analysis sqrt path w)
  = flow_loop sqrt (filter accepted (records_of content)) [] [].
Proof.
  intros Hfile. unfold flow_analysis, mbind, logging, lift.
  destruct (load_patient_result (add_log w (Info_starting_analysis path)) path content Hfile)
    as [w' [Hload _]].
  rewrite Hload. reflexivity.
Qed.

Lemma computable_rows_ok (sqrt : Q -> Q) (rows : list (list string)) :
  Forall (fun row => accepted row = true) rows ->
  (forall row, In row rows ->
     exists p2 p_ins p_exp,
       row_pressures row = Some (p2, p_ins, p_exp) /\ p2 <= selected_upstream p_ins p_exp) ->
  Forall (fun row => is_ok (flow_step sqrt row) = true) rows.
Proof.
  intros Hacc Hrows. apply Forall_forall. intros row Hin.
  destruct (Hrows row Hin) as (p2 & p_ins & p_exp & Hpress & Hle).
  rewrite Forall_forall in Hacc.
  destruct (flow_step_of_pressures sqrt row p2 p_ins p_exp (Hacc row Hin) Hpress) as [t Hstep].
  rewrite Hstep.
  destruct (Qltb (radicand (selected_upstream p_ins p_exp) p2) 0) eqn:E; [|reflexivity].
  apply Qltb_lt in E. apply (proj1 (radicand_negative _ _)) in E.
  exfalso. exact (Qle_not_lt _ _ Hle E).
Qed.

Lemma filter_accepted_all (rows : list (list string)) :
  Forall (fun row => accepted row = true) (filter accepted rows).
Proof.
  apply Forall_forall. intros row Hin. apply filter_In in Hin. apply Hin.
Qed.

Lemma circle_area_positive : 0 < circle_area 0.015.
Proof. reflexivity. Qed.

Lemma orifice_flow_nonneg (sqrt : Q -> Q) (p1 p2 : Q) :
  (forall x, 0 <= x -> 0 <= sqrt x) -> p2 <= p1 -> 0 <= orifice_flow sqrt p1 p2.
Proof.
  intros Hsqrt Hle. unfold orifice_flow. cbv zeta.
  apply Qmult_le_0_compat.
  - apply Qlt_le_weak, circle_area_positive.
  - apply Hsqrt. change (0 <= radicand p1 p2). rewrite radicand_linear.
    apply Qmult_le_0_compat; [discriminate | lra].
Qed.

(** C3: the flows [flow_analysis] returns are, record by record of the
    accepted records, the orifice flow [A1 * sqrt((2/1.199) * (p1 - p2) /
    ((A1/A2)^2 - 1))] of the inspiratory pressure when it is at least the
    expiratory one, and minus that of the expiratory pressure otherwise;
    they are returned whenever every accepted record has integer ADC fields
    and a selected upstream pressure not below the constriction pressure;
    the flow is not negative in the first branch and not positive in the
    second. *)
Theorem flow_analysis_signed_orifice_flow
        (sqrt : Q -> Q) (w : world) (path content : string) :
  lookup path (files w) = Some content ->
  (forall time flow_data,
      fst (flow_analysis sqrt path w) = Ok (time, flow_data) ->
      List.length time = List.length flow_data
      /\ Forall2 (emits sqrt) (filter accepted (records_of content)) flow_data)
  /\ ((forall row, In row (filter accepted (records_of content)) ->
         exists p2 p_ins p_exp,
           row_pressures row = Some (p2, p_ins, p_exp)
           /\ p2 <= selected_upstream p_ins p_exp) ->
      exists time flow_data,
        fst (flow_analysis sqrt path w) = Ok (time, flow_data)
        /\ Forall2 (emits sqrt) (filter accepted (records_of content)) flow_data)
  /\ ((forall x, 0 <= x -> 0 <= sqrt x) ->
      forall p_ins p_exp p2,
        p2 <= selected_upstream p_ins p_exp ->
        (p_exp <= p_ins ->
         signed_flow sqrt p_ins p_exp p2 = orifice_flow sqrt p_ins p2
         /\ 0 <= signed_flow sqrt p_ins p_exp p2)
        /\ (p_ins < p_exp ->
            signed_flow sqrt p_ins p_exp p2 = - orifice_flow sqrt p_exp p2
            /\ signed_flow sqrt p_ins p_exp p2 <= 0)).
Proof.
  intros Hfile. rewrite (flow_analysis_result sqrt w path content Hfile).
  assert (Hinv : forall time flow_data,
             flow_loop sqrt (filter accepted (records_of content)) [] [] = Ok (time, flow_data) ->
             List.length time = List.length flow_data
             /\ Forall2 (emits sqrt) (filter accepted (records_of content)) flow_data).
  { intros time flow_data H.
    apply flow_loop_ok_inv in H as (times & flows & -> & -> & Hlen & Hall).
    split; [exact Hlen | exact Hall]. }
  split; [exact Hinv|]. split.
  - intros Hrows.
    destruct (flow_loop_total sqrt _
                (computable_rows_ok sqrt _ (filter_accepted_all _) Hrows) [] [])
      as (time & flow_data & Hloop).
    exists time, flow_data. split; [exact Hloop | apply (Hinv time flow_data Hloop)].
  - intros Hsqrt p_ins p_exp p2 Hle. unfold signed_flow, selected_upstream in *. split.
    + intros Hbranch. apply Qle_bool_iff in Hbranch. rewrite Hbranch in *.
      split; [reflexivity | apply orifice_flow_nonneg; assumption].
    + intros Hbranch. apply Qltb_lt in Hbranch. unfold Qltb in Hbranch.
      apply negb_true_iff in Hbranch. rewrite Hbranch in *.
      split; [reflexivity|].
      pose proof (orifice_flow_nonneg sqrt p_exp p2 Hsqrt Hle). lra.
Qed.

Lemma sqrt_15_nonneg (x : Q) : 0 <= x -> 0 <= sqrt_15 x.
Proof.
  intros _. unfold sqrt_15. apply Qle_shift_div_l; [reflexivity|].
  rewrite Qmult_0_l. change 0 with (inject_Z 0). rewrite <- Zle_Qle. apply Z.sqrt_nonneg.
Qed.

Lemma flow_analysis_signed_orifice_flow_witness :
  (exists time flow_data,
      fst (flow_analysis sqrt_15 "p.txt" (world_with_file "p.txt" sample_recording))
      = Ok (time, flow_data)
      /\ Forall2 (emits sqrt_15) (filter accepted (records_of sample_recording)) flow_data)
  /\ 0 <= signed_flow sqrt_15 (ADC_to_pascal 1700) (ADC_to_pascal 1638) (ADC_to_pascal 1638)
  /\ signed_flow sqrt_15 (ADC_to_pascal 1638) (ADC_to_pascal 1700) (ADC_to_pascal 1638) <= 0.
Proof.
  pose proof (flow_analysis_signed_orifice_flow sqrt_15
                (world_with_file "p.txt" sample_recording) "p.txt" sample_recording eq_refl)
    as (_ & Hreturns & Hsign).
  assert (Hle1 : ADC_to_pascal 1638 <= selected_upstream (ADC_to_pascal 1700) (ADC_to_pascal 1638))
    by (apply Qle_bool_iff; reflexivity).
  assert (Hle2 : ADC_to_pascal 1638 <= selected_upstream (ADC_to_pascal 1638) (ADC_to_pascal 1700))
    by (apply Qle_bool_iff; reflexivity).
  assert (Hb1 : ADC_to_pascal 1638 <= ADC_to_pascal 1700) by (apply Qle_bool_iff; reflexivity).
  assert (Hb2 : ADC_to_pascal 1638 < ADC_to_pascal 1700) by (apply Qltb_lt; reflexivity).
  destruct (Hsign sqrt_15_nonneg _ _ _ Hle1) as [Hins _].
  destruct (Hsign sqrt_15_nonneg _ _ _ Hle2) as [_ Hexp].
  split; [|split; [exact (proj2 (Hins Hb1)) | exact (proj2 (Hexp Hb2))]].
  apply Hreturns. intros row Hin.
  change (filter accepted (records_of sample_recording))
    with [["0"; "1638"; "1700"; "1638"; "0"; "0"; "0"];
          ["4"; "1638"; "1638"; "1700"; "0"; "0"; "nan"]] in Hin.
  destruct Hin as [<-|[<-|[]]].
  - exists (ADC_to_pascal 1638), (ADC_to_pascal 1700), (ADC_to_pascal 1638).
    split; [reflexivity | exact Hle1].
  - exists (ADC_to_pascal 1638), (ADC_to_pascal 1638), (ADC_to_pascal 1700).
    split; [reflexivity | exact Hle2].
Defined.

(** ** Errors of the flow computation *)

Lemma offending_row_raises (sqrt : Q -> Q) (row : list string) :
  accepted row = true -> offending row ->
  flow_step sqrt row = Raise (ValueError "math domain error").
Proof.
  intros Hacc (p2 & p_ins & p_exp & Hpress & Hlt).
  destruct (flow_step_of_pressures sqrt row p2 p_ins p_exp Hacc Hpress) as [t Hstep].
  apply (proj2 (radicand_negative _ _)) in Hlt. apply Qltb_lt in Hlt.
  rewrite Hlt in Hstep. exact Hstep.
Qed.

Lemma accepted_row_raises_ValueError (sqrt : Q -> Q) (row : list string) (e : exn) :
  accepted row = true -> flow_step sqrt row = Raise e -> exists msg, e = ValueError msg.
Proof.
  intros Hacc.
  destruct (accepted_shape row Hacc) as (tok0 & tok1 & tok2 & tok3 & rest & t & -> & Ht).
  rewrite flow_step_eq, Ht. cbn [rbind]. unfold py_int.
  destruct (sign_of (strip_ws tok1)) as [n1 b1].
  destruct (digitpart b1) as [[[v1 k1] [|c1 r1]]|]; cbn [rbind];
    try (intros H; injection H as <-; eexists; reflexivity).
  destruct (sign_of (strip_ws tok2)) as [n2 b2].
  destruct (digitpart b2) as [[[v2 k2] [|c2 r2]]|]; cbn [rbind];
    try (intros H; injection H as <-; eexists; reflexivity).
  destruct (sign_of (strip_ws tok3)) as [n3 b3].
  destruct (digitpart b3) as [[[v3 k3] [|c3 r3]]|]; cbn [rbind];
    try (intros H; injection H as <-; eexists; reflexivity).
  destruct (Qltb _ 0); [|discriminate].
  intros H; injection H as <-; eexists; reflexivity.
Qed.

Lemma flow_loop_first_failure (sqrt : Q -> Q) (rows : list (list string)) :
  Forall (fun row => accepted row = true) rows ->
  forall time flow_data,
    (exists time' flow_data', flow_loop sqrt rows time flow_data = Ok (time', flow_data')
                              /\ Forall (fun row => is_ok (flow_step sqrt row) = true) rows)
    \/ (exists msg, flow_loop sqrt rows time flow_data = Raise (ValueError msg)).
Proof.
  induction 1 as [|row rows' Hrow _ IH]; intros time flow_data.
  - left. exists time, flow_data. split; [reflexivity | constructor].
  - cbn [flow_loop]. destruct (flow_step sqrt row) as [tq|e] eqn:Hstep; cbn [rbind].
    + destruct (IH (time ++ [fst tq]) (flow_data ++ [snd tq]))
        as [(time' & flow_data' & Hloop & Hall)|[msg Hloop]].
      * left. exists time', flow_data'. split; [exact Hloop|].
        constructor; [rewrite Hstep; reflexivity | exact Hall].
      * right. exists msg. exact Hloop.
    + right. destruct (accepted_row_raises_ValueError sqrt row e Hrow Hstep) as [msg ->].
      exists msg. reflexivity.
Qed.

(** C4, as the code has it: when an accepted record has, in its selected
    branch, an upstream pressure below the constriction pressure, the
    analysis returns no flow at all but raises a [ValueError]; when the
    records before it compute, the error is [math.sqrt]'s "math domain
    error", which names no record. *)
Theorem flow_analysis_domain_error
        (sqrt : Q -> Q) (w : world) (path content : string)
        (before : list (list string)) (row : list string) (after : list (list string)) :
  lookup path (files w) = Some content ->
  filter accepted (records_of content) = before ++ row :: after ->
  offending row ->
  (exists msg, fst (flow_analysis sqrt path w) = Raise (ValueError msg))
  /\ (Forall (fun r => is_ok (flow_step sqrt r) = true) before ->
      fst (flow_analysis sqrt path w) = Raise (ValueError "math domain error")).
Proof.
  intros Hfile Hrows Hoff. rewrite (flow_analysis_result sqrt w path content Hfile).
  pose proof (filter_accepted_all (records_of content)) as Hacc. rewrite Hrows in *.
  assert (Hrow : accepted row = true).
  { rewrite Forall_forall in Hacc. apply Hacc. apply in_or_app. right. left. reflexivity. }
  pose proof (offending_row_raises sqrt row Hrow Hoff) as Hdomain.
  split.
  - destruct (flow_loop_first_failure sqrt _ Hacc [] [])
      as [(time' & flow_data' & _ & Hall)|Hraise]; [|exact Hraise].
    rewrite Forall_forall in Hall.
    assert (Hin : In row (before ++ row :: after))
      by (apply in_or_app; right; left; reflexivity).
    specialize (Hall row Hin).
    rewrite Hdomain in Hall. discriminate Hall.
  - intros Hbefore. apply flow_loop_raise; assumption.
Qed.

Lemma flow_analysis_domain_error_witness :
  fst (flow_analysis sqrt_15 "p.txt" (world_with_file "p.txt" recording_offending_second))
  = Raise (ValueError "math domain error").
Proof.
  refine (proj2 (flow_analysis_domain_error sqrt_15
                   (world_with_file "p.txt" recording_offending_second) "p.txt"
                   recording_offending_second
                   [["0"; "1638"; "1700"; "1638"; "0"; "0"; "0"]]
                   ["1"; "1700"; "1638"; "1650"; "0"; "0"; "0"] []
                   eq_refl eq_refl _) _).
  - exists (ADC_to_pascal 1700), (ADC_to_pascal 1638), (ADC_to_pascal 1650).
    split; [reflexivity | apply Qltb_lt; reflexivity].
  - constructor; [vm_compute; reflexivity | constructor].
Defined.

(** C4 as the specification words it fails: no reading of the raised
    exception gives the index of the offending record, since recordings whose
    offending record is the first and the second raise the same exception. *)
Lemma domain_error_names_no_record :
  ~ (exists index_of : exn -> nat,
        forall (w : world) (path content : string)
               (before : list (list string)) (row : list string) (after : list (list string)),
          lookup path (files w) = Some content ->
          filter accepted (records_of content) = before ++ row :: after ->
          Forall (fun r => is_ok (flow_step sqrt_15 r) = true) before ->
          offending row ->
          exists e, fst (flow_analysis sqrt_15 path w) = Raise e
                    /\ index_of e = List.length before).
Proof.
  intros [index_of H].
  assert (Hoff : offending ["1"; "1700"; "1638"; "1650"; "0"; "0"; "0"]).
  { exists (ADC_to_pascal 1700), (ADC_to_pascal 1638), (ADC_to_pascal 1650).
    split; [reflexivity | apply Qltb_lt; reflexivity]. }
  assert (Hoff' : offending ["0"; "1700"; "1638"; "1650"; "0"; "0"; "0"]).
  { exists (ADC_to_pascal 1700), (ADC_to_pascal 1638), (ADC_to_pascal 1650).
    split; [reflexivity | apply Qltb_lt; reflexivity]. }
  assert (Hbefore : Forall (fun r => is_ok (flow_step sqrt_15 r) = true)
                           [["0"; "1638"; "1700"; "1638"; "0"; "0"; "0"]]).
  { constructor; [vm_compute; reflexivity | constructor]. }
  destruct (H (world_with_file "p.txt" recording_offending_second) "p.txt"
              recording_offending_second
              [["0"; "1638"; "1700"; "1638"; "0"; "0"; "0"]]
              ["1"; "1700"; "1638"; "1650"; "0"; "0"; "0"] []
              eq_refl eq_refl Hbefore Hoff)
    as (e2 & He2 & Hi2).
  destruct (H (world_with_file "p.txt" recording_offending_first) "p.txt"
              recording_offending_first
              []
              ["0"; "1700"; "1638"; "1650"; "0"; "0"; "0"]
              [["1"; "1638"; "1700"; "1638"; "0"; "0"; "0"]]
              eq_refl eq_refl (Forall_nil _) Hoff')
    as (e1 & He1 & Hi1).
  vm_compute in He1, He2.
  injection He1 as <-. injection He2 as <-.
  rewrite Hi1 in Hi2. discriminate Hi2.
Qed.

(** C10: a record can pass the validation and still stop the analysis: the
    validator accepts any float literal, the analysis reads the ADC fields
    with [int]; with the ADC field "4.5" the record is accepted, and
    [flow_analysis] raises [int]'s [ValueError] in place of a flow. *)
Theorem accepted_record_can_fail_int_conversion (sqrt : Q -> Q) :
  let w := world_with_file "p.txt" recording_fractional_code in
  let row := ["0"; "4.5"; "1700"; "1638"; "0"; "0"; "0"] in
  fst (is_correct_data 2 row w) = Ok true
  /\ fst (load_patient "p.txt" w) = Ok [["t"; "p2"; "pi"; "pe"; "a"; "b"; "c"]; row]
  /\ is_ok (py_float "4.5") = true
  /\ fst (flow_analysis sqrt "p.txt" w)
     = Raise (ValueError "invalid literal for int() with base 10: 4.5").
Proof.
  repeat split; vm_compute; reflexivity.
Qed.

(** ** The metrics and their artifact *)

Lemma calculate_leakage_same_files (tf : t_vs_flow) (w : world) :
  same_files w (snd (calculate_leakage tf w)).
Proof.
  destruct tf as [time flow]. unfold calculate_leakage, mbind, lift.
  destruct (leakage_loop _ _ _ _) as [total|e]; cbn [snd]; [|apply same_files_refl].
  unfold logging, mret. destruct (Qltb _ 0); cbn [snd];
    [apply same_files_add_log|]; apply same_files_refl.
Qed.

Lemma build_metrics_same_files (tf : t_vs_flow) (w : world) :
  same_files w (snd (build_metrics tf w)).
Proof.
  unfold build_metrics, mbind, lift, mret.
  destruct (calculate_duration tf); [|apply same_files_refl].
  destruct (count_breaths _ _ _ _); [|apply same_files_refl].
  destruct (calculate_breath_rate_bpm tf); [|apply same_files_refl].
  destruct (calculate_breath_times tf); [|apply same_files_refl].
  destruct (count_apnea tf); [|apply same_files_refl].
  pose proof (calculate_leakage_same_files tf w) as H.
  destruct (calculate_leakage tf w) as [[l|e] w']; exact H.
Qed.

Lemma get_metrics_build_then_dump (tf : t_vs_flow) (input_file : string) (w : world) :
  get_metrics tf input_file w
  = match build_metrics tf w with
    | (Ok m, w1) =>
        match dump_json (output_file_of input_file) m w1 with
        | (Ok _, w2) => (Ok m, w2)
        | (Raise e, w2) => (Raise e, w2)
        end
    | (Raise e, w1) => (Raise e, w1)
    end.
Proof.
  unfold get_metrics, build_metrics, mbind, lift, mret, output_file_of.
  destruct (calculate_duration tf); [|reflexivity].
  destruct (count_breaths _ _ _ _); [|reflexivity].
  destruct (calculate_breath_rate_bpm tf); [|reflexivity].
  destruct (calculate_breath_times tf); [|reflexivity].
  destruct (count_apnea tf); [|reflexivity].
  destruct (calculate_leakage tf w) as [[l|e] w']; reflexivity.
Qed.

Lemma split_not_nil (sep : ascii) (s : string) : split sep s <> [].
Proof.
  destruct s as [|c r]; cbn; [discriminate|].
  destruct (Ascii.eqb c sep); [discriminate|].
  destruct (split sep r); discriminate.
Qed.

Lemma split_app_sep (sep : ascii) (a b : string) :
  split sep (a ++ String sep b) = split sep a ++ split sep b.
Proof.
  induction a as [|c a IH].
  - cbn. rewrite Ascii.eqb_refl. reflexivity.
  - cbn [String.append split]. rewrite IH.
    destruct (Ascii.eqb c sep); [reflexivity|].
    destruct (split sep a) as [|f fs] eqn:E; [|reflexivity].
    exfalso. exact (split_not_nil sep a E).
Qed.

Lemma last_app_not_nil {A} (l1 l2 : list A) (d : A) :
  l2 <> [] -> last (l1 ++ l2) d = last l2 d.
Proof.
  intros Hne. induction l1 as [|a l1 IH]; [reflexivity|].
  cbn [app]. destruct (l1 ++ l2) eqn:E.
  - destruct l1; [cbn in E; contradiction | discriminate E].
  - cbn [last]. exact IH.
Qed.

Lemma output_file_drops_directory (dir name : string) :
  output_file_of (dir ++ String "/"%char name) = output_file_of name.
Proof.
  unfold output_file_of, basename. rewrite split_app_sep.
  rewrite last_app_not_nil by apply split_not_nil. reflexivity.
Qed.

(** C7, as the code has it: when the six metrics compute, [get_metrics]
    writes them to [<input-stem>.json] in the working directory (the
    directory of the input path is dropped) and returns them; when that
    write fails, the [OSError] of the write propagates to the caller and no
    record is returned. *)
Theorem get_metrics_returns_or_raises
        (tf : t_vs_flow) (input_file : string) (w w1 : world) (m : metrics) :
  build_metrics tf w = (Ok m, w1) ->
  (forall dir name : string,
      output_file_of (dir ++ String "/"%char name) = output_file_of name)
  /\ (existsb (String.eqb (output_file_of input_file)) (unwritable w) = false ->
      get_metrics tf input_file w = (Ok m, add_artifact w1 (output_file_of input_file) m))
  /\ (existsb (String.eqb (output_file_of input_file)) (unwritable w) = true ->
      get_metrics tf input_file w = (Raise (OSError (output_file_of input_file)), w1)).
Proof.
  intros Hbuild. split; [exact output_file_drops_directory|].
  pose proof (build_metrics_same_files tf w) as (_ & Hunw & _).
  rewrite Hbuild in Hunw. cbn [snd] in Hunw.
  rewrite get_metrics_build_then_dump, Hbuild. unfold dump_json. rewrite Hunw.
  split; intros ->; reflexivity.
Qed.

Lemma get_metrics_returns_or_raises_witness :
  get_metrics flat_recording "sample_data/patient_02.txt" empty_world
  = (Ok {| duration := 3 - 0; breaths := 0; breath_rate_bpm := 0 / (3 - 0) * 60;
           breath_times := [];  apnea_count := 0;
           leakage := (0 + 0 * (1 - 0) + 0 * (2 - 1) + 0 * (3 - 2)) * 1000 |},
     add_artifact empty_world "patient_02.json"
       {| duration := 3 - 0; breaths := 0; breath_rate_bpm := 0 / (3 - 0) * 60;
          breath_times := [];  apnea_count := 0;
          leakage := (0 + 0 * (1 - 0) + 0 * (2 - 1) + 0 * (3 - 2)) * 1000 |})
  /\ fst (get_metrics flat_recording "sample_data/patient_02.txt"
                      (world_unwritable ["patient_02.json"]))
     = Raise (OSError "patient_02.json").
Proof.
  split.
  - refine (proj1 (proj2 (get_metrics_returns_or_raises flat_recording
                            "sample_data/patient_02.txt" empty_world empty_world _ _)) _);
      vm_compute; reflexivity.
  - rewrite (proj2 (proj2 (get_metrics_returns_or_raises flat_recording
                             "sample_data/patient_02.txt"
                             (world_unwritable ["patient_02.json"])
                             (world_unwritable ["patient_02.json"])
                             {| duration := 3 - 0; breaths := 0;
                                breath_rate_bpm := 0 / (3 - 0) * 60;
                                breath_times := [];  apnea_count := 0;
                                leakage := (0 + 0 * (1 - 0) + 0 * (2 - 1) + 0 * (3 - 2)) * 1000 |}
                             eq_refl)) eq_refl).
    reflexivity.
Defined.

(** C7 as the specification words it fails twice: when the write fails the
    record is not returned, and when the input file is in another directory
    the artifact is not written next to it. *)
Lemma get_metrics_write_failure_returns_nothing :
  ~ (forall (tf : t_vs_flow) (input_file : string) (w w1 : world) (m : metrics),
        build_metrics tf w = (Ok m, w1) ->
        fst (get_metrics tf input_file w) = Ok m)
  /\ ~ (forall (tf : t_vs_flow) (input_file : string) (w w1 : world) (m : metrics),
          build_metrics tf w = (Ok m, w1) ->
          fst (get_metrics tf input_file w) = Ok m ->
          lookup (sibling_json input_file) (artifacts (snd (get_metrics tf input_file w)))
          = Some m).
Proof.
  split; intros H.
  - specialize (H flat_recording "sample_data/patient_02.txt"
                  (world_unwritable ["patient_02.json"]) _ _ eq_refl).
    vm_compute in H. discriminate H.
  - specialize (H flat_recording "sample_data/patient_02.txt" empty_world _ _ eq_refl eq_refl).
    vm_compute in H. discriminate H.
Qed.

(** ** The peak search: its loops end, its peaks are inner indices in
    increasing order *)

Lemma increasing_within_weaken (lo lo' hi : nat) (l : list nat) :
  (lo' <= lo)%nat -> increasing_within lo hi l -> increasing_within lo' hi l.
Proof.
  destruct l as [|p l']; [trivial|]. cbn. intros Hlo [Hp Hl']. split; [lia | exact Hl'].
Qed.

Lemma increasing_within_In (l : list nat) :
  forall lo hi p, increasing_within lo hi l -> In p l -> (lo <= p < hi)%nat.
Proof.
  induction l as [|q l' IH]; intros lo hi p Hinc Hin; [destruct Hin|].
  destruct Hinc as [Hq Hl']. destruct Hin as [<-|Hin]; [exact Hq|].
  specialize (IH (S q) hi p Hl' Hin). lia.
Qed.

Lemma increasing_within_filter (f : nat -> bool) (l : list nat) :
  forall lo hi, increasing_within lo hi l -> increasing_within lo hi (filter f l).
Proof.
  induction l as [|p l' IH]; intros lo hi Hinc; [exact I|].
  destruct Hinc as [Hp Hl']. cbn [filter]. destruct (f p).
  - split; [exact Hp | apply IH; exact Hl'].
  - apply (increasing_within_weaken (S p)); [lia | apply IH; exact Hl'].
Qed.


Lemma plateau_end_bounds (x : list Q) (i i_max : nat) (fuel : nat) :
  forall i_ahead,
    (i_ahead <= i_max)%nat ->
    (i_ahead <= Scipy.plateau_end fuel x i i_ahead i_max <= i_max)%nat.
Proof.
  induction fuel as [|fuel' IH]; intros i_ahead Hle; cbn [Scipy.plateau_end]; [lia|].
  destruct ((i_ahead <? i_max)%nat && _) eqn:E; [|lia].
  apply andb_prop in E as [Hlt _]. apply Nat.ltb_lt in Hlt.
  specialize (IH (S i_ahead) Hlt). lia.
Qed.

(** With enough fuel the inner loop stops on its own condition. *)
Lemma plateau_end_exits (x : list Q) (i i_max : nat) (fuel : nat) :
  forall i_ahead,
    (i_max <= i_ahead + fuel)%nat ->
    let r := Scipy.plateau_end fuel x i i_ahead i_max in
    (r <? i_max)%nat && Qeq_bool (Scipy.sample x r) (Scipy.sample x i) = false.
Proof.
  induction fuel as [|fuel' IH]; intros i_ahead Hfuel; cbn [Scipy.plateau_end].
  - cbv zeta. replace (i_ahead <? i_max)%nat with false; [reflexivity|].
    symmetry. apply Nat.ltb_ge. lia.
  - destruct ((i_ahead <? i_max)%nat && _) eqn:E; [|exact E].
    apply IH. lia.
Qed.

(** With enough fuel the outer loop does not depend on the fuel. *)
Lemma local_maxima_loop_fuel (x : list Q) (i_max : nat) (fuel : nat) :
  forall fuel' i,
    (i_max <= i + fuel)%nat -> (i_max <= i + fuel')%nat ->
    Scipy.local_maxima_loop fuel x i i_max = Scipy.local_maxima_loop fuel' x i i_max.
Proof.
  induction fuel as [|fuel0 IH]; intros fuel' i Hfuel Hfuel'.
  - destruct fuel' as [|fuel1]; [reflexivity|]. cbn [Scipy.local_maxima_loop].
    replace (i <? i_max)%nat with false; [reflexivity|]. symmetry. apply Nat.ltb_ge. lia.
  - destruct fuel' as [|fuel1]; cbn [Scipy.local_maxima_loop].
    + replace (i <? i_max)%nat with false; [reflexivity|]. symmetry. apply Nat.ltb_ge. lia.
    + destruct (i <? i_max)%nat eqn:Hlt; [|reflexivity]. apply Nat.ltb_lt in Hlt.
      pose proof (plateau_end_bounds x i i_max (List.length x) (i + 1)) as Hb.
      destruct (Qltb _ _); [|apply IH; lia].
      destruct (Qltb _ _); [f_equal|]; apply IH; lia.
Qed.

Lemma local_maxima_loop_increasing (x : list Q) (i_max : nat) (fuel : nat) :
  forall i, increasing_within i i_max (Scipy.local_maxima_loop fuel x i i_max).
Proof.
  induction fuel as [|fuel' IH]; intros i; cbn [Scipy.local_maxima_loop]; [exact I|].
  destruct (i <? i_max)%nat eqn:Hlt; [|exact I]. apply Nat.ltb_lt in Hlt.
  pose proof (plateau_end_bounds x i i_max (List.length x) (i + 1) ltac:(lia)) as Hb.
  set (i_ahead := Scipy.plateau_end (List.length x) x i (i + 1) i_max) in *.
  destruct (Qltb (Scipy.sample x (i - 1)) (Scipy.sample x i)).
  - destruct (Qltb (Scipy.sample x i_ahead) (Scipy.sample x i)).
    + pose proof (Nat.div_mod_eq (i + (i_ahead - 1)) 2) as Hdiv.
      pose proof (Nat.mod_upper_bound (i + (i_ahead - 1)) 2 ltac:(lia)) as Hmod.
      split; [lia|].
      apply (increasing_within_weaken (i_ahead + 1)); [lia | apply IH].
    + apply (increasing_within_weaken (i + 1)); [lia | apply IH].
  - apply (increasing_within_weaken (i + 1)); [lia | apply IH].
Qed.

Lemma suppress_neighbours_increasing (d : nat) (visit : list nat) :
  forall kept lo hi,
    increasing_within lo hi kept ->
    increasing_within lo hi (Scipy.suppress_neighbours d visit kept).
Proof.
  induction visit as [|p visit' IH]; intros kept lo hi Hinc; cbn [Scipy.suppress_neighbours].
  - exact Hinc.
  - destruct (existsb (Nat.eqb p) kept); apply IH; [apply increasing_within_filter|];
      exact Hinc.
Qed.

Lemma find_peaks_increasing (x : list Q) (h pro : Q) (d : nat) (peaks : list nat) :
  Scipy.find_peaks x h pro d = Ok peaks ->
  increasing_within 1 (List.length x - 1) peaks.
Proof.
  unfold Scipy.find_peaks. destruct (d <? 1)%nat; [discriminate|].
  intros H. injection H as <-.
  unfold Scipy.select_by_prominence, Scipy.select_by_peak_distance, Scipy.select_by_height.
  apply increasing_within_filter, suppress_neighbours_increasing, increasing_within_filter.
  apply local_maxima_loop_increasing.
Qed.

(** ** The cycle-completion filter *)

Lemma existsb_py_slice (f : Q -> bool) (flow : list Q) (lo hi : nat) :
  existsb f (py_slice flow lo hi) = true
  <-> exists k v, (lo <= k < hi)%nat /\ nth_error flow k = Some v /\ f v = true.
Proof.
  unfold py_slice. rewrite existsb_exists. split.
  - intros (v & Hin & Hf). apply In_nth_error in Hin as [j Hj].
    rewrite nth_error_firstn in Hj.
    destruct (j <? hi - lo)%nat eqn:Hlt; [|discriminate].
    apply Nat.ltb_lt in Hlt. rewrite nth_error_skipn in Hj.
    exists (lo + j)%nat, v. split; [lia | split; assumption].
  - intros (k & v & Hk & Hnth & Hf). exists v. split; [|exact Hf].
    apply (nth_error_In _ (k - lo)). rewrite nth_error_firstn.
    replace (k - lo <? hi - lo)%nat with true by (symmetry; apply Nat.ltb_lt; lia).
    rewrite nth_error_skipn. replace (lo + (k - lo))%nat with k by lia. exact Hnth.
Qed.

Lemma contains_zero_window (flow : list Q) (lo hi : nat) :
  contains_zero (py_slice flow lo hi) = true <-> zero_in_window flow lo hi.
Proof.
  unfold contains_zero, zero_in_window. rewrite existsb_py_slice.
  split; intros (k & v & Hk & Hnth & Hv); exists k, v; (split; [exact Hk | split; [exact Hnth|]]).
  - apply Qeq_bool_iff. exact Hv.
  - apply Qeq_bool_iff. exact Hv.
Qed.

Lemma any_negative_window (flow : list Q) (lo hi : nat) :
  any_negative (py_slice flow lo hi) = true <-> negative_in_window flow lo hi.
Proof.
  unfold any_negative, negative_in_window. rewrite existsb_py_slice.
  split; intros (k & v & Hk & Hnth & Hv); exists k, v; (split; [exact Hk | split; [exact Hnth|]]).
  - apply Qltb_lt. exact Hv.
  - apply Qltb_lt. exact Hv.
Qed.

Lemma keep_pair_accepts (flow : list Q) (peak next : nat) :
  (peak + 1 < List.length flow)%nat ->
  keep_pair flow peak next = true <-> accepts_pair flow peak next.
Proof.
  intros Hlen. unfold keep_pair, accepts_pair, cycle_started, returns_to_baseline, goes_negative.
  rewrite andb_true_iff, orb_true_iff, contains_zero_window, any_negative_window, negb_true_iff.
  pose proof (nth_error_nth' flow 0 Hlen) as Hnth.
  split; intros [Hstart Hcycle]; (split; [|exact Hcycle]).
  - exists (nth (peak + 1) flow 0). split; [exact Hnth|].
    intros Hzero. apply Qeq_bool_iff in Hzero. congruence.
  - destruct Hstart as (v & Hv & Hnz). rewrite Hnth in Hv. injection Hv as <-.
    destruct (Qeq_bool (nth (peak + 1) flow 0) 0) eqn:E; [|reflexivity].
    apply Qeq_bool_iff in E. contradiction.
Qed.

Lemma keep_final_accepts (flow : list Q) (peak : nat) :
  keep_final flow peak = true <-> accepts_final flow peak.
Proof. apply contains_zero_window. Qed.

Lemma accepted_peaks_cons (flow : list Q) (peak next : nat) (rest : list nat) :
  accepted_peaks flow (peak :: next :: rest)
  = if keep_pair flow peak next
    then peak :: accepted_peaks flow (next :: rest)
    else accepted_peaks flow (next :: rest).
Proof. reflexivity. Qed.

Lemma accepted_peaks_single (flow : list Q) (peak : nat) :
  accepted_peaks flow [peak] = if keep_final flow peak then [peak] else [].
Proof. reflexivity. Qed.

(** The loop of [count_breaths] followed by its final test is the filter. *)
Lemma validate_peaks_accepted (flow : list Q) (peaks : list nat) :
  forall lo valid,
    increasing_within lo (List.length flow - 1) peaks ->
    peaks <> [] ->
    exists kept,
      validate_peaks flow peaks valid = Ok kept
      /\ (if contains_zero (py_slice flow (last peaks 0%nat) (List.length flow - 1))
          then kept ++ [last peaks 0%nat] else kept)
         = valid ++ accepted_peaks flow peaks.
Proof.
  induction peaks as [|peak peaks' IH]; intros lo valid Hinc Hne; [contradiction|].
  destruct peaks' as [|next rest].
  - clear IH. exists valid. split; [reflexivity|].
    rewrite accepted_peaks_single. cbn [last]. unfold keep_final.
    destruct (contains_zero (py_slice flow peak (List.length flow - 1)));
      [reflexivity | rewrite app_nil_r; reflexivity].
  - destruct Hinc as [Hpeak Hinc'].
    cbn [validate_peaks].
    assert (Hitem : item flow (peak + 1) = Ok (nth (peak + 1) flow 0)).
    { unfold item. rewrite (nth_error_nth' flow 0); [reflexivity | lia]. }
    rewrite Hitem. cbn [rbind].
    destruct (IH (S peak)
                 (if negb (Qeq_bool (nth (peak + 1) flow 0) 0)
                     && (contains_zero (py_slice flow peak next)
                         || any_negative (py_slice flow peak next))
                  then valid ++ [peak] else valid) Hinc' ltac:(discriminate))
      as (kept & Hloop & Hfinal).
    exists kept. split; [exact Hloop|].
    change (last (peak :: next :: rest) 0%nat) with (last (next :: rest) 0%nat).
    rewrite Hfinal. rewrite accepted_peaks_cons. unfold keep_pair.
    destruct (negb _ && _); [rewrite <- app_assoc|]; reflexivity.
Qed.

Lemma count_breaths_accepted (flow : list Q) (h pro : Q) (d : nat) (peaks : list nat) :
  Scipy.find_peaks flow h pro d = Ok peaks ->
  count_breaths flow h pro d
  = Ok (accepted_peaks flow peaks, List.length (accepted_peaks flow peaks)).
Proof.
  intros Hpeaks. pose proof (find_peaks_increasing flow h pro d peaks Hpeaks) as Hinc.
  unfold count_breaths. rewrite Hpeaks. cbn [rbind].
  destruct peaks as [|peak peaks']; [reflexivity|].
  cbn [List.length Nat.eqb].
  destruct (validate_peaks_accepted flow (peak :: peaks') 1 [] Hinc ltac:(discriminate))
    as (kept & Hloop & Hfinal).
  rewrite Hloop. cbn [rbind]. rewrite Hfinal. reflexivity.
Qed.

Lemma accepted_peaks_In (flow : list Q) (peaks : list nat) (p : nat) :
  In p (accepted_peaks flow peaks) -> In p peaks.
Proof.
  induction peaks as [|peak peaks' IH]; [intros []|].
  destruct peaks' as [|next rest].
  - rewrite accepted_peaks_single.
    destruct (keep_final flow peak); [intros H; exact H | intros []].
  - rewrite accepted_peaks_cons. destruct (keep_pair flow peak next).
    + intros [<-|Hin]; [left; reflexivity | right; exact (IH Hin)].
    + intros Hin. right. exact (IH Hin).
Qed.

Lemma accepted_peaks_increasing (flow : list Q) (peaks : list nat) :
  forall lo hi, increasing_within lo hi peaks ->
                increasing_within lo hi (accepted_peaks flow peaks).
Proof.
  induction peaks as [|peak peaks' IH]; intros lo hi Hinc; [exact I|].
  destruct Hinc as [Hpeak Hinc']. destruct peaks' as [|next rest].
  - rewrite accepted_peaks_single.
    destruct (keep_final flow peak); [split; [exact Hpeak | exact I] | exact I].
  - rewrite accepted_peaks_cons. destruct (keep_pair flow peak next).
    + split; [exact Hpeak | apply IH; exact Hinc'].
    + apply (increasing_within_weaken (S peak)); [lia | apply IH; exact Hinc'].
Qed.

Lemma accepted_peaks_pair (flow : list Q) (peaks : list nat) :
  forall lo hi i peak next,
    increasing_within lo hi peaks ->
    nth_error peaks i = Some peak -> nth_error peaks (S i) = Some next ->
    (In peak (accepted_peaks flow peaks) <-> keep_pair flow peak next = true).
Proof.
  induction peaks as [|q peaks' IH]; intros lo hi i peak next Hinc Hi Hsi.
  - destruct i; discriminate Hi.
  - destruct Hinc as [Hq Hinc']. destruct peaks' as [|q' rest]; [destruct i; discriminate Hsi|].
    rewrite accepted_peaks_cons. destruct i as [|i'].
    + cbn in Hi, Hsi. injection Hi as <-. injection Hsi as <-.
      destruct (keep_pair flow q q') eqn:E.
      * split; [reflexivity | intros _; left; reflexivity].
      * split; [|discriminate]. intros Hin. apply accepted_peaks_In in Hin.
        pose proof (increasing_within_In _ _ _ _ Hinc' Hin). lia.
    + cbn [nth_error] in Hi, Hsi.
      pose proof (increasing_within_In _ _ _ _ Hinc' (nth_error_In _ _ Hi)) as Hgt.
      rewrite <- (IH (S q) hi i' peak next Hinc' Hi Hsi).
      destruct (keep_pair flow q q'); [|reflexivity].
      split; [intros [Heq|Hin]; [lia | exact Hin] | intros Hin; right; exact Hin].
Qed.

Lemma accepted_peaks_final (flow : list Q) (peaks : list nat) :
  forall lo hi,
    increasing_within lo hi peaks -> peaks <> [] ->
    (In (last peaks 0%nat) (accepted_peaks flow peaks)
     <-> keep_final flow (last peaks 0%nat) = true).
Proof.
  induction peaks as [|q peaks' IH]; intros lo hi Hinc Hne; [contradiction|].
  destruct Hinc as [Hq Hinc']. destruct peaks' as [|q' rest].
  - rewrite accepted_peaks_single. cbn [last]. destruct (keep_final flow q).
    + split; [reflexivity | intros _; left; reflexivity].
    + split; [intros [] | discriminate].
  - change (last (q :: q' :: rest) 0%nat) with (last (q' :: rest) 0%nat).
    rewrite <- (IH (S q) hi Hinc' ltac:(discriminate)).
    assert (Hlast : In (last (q' :: rest) 0%nat) (q' :: rest)).
    { destruct (exists_last (l := q' :: rest) ltac:(discriminate)) as (l' & a & E).
      rewrite E, last_last. apply in_or_app. right. left. reflexivity. }
    pose proof (increasing_within_In _ _ _ _ Hinc' Hlast) as Hgt.
    rewrite accepted_peaks_cons. destruct (keep_pair flow q q'); [|reflexivity].
    split; [intros [Heq|Hin]; [lia | exact Hin] | intros Hin; right; exact Hin].
Qed.

(** C1: with the candidate peaks [find_peaks] returns, [count_breaths]
    accepts a peak that has a next candidate exactly when the sample after
    it is not zero and its window up to the next candidate holds a sample
    equal to zero or a negative sample; it accepts the last candidate exactly
    when a sample from it up to, but excluding, the last sample of the series
    is zero; the accepted peaks are candidates, in increasing index order,
    and the count is their number. *)
Theorem count_breaths_cycle_completion
        (flow : list Q) (h pro : Q) (d : nat) (peaks : list nat) :
  Scipy.find_peaks flow h pro d = Ok peaks ->
  exists valid_peaks,
    count_breaths flow h pro d = Ok (valid_peaks, List.length valid_peaks)
    /\ increasing_within 1 (List.length flow - 1) valid_peaks
    /\ (forall p, In p valid_peaks -> In p peaks)
    /\ (forall i peak next,
           nth_error peaks i = Some peak -> nth_error peaks (S i) = Some next ->
           (In peak valid_peaks <-> accepts_pair flow peak next))
    /\ (peaks <> [] ->
        (In (last peaks 0%nat) valid_peaks <-> accepts_final flow (last peaks 0%nat))).
Proof.
  intros Hpeaks. pose proof (find_peaks_increasing flow h pro d peaks Hpeaks) as Hinc.
  exists (accepted_peaks flow peaks).
  split; [exact (count_breaths_accepted flow h pro d peaks Hpeaks)|].
  split; [exact (accepted_peaks_increasing flow peaks _ _ Hinc)|].
  split; [intros p; apply accepted_peaks_In|].
  split.
  - intros i peak next Hi Hsi.
    rewrite (accepted_peaks_pair flow peaks _ _ i peak next Hinc Hi Hsi).
    apply keep_pair_accepts.
    pose proof (increasing_within_In _ _ _ _ Hinc (nth_error_In _ _ Hi)). lia.
  - intros Hne. rewrite (accepted_peaks_final flow peaks _ _ Hinc Hne).
    apply keep_final_accepts.
Qed.

Lemma count_breaths_cycle_completion_witness :
  exists valid_peaks,
    count_breaths flow_with_low_peak default_h default_pro default_d
    = Ok (valid_peaks, List.length valid_peaks)
    /\ increasing_within 1 (List.length flow_with_low_peak - 1) valid_peaks
    /\ (forall p, In p valid_peaks -> In p [1; 60; 120]%nat)
    /\ (forall i peak next,
           nth_error [1; 60; 120]%nat i = Some peak ->
           nth_error [1; 60; 120]%nat (S i) = Some next ->
           (In peak valid_peaks <-> accepts_pair flow_with_low_peak peak next))
    /\ ([1; 60; 120]%nat <> [] ->
        (In (last [1; 60; 120]%nat 0%nat) valid_peaks
         <-> accepts_final flow_with_low_peak (last [1; 60; 120]%nat 0%nat))).
Proof.
  apply (count_breaths_cycle_completion flow_with_low_peak default_h default_pro default_d).
  vm_compute. reflexivity.
Defined.

(** ** The height threshold *)


Lemma insert_by_priority_In (x : list Q) (p q : nat) (l : list nat) :
  In q (Scipy.insert_by_priority x p l) <-> q = p \/ In q l.
Proof.
  induction l as [|a l IH]; cbn [Scipy.insert_by_priority].
  - cbn. intuition.
  - destruct (Qle_bool _ _); cbn [In]; [|rewrite IH]; intuition.
Qed.

Lemma argsort_priority_In (x : list Q) (q : nat) (peaks : list nat) :
  In q (Scipy.argsort_priority x peaks) <-> In q peaks.
Proof.
  induction peaks as [|p peaks IH]; [reflexivity|].
  cbn [Scipy.argsort_priority fold_right].
  rewrite insert_by_priority_In. fold (Scipy.argsort_priority x peaks).
  rewrite IH. cbn [In]. intuition.
Qed.





Lemma suppress_neighbours_In (d : nat) (visit : list nat) :
  forall kept p, In p (Scipy.suppress_neighbours d visit kept) -> In p kept.
Proof.
  induction visit as [|v visit IH]; intros kept p Hin; [exact Hin|].
  cbn [Scipy.suppress_neighbours] in Hin. destruct (existsb _ kept).
  - apply IH in Hin. apply filter_In in Hin. apply Hin.
  - apply IH. exact Hin.
Qed.

Lemma existsb_eqb_In (v : nat) (l : list nat) : existsb (Nat.eqb v) l = true <-> In v l.
Proof.
  rewrite existsb_exists. split.
  - intros (q & Hin & Heq). apply Nat.eqb_eq in Heq. subst. exact Hin.
  - intros Hin. exists v. split; [exact Hin | apply Nat.eqb_refl].
Qed.





(** A visited peak that is kept has no kept peak closer than [d]. *)
Lemma visited_separated (d : nat) (visit : list nat) :
  forall kept q p,
    In q visit ->
    In q (Scipy.suppress_neighbours d visit kept) ->
    In p (Scipy.suppress_neighbours d visit kept) ->
    p <> q -> Scipy.closer_than d q p = false.
Proof.
  induction visit as [|v visit IH]; intros kept q p Hq Hqk Hpk Hne; [destruct Hq|].
  cbn [Scipy.suppress_neighbours] in Hqk, Hpk.
  destruct (Nat.eq_dec q v) as [->|Hqv].
  - destruct (existsb (Nat.eqb v) kept) eqn:E.
    + apply suppress_neighbours_In, filter_In in Hpk as [_ Hp].
      apply orb_prop in Hp as [Hp|Hp].
      * apply Nat.eqb_eq in Hp. contradiction.
      * apply negb_true_iff in Hp. exact Hp.
    + apply suppress_neighbours_In, existsb_eqb_In in Hqk. congruence.
  - destruct Hq as [Hq|Hq]; [congruence|].
    destruct (existsb (Nat.eqb v) kept); eapply IH; eassumption.
Qed.
























(** Without the condition on equal heights the sort decides: with the
    three equal peaks of [tied_flow] four samples apart and the distance 5,
    an order that visits the middle peak first keeps it alone, an order
    that visits it last keeps the two others. *)
Lemma equal_heights_leave_the_choice_to_the_sort :
  is_argsort tied_flow (candidates tied_flow 0) [4; 2; 10; 6]%nat
  /\ is_argsort tied_flow (candidates tied_flow (1 # 2)) [6; 2; 10]%nat
  /\ Scipy.find_peaks_in [4; 2; 10; 6]%nat tied_flow 0 0 5 = Ok [6]%nat
  /\ Scipy.find_peaks_in [6; 2; 10]%nat tied_flow (1 # 2) 0 5 = Ok [2; 10]%nat.
Proof.
  assert (Hc1 : candidates tied_flow 0 = [2; 4; 6; 10]%nat) by (vm_compute; reflexivity).
  assert (Hc2 : candidates tied_flow (1 # 2) = [2; 6; 10]%nat) by (vm_compute; reflexivity).
  rewrite Hc1, Hc2.
  split; [|split; [|split; vm_compute; reflexivity]].
  - split.
    + apply perm_trans with (l' := [2; 4; 10; 6]%nat); [apply perm_swap|].
      apply perm_skip, perm_skip, perm_swap.
    + repeat (constructor; [|repeat constructor; apply Qle_bool_iff; vm_compute; reflexivity]).
      constructor.
  - split.
    + apply perm_trans with (l' := [2; 6; 10]%nat); [apply perm_swap | reflexivity].
    + repeat (constructor; [|repeat constructor; apply Qle_bool_iff; vm_compute; reflexivity]).
      constructor.
Qed.

(** * Further properties of the code *)

(** ** The log of the loader *)

Lemma check_tokens_run (line : nat) (patient todo : list string) (w : world) :
  check_tokens line patient todo w
  = match find (fun data => negb (fine data)) todo with
    | Some data =>
        (Ok false, add_log w (if is_ok (py_float data) then Error_nan_value line patient
                              else Error_non_numeric line patient))
    | None => (Ok true, w)
    end.
Proof.
  induction todo as [|data todo' IH]; [reflexivity|].
  cbn [check_tokens find]. unfold fine at 1.
  destruct (py_float data) as [v|e] eqn:E; cbn [is_ok andb negb].
  - destruct (data =? "NaN")%string; cbn [negb].
    + rewrite E. reflexivity.
    + exact IH.
  - rewrite E. reflexivity.
Qed.

Lemma is_correct_data_run (line : nat) (patient : list string) (w : world) :
  is_correct_data line patient w
  = match rejection_of line patient with
    | Some r => (Ok false, add_log w r)
    | None => (Ok true, w)
    end.
Proof.
  unfold is_correct_data, rejection_of.
  destruct (negb (List.length patient =? 7)%nat); [reflexivity|].
  rewrite check_tokens_run.
  destruct (find (fun data => negb (fine data)) patient); reflexivity.
Qed.

Lemma find_none_forallb {A} (f : A -> bool) (l : list A) :
  find (fun a => negb (f a)) l = None <-> forallb f l = true.
Proof.
  induction l as [|a l IH]; cbn [find forallb]; [tauto|].
  destruct (f a); cbn [negb andb]; [exact IH|]. split; discriminate.
Qed.

Lemma rejection_of_accepted (line : nat) (tokens : list string) :
  rejection_of line tokens = None <-> accepted tokens = true.
Proof.
  unfold rejection_of, accepted. rewrite <- andb_assoc, <- forallb_andb.
  fold fine. change (fun data => is_ok (py_float data) && negb (data =? "NaN")) with fine.
  destruct (List.length tokens =? 7)%nat; cbn [negb andb]; [|split; discriminate].
  rewrite <- (find_none_forallb fine tokens).
  destruct (find (fun data => negb (fine data)) tokens); split; congruence.
Qed.

Lemma load_rows_log (lines : list string) :
  forall (i : nat) (valid_data : list (list string)) (w : world),
    log (snd (load_rows i lines valid_data w))
    = log w ++ rejections (i + 2) (map (fun line => split comma (strip_nl line)) lines).
Proof.
  induction lines as [|line lines' IH]; intros i valid_data w.
  - cbn. rewrite app_nil_r. reflexivity.
  - cbn [load_rows]. unfold mbind. rewrite is_correct_data_run.
    unfold rejections, numbered. cbn [map List.length seq combine flat_map].
    destruct (rejection_of (i + 2) (split comma (strip_nl line))) as [r|].
    + rewrite IH. cbn [add_log log]. rewrite <- app_assoc. reflexivity.
    + rewrite IH. reflexivity.
Qed.

Lemma rejections_length (first : nat) (records : list (list string)) :
  List.length (rejections first records)
  = List.length (filter (fun row => negb (accepted row)) records).
Proof.
  unfold rejections, numbered. revert first.
  induction records as [|row records IH]; intros first; [reflexivity|].
  cbn [List.length seq combine flat_map filter].
  rewrite length_app, IH.
  destruct (rejection_of first row) as [r|] eqn:E.
  - destruct (accepted row) eqn:Ha.
    + apply (rejection_of_accepted first) in Ha. congruence.
    + reflexivity.
  - apply rejection_of_accepted in E. rewrite E. reflexivity.
Qed.

(** X1: loading a readable file appends to the log one error record for each
    rejected line, in the order of the lines, and nothing else: the record
    carries the tokens of the line and its number in the file, counted from
    1 with the header as line 1, and tells a wrong number of tokens from a
    token that is not a number and from the token NaN, by the first token
    at fault; an accepted line leaves no record; the files and artifacts
    are left as they were. *)
Theorem load_patient_logs_each_rejected_line (w : world) (path content : string) :
  lookup path (files w) = Some content ->
  log (snd (load_patient path w)) = log w ++ rejections 2 (records_of content)
  /\ (forall line tokens, rejection_of line tokens = None <-> accepted tokens = true)
  /\ List.length (rejections 2 (records_of content))
     = List.length (filter (fun row => negb (accepted row)) (records_of content))
  /\ same_files w (snd (load_patient path w)).
Proof.
  intros Hfile. split; [|split; [exact rejection_of_accepted|split]].
  - unfold load_patient, mbind, open_read. rewrite Hfile.
    apply (load_rows_log (tl (readlines content)) 0).
  - apply rejections_length.
  - destruct (load_patient_result w path content Hfile) as (w' & Hload & Hsame).
    rewrite Hload. exact Hsame.
Qed.

Lemma load_patient_logs_each_rejected_line_witness :
  log (snd (load_patient "p.txt" (world_with_file "p.txt" sample_recording)))
  = [Error_non_numeric 3 ["1"; "x"; "1700"; "1638"; "0"; "0"; "0"];
     Error_missing_value 4 ["2"; "1638"; "1700"];
     Error_nan_value 5 ["3"; "1638"; "NaN"; "1638"; "0"; "0"; "0"]].
Proof.
  destruct (load_patient_logs_each_rejected_line
              (world_with_file "p.txt" sample_recording) "p.txt" sample_recording eq_refl)
    as (Hlog & _).
  rewrite Hlog. vm_compute. reflexivity.
Defined.

(** ** Integer literals *)









(** ** What a counted breath is *)

Lemma find_peaks_ok_iff (x : list Q) (h pro : Q) (d : nat) :
  (d = 0%nat ->
   Scipy.find_peaks x h pro d = Raise (ValueError "`distance` must be greater or equal to 1"))
  /\ ((1 <= d)%nat -> exists peaks, Scipy.find_peaks x h pro d = Ok peaks).
Proof.
  unfold Scipy.find_peaks. split.
  - intros ->. reflexivity.
  - intros Hd. replace (d <? 1)%nat with false by (symmetry; apply Nat.ltb_ge; exact Hd).
    eexists. reflexivity.
Qed.

Lemma find_peaks_members (x : list Q) (h pro : Q) (d : nat) (peaks : list nat) (p : nat) :
  Scipy.find_peaks x h pro d = Ok peaks -> In p peaks ->
  (1 <= d)%nat
  /\ Qle_bool h (Scipy.sample x p) = true
  /\ Qle_bool pro (Scipy.peak_prominence x p) = true
  /\ In p (Scipy.select_by_peak_distance x (Scipy.select_by_height x h (Scipy.local_maxima_1d x)) d).
Proof.
  unfold Scipy.find_peaks. destruct (d <? 1)%nat eqn:Hd; [discriminate|].
  apply Nat.ltb_ge in Hd. intros H Hin. injection H as <-.
  unfold Scipy.select_by_prominence in Hin. apply filter_In in Hin as [Hin Hprom].
  split; [exact Hd|]. split; [|split; [exact Hprom | exact Hin]].
  unfold Scipy.select_by_peak_distance in Hin. apply suppress_neighbours_In in Hin.
  unfold Scipy.select_by_height in Hin. apply filter_In in Hin. apply Hin.
Qed.

Lemma not_closer_apart (d p q : nat) :
  (1 <= d)%nat -> p <> q -> Scipy.closer_than d p q = false -> apart d p q.
Proof.
  unfold Scipy.closer_than, apart. intros Hd Hne H.
  apply andb_false_iff in H as [H|H]; apply Nat.ltb_ge in H; lia.
Qed.

Lemma find_peaks_apart (x : list Q) (h pro : Q) (d : nat) (peaks : list nat) (p q : nat) :
  Scipy.find_peaks x h pro d = Ok peaks -> In p peaks -> In q peaks -> p <> q -> apart d p q.
Proof.
  intros Hpeaks Hp Hq Hne.
  destruct (find_peaks_members x h pro d peaks p Hpeaks Hp) as (Hd & _ & _ & Hp').
  destruct (find_peaks_members x h pro d peaks q Hpeaks Hq) as (_ & _ & _ & Hq').
  apply not_closer_apart; [exact Hd | exact Hne|].
  unfold Scipy.select_by_peak_distance in Hp', Hq'.
  apply (visited_separated d _ _ p q) with (3 := Hq'); [|exact Hp'|congruence].
  apply in_rev. rewrite rev_involutive. apply argsort_priority_In.
  apply suppress_neighbours_In in Hp'. exact Hp'.
Qed.

Lemma count_breaths_ok_inv (flow : list Q) (h pro : Q) (d : nat) (valid : list nat) (n : nat) :
  count_breaths flow h pro d = Ok (valid, n) ->
  exists peaks,
    Scipy.find_peaks flow h pro d = Ok peaks
    /\ valid = accepted_peaks flow peaks /\ n = List.length valid.
Proof.
  intros H. destruct (Scipy.find_peaks flow h pro d) as [peaks|e] eqn:Hpeaks.
  - rewrite (count_breaths_accepted flow h pro d peaks Hpeaks) in H.
    injection H as <- <-. exists peaks. split; [reflexivity|]. split; reflexivity.
  - unfold count_breaths in H. rewrite Hpeaks in H. discriminate H.
Qed.

(** X3: every breath [count_breaths] returns is an inner sample of the flow
    (neither the first nor the last) whose height is at least [h] and whose
    prominence is at least [pro]; two different breaths are at least [d]
    samples apart; the count is the number of breaths returned. *)
Theorem counted_breaths_are_separated_high_peaks
        (flow : list Q) (h pro : Q) (d : nat) (valid_peaks : list nat) (n : nat) :
  count_breaths flow h pro d = Ok (valid_peaks, n) ->
  n = List.length valid_peaks
  /\ (forall p, In p valid_peaks ->
        (1 <= p < List.length flow - 1)%nat
        /\ h <= nth p flow 0
        /\ pro <= Scipy.peak_prominence flow p)
  /\ (forall p q, In p valid_peaks -> In q valid_peaks -> p <> q -> apart d p q).
Proof.
  intros H. destruct (count_breaths_ok_inv flow h pro d valid_peaks n H)
    as (peaks & Hpeaks & -> & ->).
  split; [reflexivity|]. split.
  - intros p Hp. apply accepted_peaks_In in Hp.
    destruct (find_peaks_members flow h pro d peaks p Hpeaks Hp) as (_ & Hh & Hprom & _).
    split; [|split].
    + exact (increasing_within_In _ _ _ _ (find_peaks_increasing flow h pro d peaks Hpeaks) Hp).
    + apply Qle_bool_iff. exact Hh.
    + apply Qle_bool_iff. exact Hprom.
  - intros p q Hp Hq Hne. apply accepted_peaks_In in Hp, Hq.
    exact (find_peaks_apart flow h pro d peaks p q Hpeaks Hp Hq Hne).
Qed.

Lemma counted_breaths_are_separated_high_peaks_witness :
  apart default_d 1 60.
Proof.
  apply (proj2 (proj2 (counted_breaths_are_separated_high_peaks
                         flow_two_breaths default_h default_pro default_d [1; 60]%nat 2%nat
                         ltac:(vm_compute; reflexivity))) 1%nat 60%nat).
  - left. reflexivity.
  - right. left. reflexivity.
  - discriminate.
Defined.

(** X4: [count_breaths] raises only for the distance 0, with the
    [ValueError] of [find_peaks]; for any distance of at least 1 it returns,
    the sample after a candidate peak being always there; and it returns no
    breath for a flow of fewer than three samples or one that stays below
    the height [h]. *)
Theorem count_breaths_returns
        (flow : list Q) (h pro : Q) (d : nat) :
  (d = 0%nat ->
   count_breaths flow h pro d = Raise (ValueError "`distance` must be greater or equal to 1"))
  /\ ((1 <= d)%nat ->
      exists valid_peaks, count_breaths flow h pro d = Ok (valid_peaks, List.length valid_peaks))
  /\ ((1 <= d)%nat ->
      (List.length flow < 3)%nat \/ Forall (fun v => v < h) flow ->
      count_breaths flow h pro d = Ok ([], 0%nat)).
Proof.
  destruct (find_peaks_ok_iff flow h pro d) as [Hzero Hpos].
  split; [|split].
  - intros Hd. unfold count_breaths. rewrite (Hzero Hd). reflexivity.
  - intros Hd. destruct (Hpos Hd) as [peaks Hpeaks].
    exists (accepted_peaks flow peaks). exact (count_breaths_accepted flow h pro d peaks Hpeaks).
  - intros Hd Hflat. destruct (Hpos Hd) as [peaks Hpeaks].
    rewrite (count_breaths_accepted flow h pro d peaks Hpeaks).
    destruct peaks as [|p peaks']; [reflexivity|]. exfalso.
    pose proof (increasing_within_In _ _ _ _ (find_peaks_increasing flow h pro d _ Hpeaks)
                  (or_introl eq_refl)) as Hrange.
    destruct Hflat as [Hshort|Hlow]; [lia|].
    destruct (find_peaks_members flow h pro d _ p Hpeaks (or_introl eq_refl)) as (_ & Hh & _).
    apply Qle_bool_iff in Hh. rewrite Forall_forall in Hlow.
    assert (Hin : In (nth p flow 0) flow) by (apply nth_In; lia).
    apply Hlow in Hin. unfold Scipy.sample in Hh. apply Qle_not_lt in Hh. contradiction.
Qed.

Lemma count_breaths_returns_witness :
  count_breaths [0; 0; 0; 0] default_h default_pro default_d = Ok ([], 0%nat).
Proof.
  apply (proj2 (proj2 (count_breaths_returns [0; 0; 0; 0] default_h default_pro default_d))).
  - unfold default_d. lia.
  - right. repeat constructor.
Defined.

(** ** Duration, breath rate and breath times *)

(** X5: for finite sample times, the breath rate of a recording without
    samples raises [IndexError]; with samples whose last time equals the
    first (a single sample, for one) it raises [ZeroDivisionError];
    otherwise it is the number of breaths divided by the duration, times
    60.  (With an infinite or NaN time the source computes a NaN or zero
    rate; such times are outside the model of the metrics.) *)
Theorem breath_rate_cases (times : list pyfloat) (time flow : list Q) :
  finite_times times = Some time ->
  (time = [] -> calculate_breath_rate_bpm (time, flow) = Raise IndexError)
  /\ (forall first rest,
         time = first :: rest ->
         exists valid_peaks,
           count_breaths flow default_h default_pro default_d
           = Ok (valid_peaks, List.length valid_peaks)
           /\ (last time 0 == first ->
               calculate_breath_rate_bpm (time, flow) = Raise ZeroDivisionError)
           /\ (~ last time 0 == first ->
               calculate_breath_rate_bpm (time, flow)
               = Ok (inject_Z (Z.of_nat (List.length valid_peaks)) / (last time 0 - first) * 60))).
Proof.
  intros _. split.
  - intros ->. reflexivity.
  - intros first rest ->.
    destruct (find_peaks_ok_iff flow default_h default_pro default_d) as [_ Hpos].
    destruct (Hpos ltac:(unfold default_d; lia)) as [peaks Hpeaks].
    pose proof (count_breaths_accepted flow _ _ _ peaks Hpeaks) as Hcount.
    exists (accepted_peaks flow peaks). split; [exact Hcount|].
    unfold calculate_breath_rate_bpm, calculate_duration. cbn [fst snd rbind].
    rewrite Hcount. cbn [rbind snd].
    split; intros Hlast.
    + replace (Qeq_bool (last (first :: rest) 0 - first) 0) with true; [reflexivity|].
      symmetry. apply Qeq_bool_iff. rewrite Hlast. ring.
    + destruct (Qeq_bool (last (first :: rest) 0 - first) 0) eqn:E; [|reflexivity].
      exfalso. apply Hlast. apply Qeq_bool_iff in E. lra.
Qed.

Lemma breath_rate_cases_witness :
  calculate_breath_rate_bpm ([5], [0]) = Raise ZeroDivisionError.
Proof.
  destruct (proj2 (breath_rate_cases [Finite 5] [5] [0] eq_refl) 5 [] eq_refl)
    as (valid & _ & Hzero & _).
  apply Hzero. reflexivity.
Defined.

Lemma take_items_map (time : list Q) (peaks : list nat) :
  (forall p, In p peaks -> (p < List.length time)%nat) ->
  take_items time peaks = Ok (map (fun p => nth p time 0) peaks).
Proof.
  induction peaks as [|p peaks IH]; intros Hrange; [reflexivity|].
  cbn [take_items map]. unfold item.
  rewrite (nth_error_nth' time 0) by (apply Hrange; left; reflexivity).
  cbn [rbind]. rewrite IH; [reflexivity|].
  intros q Hq. apply Hrange. right. exact Hq.
Qed.

Lemma take_items_out_of_range (time : list Q) (peaks : list nat) :
  (exists p, In p peaks /\ (List.length time <= p)%nat) ->
  take_items time peaks = Raise IndexError.
Proof.
  induction peaks as [|q peaks IH]; intros (p & Hin & Hp); [destruct Hin|].
  cbn [take_items]. unfold item.
  destruct (nth_error time q) as [t|] eqn:E; [|reflexivity].
  cbn [rbind]. destruct Hin as [->|Hin].
  - apply nth_error_None in Hp. congruence.
  - rewrite IH; [reflexivity|]. exists p. split; assumption.
Qed.

Lemma increasing_within_widen (hi hi' : nat) (l : list nat) :
  (hi <= hi')%nat ->
  forall lo, increasing_within lo hi l -> increasing_within lo hi' l.
Proof.
  intros Hhi. induction l as [|p l IH]; intros lo Hinc; [exact I|].
  destruct Hinc as [Hp Hl]. split; [lia | apply IH; exact Hl].
Qed.

Lemma adjacent_times_nondecreasing (time : list Q) (peaks : list nat) :
  nondecreasing time ->
  forall lo, increasing_within lo (List.length time) peaks ->
  forall t t', In (t, t') (adjacent_pairs (map (fun p => nth p time 0) peaks)) -> t <= t'.
Proof.
  intros Htime. induction peaks as [|p peaks IH]; intros lo Hinc t t' Hin; [destruct Hin|].
  destruct peaks as [|q peaks']; [destruct Hin|].
  destruct Hinc as [Hp Hinc']. pose proof Hinc' as [Hq _].
  unfold adjacent_pairs in *. cbn [map tl combine] in Hin. destruct Hin as [Hin|Hin].
  - injection Hin as <- <-. apply Htime. lia.
  - apply (IH (S p) Hinc' t t'). exact Hin.
Qed.

(** X6: for a time sequence that covers the flow, the breath times are the
    times at the indices of the counted breaths, one per breath, in their
    order; they never decrease when the timestamps never decrease.  When a
    counted breath lies beyond the end of the time sequence, the lookup
    raises [IndexError]. *)
Theorem breath_times_at_breaths (time flow : list Q) (valid_peaks : list nat) (n : nat) :
  count_breaths flow default_h default_pro default_d = Ok (valid_peaks, n) ->
  ((List.length flow <= List.length time)%nat ->
   calculate_breath_times (time, flow) = Ok (map (fun p => nth p time 0) valid_peaks)
   /\ (nondecreasing time ->
       forall t t',
         In (t, t') (adjacent_pairs (map (fun p => nth p time 0) valid_peaks)) -> t <= t'))
  /\ ((exists p, In p valid_peaks /\ (List.length time <= p)%nat) ->
      calculate_breath_times (time, flow) = Raise IndexError).
Proof.
  intros Hcount.
  destruct (count_breaths_ok_inv flow _ _ _ valid_peaks n Hcount) as (peaks & Hpeaks & -> & ->).
  pose proof (accepted_peaks_increasing flow peaks _ _
                (find_peaks_increasing flow _ _ _ peaks Hpeaks)) as Hinc.
  unfold calculate_breath_times. rewrite Hcount. cbn [rbind].
  split.
  - intros Hlen.
    assert (Hrange : forall p, In p (accepted_peaks flow peaks) -> (p < List.length time)%nat).
    { intros p Hp. pose proof (increasing_within_In _ _ _ _ Hinc Hp). lia. }
    split.
    + destruct (accepted_peaks flow peaks) as [|p ps] eqn:E; [reflexivity|].
      cbn [List.length Nat.eqb]. apply take_items_map. exact Hrange.
    + intros Htime. apply (adjacent_times_nondecreasing time _ Htime 1%nat).
      apply (increasing_within_widen (List.length flow - 1)); [lia | exact Hinc].
  - intros (p & Hp & Hout).
    destruct (accepted_peaks flow peaks) as [|q ps] eqn:E; [destruct Hp|].
    cbn [List.length Nat.eqb]. apply take_items_out_of_range. exists p. split; assumption.
Qed.

Lemma breath_times_at_breaths_witness :
  calculate_breath_times (sampled_every 0.1 64, flow_two_breaths)
  = Ok (map (fun p => nth p (sampled_every 0.1 64) 0) [1; 60]%nat).
Proof.
  apply (proj1 (breath_times_at_breaths (sampled_every 0.1 64) flow_two_breaths
                  [1; 60]%nat 2%nat ltac:(vm_compute; reflexivity))).
  apply Nat.leb_le. vm_compute. reflexivity.
Defined.

(** ** Apnea events and breaths *)

Lemma count_apnea_of_bound (breath_times : list Q) :
  (count_apnea_of breath_times <= List.length breath_times - 1)%nat.
Proof.
  destruct breath_times as [|t rest]; [cbn; lia|].
  unfold count_apnea_of. rewrite apnea_loop_counts. unfold gaps_over_10, adjacent_pairs.
  cbn [Nat.add]. etransitivity; [apply filter_length_le|].
  rewrite length_combine. cbn [tl List.length]. lia.
Qed.

(** X7: there are fewer apnea events than breaths: the apnea count is at
    most the number of breath times minus one, and 0 when there is no
    breath or one. *)
Theorem apnea_count_below_breaths (tf : t_vs_flow) (breath_times : list Q) :
  calculate_breath_times tf = Ok breath_times ->
  exists apnea_count,
    count_apnea tf = Ok apnea_count
    /\ (apnea_count <= List.length breath_times - 1)%nat
    /\ ((List.length breath_times <= 1)%nat -> apnea_count = 0%nat).
Proof.
  intros Hbt. exists (count_apnea_of breath_times).
  pose proof (count_apnea_of_bound breath_times) as Hbound.
  split; [|split; [exact Hbound | lia]].
  unfold count_apnea. rewrite Hbt. reflexivity.
Qed.

Lemma apnea_count_below_breaths_witness :
  exists apnea_count,
    count_apnea (sampled_every 0.2 64, flow_two_breaths) = Ok apnea_count
    /\ (apnea_count <= 1)%nat.
Proof.
  destruct (apnea_count_below_breaths (sampled_every 0.2 64, flow_two_breaths)
              (map (fun p => nth p (sampled_every 0.2 64) 0) [1; 60]%nat)
              ltac:(vm_compute; reflexivity)) as (a & Ha & Hle & _).
  exists a. split; [exact Ha | exact Hle].
Defined.

(** ** The record of [get_metrics] *)

Lemma finite_times_map (time : list Q) : finite_times (map Finite time) = Some time.
Proof.
  induction time as [|t time IH]; [reflexivity|].
  cbn [map finite_times]. rewrite IH. reflexivity.
Qed.

Lemma take_items_length (time : list Q) (peaks : list nat) :
  forall ts, take_items time peaks = Ok ts -> List.length ts = List.length peaks.
Proof.
  induction peaks as [|p peaks IH]; intros ts H.
  - injection H as <-. reflexivity.
  - cbn [take_items] in H. destruct (item time p) as [t|e]; [|discriminate H].
    cbn [rbind] in H. destruct (take_items time peaks) as [ts'|e]; [|discriminate H].
    injection H as <-. cbn [List.length]. rewrite (IH ts' eq_refl). reflexivity.
Qed.

Lemma count_breaths_default_returns (flow : list Q) :
  exists valid_peaks,
    count_breaths flow default_h default_pro default_d
    = Ok (valid_peaks, List.length valid_peaks).
Proof.
  destruct (find_peaks_ok_iff flow default_h default_pro default_d) as [_ Hpos].
  destruct (Hpos ltac:(unfold default_d; lia)) as [peaks Hpeaks].
  exists (accepted_peaks flow peaks). exact (count_breaths_accepted flow _ _ _ peaks Hpeaks).
Qed.

(** X10: for finite sample times, the record [get_metrics] returns is
    consistent: it has one breath time per breath, fewer apnea events than
    breaths, a duration that is not zero, and the breath rate is the number
    of breaths divided by the duration, times 60; exactly this record is
    written under the output name. *)
Theorem get_metrics_record_is_consistent
        (times : list pyfloat) (time flow : list Q) (input_file : string) (w w' : world)
        (m : metrics) :
  finite_times times = Some time ->
  get_metrics (time, flow) input_file w = (Ok m, w') ->
  List.length (breath_times m) = breaths m
  /\ (apnea_count m <= breaths m - 1)%nat
  /\ ~ duration m == 0
  /\ breath_rate_bpm m = inject_Z (Z.of_nat (breaths m)) / duration m * 60
  /\ artifacts w' = (output_file_of input_file, m) :: artifacts w.
Proof.
  intros _. remember (time, flow) as tf eqn:Htf.
  rewrite get_metrics_build_then_dump.
  destruct (build_metrics tf w) as [[m1|e] w1] eqn:Hbuild; [|discriminate].
  pose proof (build_metrics_same_files tf w) as (_ & _ & Hart).
  rewrite Hbuild in Hart. cbn [snd] in Hart.
  unfold dump_json. destruct (existsb _ (unwritable w1)); [discriminate|].
  intros H. injection H as <- <-.
  unfold build_metrics, mbind, lift, mret in Hbuild.
  destruct (calculate_duration tf) as [d|e] eqn:Hd; [|discriminate Hbuild].
  destruct (count_breaths (snd tf) default_h default_pro default_d) as [[valid n]|e] eqn:Hc;
    [|discriminate Hbuild].
  destruct (calculate_breath_rate_bpm tf) as [r|e] eqn:Hr; [|discriminate Hbuild].
  destruct (calculate_breath_times tf) as [bt|e] eqn:Hbt; [|discriminate Hbuild].
  destruct (count_apnea tf) as [a|e] eqn:Ha; [|discriminate Hbuild].
  destruct (calculate_leakage tf w) as [[l|e] w2]; [|discriminate Hbuild].
  injection Hbuild as <- <-. cbn [breath_times breaths apnea_count duration breath_rate_bpm snd].
  destruct (count_breaths_ok_inv _ _ _ _ valid n Hc) as (peaks & _ & _ & Hn).
  assert (Hlen : List.length bt = n).
  { unfold calculate_breath_times in Hbt. rewrite Htf in Hbt, Hc. cbn [snd] in Hc.
    rewrite Hc in Hbt. cbn [rbind] in Hbt. destruct (n =? 0)%nat eqn:E.
    - injection Hbt as <-. apply Nat.eqb_eq in E. rewrite E. reflexivity.
    - rewrite (take_items_length time valid bt Hbt). symmetry. exact Hn. }
  split; [exact Hlen|]. split; [|split; [|split]].
  - unfold count_apnea in Ha. rewrite Hbt in Ha. injection Ha as <-.
    rewrite <- Hlen. apply count_apnea_of_bound.
  - unfold calculate_breath_rate_bpm in Hr. rewrite Hd, Hc in Hr. cbn [rbind snd] in Hr.
    destruct (Qeq_bool d 0) eqn:E; [discriminate Hr|].
    intros Hzero. apply Qeq_bool_iff in Hzero. congruence.
  - unfold calculate_breath_rate_bpm in Hr. rewrite Hd, Hc in Hr. cbn [rbind snd] in Hr.
    destruct (Qeq_bool d 0); [discriminate Hr|]. injection Hr as <-. reflexivity.
  - cbn [add_artifact artifacts]. rewrite Hart. reflexivity.
Qed.

Lemma get_metrics_record_is_consistent_witness :
  exists m w',
    get_metrics (sampled_every 0.2 64, flow_two_breaths) "p.txt" empty_world = (Ok m, w')
    /\ List.length (breath_times m) = breaths m
    /\ breaths m = 2%nat
    /\ artifacts w' = [("p.json", m)].
Proof.
  destruct (get_metrics (sampled_every 0.2 64, flow_two_breaths) "p.txt" empty_world)
    as [[m|e] w'] eqn:H; [|vm_compute in H; discriminate H].
  exists m, w'. split; [reflexivity|].
  destruct (get_metrics_record_is_consistent
              (map Finite (sampled_every 0.2 64)) _ _ _ _ _ _
              (finite_times_map (sampled_every 0.2 64)) H) as (Hlen & _ & _ & _ & Hart).
  split; [exact Hlen|]. split; [|exact Hart].
  vm_compute in H. injection H as <- _. reflexivity.
Defined.

(** X11: when [get_metrics] raises, no record is written: the artifacts are
    as before.  For finite sample times it raises [IndexError] for a
    recording without samples and [ZeroDivisionError] for one whose last
    time equals the first, as for a single sample. *)
Theorem get_metrics_failure_writes_nothing
        (times : list pyfloat) (time flow : list Q) (input_file : string) (w : world) :
  finite_times times = Some time ->
  (forall e w', get_metrics (time, flow) input_file w = (Raise e, w') ->
                artifacts w' = artifacts w)
  /\ (time = [] -> fst (get_metrics (time, flow) input_file w) = Raise IndexError)
  /\ (forall first rest,
         time = first :: rest -> last time 0 == first ->
         fst (get_metrics (time, flow) input_file w) = Raise ZeroDivisionError).
Proof.
  intros _. split; [|split].
  - intros e w'. rewrite get_metrics_build_then_dump.
    pose proof (build_metrics_same_files (time, flow) w) as (_ & _ & Hsame).
    destruct (build_metrics (time, flow) w) as [[m1|e1] w1]; cbn [snd] in Hsame.
    + unfold dump_json. destruct (existsb _ (unwritable w1)); [|discriminate].
      intros H. injection H as _ <-. exact Hsame.
    + intros H. injection H as _ <-. exact Hsame.
  - intros ->. reflexivity.
  - intros first rest Htime Hlast.
    destruct (count_breaths_default_returns flow) as [valid Hcount].
    unfold get_metrics, mbind, lift, calculate_breath_rate_bpm, calculate_duration.
    cbn [fst snd]. rewrite Htime, Hcount. cbn [rbind snd]. rewrite <- Htime.
    replace (Qeq_bool (last time 0 - first) 0) with true; [reflexivity|].
    symmetry. apply Qeq_bool_iff. rewrite Hlast. ring.
Qed.

Lemma get_metrics_failure_writes_nothing_witness :
  fst (get_metrics ([5], [0]) "p.txt" empty_world) = Raise ZeroDivisionError.
Proof.
  apply (proj2 (proj2 (get_metrics_failure_writes_nothing
                         [Finite 5] [5] [0] "p.txt" empty_world eq_refl)) 5 []);
    reflexivity.
Defined.

(** ** Reading back a comma-separated text *)

Lemma split_free (sep : ascii) (s : string) : free_of sep s = true -> split sep s = [s].
Proof.
  induction s as [|c r IH]; intros Hfree; [reflexivity|].
  cbn [free_of] in Hfree. apply andb_prop in Hfree as [Hc Hr].
  apply negb_true_iff in Hc. cbn [split]. rewrite Hc, (IH Hr). reflexivity.
Qed.

Lemma free_of_app (c : ascii) (a b : string) :
  free_of c (a ++ b) = free_of c a && free_of c b.
Proof.
  induction a as [|c' a IH]; [reflexivity|].
  cbn [String.append free_of]. rewrite IH. apply andb_assoc.
Qed.

Lemma split_join (row : list string) :
  row <> [] -> Forall (fun field => free_of comma field = true) row ->
  split comma (join "," row) = row.
Proof.
  induction row as [|s row IH]; intros Hne Hfree; [contradiction|].
  inversion Hfree as [|? ? Hs Hrow]; subst.
  destruct row as [|s' row'].
  - cbn [join]. apply split_free. exact Hs.
  - change (join "," (s :: s' :: row')) with (s ++ String comma (join "," (s' :: row')))%string.
    rewrite split_app_sep, (split_free comma s Hs), (IH ltac:(discriminate) Hrow).
    reflexivity.
Qed.

Lemma join_free_of_newline (row : list string) :
  Forall (fun field => free_of newline field = true) row ->
  free_of newline (join "," row) = true.
Proof.
  induction row as [|s row IH]; intros Hfree; [reflexivity|].
  inversion Hfree as [|? ? Hs Hrow]; subst.
  destruct row as [|s' row']; [exact Hs|].
  change (join "," (s :: s' :: row')) with (s ++ String comma (join "," (s' :: row')))%string.
  rewrite free_of_app, Hs. cbn [free_of andb]. rewrite (IH Hrow). reflexivity.
Qed.

Lemma lstrip_nl_free (s : string) (rest : string) :
  free_of newline s = true -> s <> EmptyString -> lstrip_nl (s ++ rest) = (s ++ rest)%string.
Proof.
  destruct s as [|c r]; intros Hfree Hne; [contradiction|].
  cbn [free_of] in Hfree. apply andb_prop in Hfree as [Hc _]. apply negb_true_iff in Hc.
  cbn [String.append lstrip_nl]. rewrite Hc. reflexivity.
Qed.

Lemma rstrip_nl_line (s : string) :
  free_of newline s = true -> rstrip_nl (s ++ String newline EmptyString) = s.
Proof.
  induction s as [|c r IH]; intros Hfree; [reflexivity|].
  cbn [free_of] in Hfree. apply andb_prop in Hfree as [Hc Hr]. apply negb_true_iff in Hc.
  cbn [String.append rstrip_nl]. rewrite (IH Hr).
  destruct r; [rewrite Hc|]; reflexivity.
Qed.

Lemma strip_nl_line (s : string) :
  free_of newline s = true -> strip_nl (s ++ String newline EmptyString) = s.
Proof.
  intros Hfree. unfold strip_nl. destruct s as [|c r] eqn:E; [reflexivity|].
  rewrite <- E in *. rewrite lstrip_nl_free; [apply rstrip_nl_line; exact Hfree | exact Hfree|].
  rewrite E. discriminate.
Qed.

Lemma readlines_from_line (l : string) :
  forall (cur : string -> string) (rest : string),
    free_of newline l = true ->
    readlines_from cur (l ++ String newline rest)
    = cur (l ++ String newline EmptyString)%string :: readlines rest.
Proof.
  induction l as [|c r IH]; intros cur rest Hfree.
  - cbn [String.append readlines_from]. rewrite Ascii.eqb_refl. reflexivity.
  - cbn [free_of] in Hfree. apply andb_prop in Hfree as [Hc Hr]. apply negb_true_iff in Hc.
    cbn [String.append readlines_from]. rewrite Hc.
    rewrite (IH (fun x => cur (String c x)) rest Hr). reflexivity.
Qed.

Lemma readlines_unlines (ls : list string) :
  Forall (fun l => free_of newline l = true) ls ->
  readlines (unlines ls) = map (fun l => (l ++ String newline EmptyString)%string) ls.
Proof.
  induction 1 as [|l ls Hl _ IH]; [reflexivity|].
  cbn [unlines map]. unfold readlines at 1. rewrite (readlines_from_line l _ _ Hl), IH.
  reflexivity.
Qed.

Lemma plain_row_tokens (row : list string) :
  plain_row row ->
  free_of newline (join "," row) = true
  /\ split comma (strip_nl (join "," row ++ String newline EmptyString)) = row.
Proof.
  intros [Hne Hplain].
  assert (Hcomma : Forall (fun field => free_of comma field = true) row).
  { refine (Forall_impl _ _ Hplain). intros f Hf. apply andb_prop in Hf. apply Hf. }
  assert (Hnl : Forall (fun field => free_of newline field = true) row).
  { refine (Forall_impl _ _ Hplain). intros f Hf. apply andb_prop in Hf. apply Hf. }
  pose proof (join_free_of_newline row Hnl) as Hjoin.
  split; [exact Hjoin|]. rewrite (strip_nl_line _ Hjoin). apply split_join; assumption.
Qed.

(** X12: the loader reads back a comma-separated text: for a header and
    rows of at least one field each, the fields free of commas and newlines,
    written one per line with commas between the fields, [load_patient]
    returns the header followed by the rows that pass the validation. *)
Theorem load_patient_reads_csv_text
        (w : world) (path : string) (header : list string) (rows : list (list string)) :
  plain_row header ->
  Forall plain_row rows ->
  lookup path (files w) = Some (csv_text header rows) ->
  fst (load_patient path w) = Ok (header :: filter accepted rows).
Proof.
  intros Hheader Hrows Hfile.
  destruct (load_patient_result w path _ Hfile) as (w' & Hload & _). rewrite Hload. cbn [fst].
  assert (Hlines : readlines (csv_text header rows)
                   = map (fun l => (l ++ String newline EmptyString)%string)
                         (map (join ",") (header :: rows))).
  { apply readlines_unlines. apply Forall_map. constructor.
    - apply plain_row_tokens. exact Hheader.
    - refine (Forall_impl _ _ Hrows). intros row Hrow. apply plain_row_tokens. exact Hrow. }
  assert (Hrecs : map (fun line => split comma (strip_nl line))
                      (map (fun l => (l ++ String newline EmptyString)%string)
                           (map (join ",") rows)) = rows).
  { clear - Hrows. induction Hrows as [|row rows Hrow _ IH]; [reflexivity|].
    cbn [map]. rewrite (proj2 (plain_row_tokens row Hrow)), IH. reflexivity. }
  unfold header_of, records_of. rewrite Hlines. cbn [map hd tl].
  rewrite (proj2 (plain_row_tokens header Hheader)), Hrecs. reflexivity.
Qed.

Lemma load_patient_reads_csv_text_witness :
  fst (load_patient "p.txt"
         (world_with_file "p.txt"
            (csv_text ["t"; "p2"; "pi"; "pe"; "a"; "b"; "c"]
                      [["0"; "1638"; "1700"; "1638"; "0"; "0"; "0"]; ["1"; "x"]])))
  = Ok (["t"; "p2"; "pi"; "pe"; "a"; "b"; "c"]
        :: filter accepted [["0"; "1638"; "1700"; "1638"; "0"; "0"; "0"]; ["1"; "x"]]).
Proof.
  apply load_patient_reads_csv_text.
  - split; [discriminate | repeat constructor].
  - repeat constructor; discriminate.
  - reflexivity.
Defined.

(** ** The validation of uploads *)

Lemma validate_cpap_data_range (z : Z) :
  validate_cpap_data (JInt z) = Valid <-> (4 <= z <= 25)%Z.
Proof.
  unfold validate_cpap_data. cbn [isinstance negb int_value].
  destruct ((4 <=? z)%Z && (z <=? 25)%Z) eqn:E; cbn [negb].
  - apply andb_prop in E as [E1 E2]. apply Z.leb_le in E1, E2.
    split; [intros _; lia | reflexivity].
  - split; [discriminate|]. intros Hz. exfalso.
    apply Bool.andb_false_iff in E as [E|E]; apply Z.leb_gt in E; lia.
Qed.

(** X13: [validate_cpap_data] accepts exactly the integers from 4 to 25;
    a value that is not of class [int] gets the message about integers,
    every other rejected value, the booleans among them, the message about
    the range. *)
Theorem validate_cpap_data_accepts_4_to_25 (cpap_value : json) :
  (validate_cpap_data cpap_value = Valid
   <-> exists z, cpap_value = JInt z /\ (4 <= z <= 25)%Z)
  /\ (isinstance cpap_value Py_int = false ->
      validate_cpap_data cpap_value = Invalid "The CPAP entry must be an integer.")
  /\ (isinstance cpap_value Py_int = true ->
      ~ (exists z, cpap_value = JInt z /\ (4 <= z <= 25)%Z) ->
      validate_cpap_data cpap_value = Invalid range_message).
Proof.
  unfold validate_cpap_data. split; [|split].
  - split.
    + destruct cpap_value as [|b|z|f|s|l|d]; cbn [isinstance negb int_value]; try discriminate.
      * destruct b; cbn; discriminate.
      * destruct ((4 <=? z)%Z && (z <=? 25)%Z) eqn:E; cbn [negb]; [|discriminate].
        intros _. exists z. split; [reflexivity|].
        apply andb_prop in E as [E1 E2]. apply Z.leb_le in E1, E2. lia.
    + intros (z & -> & Hz). cbn [isinstance negb int_value].
      replace ((4 <=? z)%Z && (z <=? 25)%Z) with true; [reflexivity|].
      symmetry. apply andb_true_intro. split; apply Z.leb_le; lia.
  - intros ->. reflexivity.
  - intros -> Hout. cbn [negb].
    destruct ((4 <=? int_value cpap_value)%Z && (int_value cpap_value <=? 25)%Z) eqn:E;
      [|reflexivity].
    exfalso. apply andb_prop in E as [E1 E2]. apply Z.leb_le in E1, E2.
    destruct cpap_value as [|b|z|f|s|l|d]; cbn [int_value] in E1, E2; try lia.
    + destruct b; lia.
    + apply Hout. exists z. split; [reflexivity | lia].
Qed.

Lemma validate_cpap_data_accepts_4_to_25_witness :
  validate_cpap_data (JInt 12) = Valid
  /\ validate_cpap_data (JStr "12") = Invalid "The CPAP entry must be an integer."
  /\ validate_cpap_data (JBool true) = Invalid range_message.
Proof.
  split; [|split].
  - apply (proj1 (validate_cpap_data_accepts_4_to_25 (JInt 12))).
    exists 12%Z. split; [reflexivity | lia].
  - apply (proj1 (proj2 (validate_cpap_data_accepts_4_to_25 (JStr "12")))). reflexivity.
  - apply (proj2 (proj2 (validate_cpap_data_accepts_4_to_25 (JBool true)))); [reflexivity|].
    intros (z & H & _). discriminate H.
Defined.

Lemma check_required_valid (keys : list string) (entry : dict) :
  check_required keys entry = Valid <-> Forall (fun key => has_key entry key = true) keys.
Proof.
  induction keys as [|key keys IH]; cbn [check_required].
  - split; [constructor | reflexivity].
  - destruct (has_key entry key) eqn:E; cbn [negb].
    + rewrite IH. split; [intros H; constructor; assumption|].
      intros H. inversion H; assumption.
    + split; [discriminate|]. intros H. inversion H; congruence.
Qed.

Lemma check_entries_valid (entries : list json) :
  check_entries entries = Valid
  <-> Forall (fun entry => exists e, entry = JDict e /\ has_required_keys e) entries.
Proof.
  induction entries as [|entry entries IH]; cbn [check_entries].
  - split; [constructor | reflexivity].
  - destruct entry as [| | | | | |e];
      try (split; [discriminate|]; intros H; inversion H as [|? ? (e' & He' & _) _];
           discriminate He').
    destruct (check_required required_data_keys e) eqn:E.
    + rewrite IH. apply check_required_valid in E. split.
      * intros H. constructor; [exists e; split; [reflexivity | exact E] | exact H].
      * intros H. inversion H; assumption.
    + split; [discriminate|]. intros H. inversion H as [|? ? (e' & He' & Hkeys) _].
      injection He' as <-. apply check_required_valid in Hkeys. congruence.
Qed.

(** X14: [validate_input_data] returns [True] exactly for the uploads with
    an [mrn] and a [room] of class [int], a [name] that, when present, is a
    string, and a [data] that, when present, is a list of dictionaries
    having the four keys of a CPAP entry; the values under these keys and
    all other keys are not looked at. *)
Theorem validate_input_data_accepts_well_formed (in_data : dict) :
  validate_input_data in_data = Valid <-> well_formed_upload in_data.
Proof.
  unfold validate_input_data, well_formed_upload. cbn [check_expected].
  destruct (lookup "mrn" in_data) as [mrn|] eqn:Hmrn.
  2:{ split; [discriminate|]. intros ((m & Hm & _) & _). discriminate Hm. }
  destruct (isinstance mrn Py_int) eqn:Hmi; cbn [negb].
  2:{ split; [discriminate|]. intros ((m & Hm & Hi) & _). injection Hm as <-. congruence. }
  destruct (lookup "room" in_data) as [room|] eqn:Hroom.
  2:{ split; [discriminate|]. intros (_ & (r & Hr & _) & _). discriminate Hr. }
  destruct (isinstance room Py_int) eqn:Hri; cbn [negb].
  2:{ split; [discriminate|]. intros (_ & (r & Hr & Hi) & _). injection Hr as <-. congruence. }
  assert (Hhead : (exists m, Some mrn = Some m /\ isinstance m Py_int = true)
                  /\ (exists r, Some room = Some r /\ isinstance r Py_int = true)).
  { split; eexists; split; [reflexivity | assumption | reflexivity | assumption]. }
  destruct (lookup "name" in_data) as [name|] eqn:Hname.
  - destruct name as [| | | |s| |]; cbn [isinstance negb];
      try (split; [discriminate|]; intros (_ & _ & Hn & _);
           destruct (Hn _ eq_refl) as [s Hs]; discriminate Hs).
    destruct (lookup "data" in_data) as [data|] eqn:Hdata.
    + destruct data as [| | | | |entries|];
        try (split; [discriminate|]; intros (_ & _ & _ & Hd);
             destruct (Hd _ eq_refl) as (es & Hes & _); discriminate Hes).
      destruct entries as [|entry entries'].
      * split; [|reflexivity]. intros _. destruct Hhead as [H1 H2].
        split; [exact H1|]. split; [exact H2|]. split.
        -- intros n Hn. injection Hn as <-. eexists. reflexivity.
        -- intros d Hd. injection Hd as <-. exists []. split; [reflexivity | constructor].
      * rewrite check_entries_valid. split.
        -- intros Hall. destruct Hhead as [H1 H2].
           split; [exact H1|]. split; [exact H2|]. split.
           ++ intros n Hn. injection Hn as <-. eexists. reflexivity.
           ++ intros d Hd. injection Hd as <-. eexists. split; [reflexivity | exact Hall].
        -- intros (_ & _ & _ & Hd). destruct (Hd _ eq_refl) as (es & Hes & Hall).
           injection Hes as <-. exact Hall.
    + split; [|reflexivity]. intros _. destruct Hhead as [H1 H2].
      split; [exact H1|]. split; [exact H2|]. split.
      * intros n Hn. injection Hn as <-. eexists. reflexivity.
      * intros d Hd. discriminate Hd.
  - destruct (lookup "data" in_data) as [data|] eqn:Hdata.
    + destruct data as [| | | | |entries|];
        try (split; [discriminate|]; intros (_ & _ & _ & Hd);
             destruct (Hd _ eq_refl) as (es & Hes & _); discriminate Hes).
      destruct entries as [|entry entries'].
      * split; [|reflexivity]. intros _. destruct Hhead as [H1 H2].
        split; [exact H1|]. split; [exact H2|]. split.
        -- intros n Hn. discriminate Hn.
        -- intros d Hd. injection Hd as <-. exists []. split; [reflexivity | constructor].
      * rewrite check_entries_valid. split.
        -- intros Hall. destruct Hhead as [H1 H2].
           split; [exact H1|]. split; [exact H2|]. split.
           ++ intros n Hn. discriminate Hn.
           ++ intros d Hd. injection Hd as <-. eexists. split; [reflexivity | exact Hall].
        -- intros (_ & _ & _ & Hd). destruct (Hd _ eq_refl) as (es & Hes & Hall).
           injection Hes as <-. exact Hall.
    + split; [|reflexivity]. intros _. destruct Hhead as [H1 H2].
      split; [exact H1|]. split; [exact H2|]. split.
      * intros n Hn. discriminate Hn.
      * intros d Hd. discriminate Hd.
Qed.

Lemma validate_input_data_accepts_well_formed_witness :
  validate_input_data (foreign_upload (JStr "high")) = Valid.
Proof.
  apply (proj2 (validate_input_data_accepts_well_formed (foreign_upload (JStr "high")))).
  split; [exists (JInt 7); split; reflexivity|].
  split; [exists (JInt 3); split; reflexivity|].
  split; [intros name H; discriminate H|].
  intros data H. injection H as <-. eexists. split; [reflexivity|].
  constructor; [|constructor]. eexists. split; [reflexivity|].
  unfold has_required_keys, required_data_keys.
  constructor; [reflexivity|]. constructor; [reflexivity|].
  constructor; [reflexivity|]. constructor; [reflexivity|]. constructor.
Defined.

(** ** The record the station uploads *)

Lemma data_entry_inl (read : string -> file_read) (cpap_value BR apnea_count : string)
    (entry : dict) :
  data_entry read cpap_value BR apnea_count = inl entry ->
  exists p rate apnea b64,
    py_int cpap_value = Ok p /\ (4 <= p <= 25)%Z /\ py_float BR = Ok rate
    /\ py_int apnea_count = Ok apnea /\ read "flow_plot.jpg" = Encoded b64
    /\ entry = uploaded_entry p rate apnea b64.
Proof.
  unfold data_entry. intros H.
  destruct (py_int cpap_value) as [p|[]] eqn:Hp; try discriminate H.
  destruct (validate_cpap_data (JInt p)) eqn:Hv; [|discriminate H].
  destruct (py_float BR) as [rate|[]] eqn:Hrate; try discriminate H.
  destruct (py_int apnea_count) as [apnea|[]] eqn:Hap; try discriminate H.
  destruct (read "flow_plot.jpg") as [b64|] eqn:Hread; [|discriminate H].
  injection H as <-. exists p, rate, apnea, b64.
  apply (proj1 (validate_cpap_data_range p)) in Hv.
  split; [reflexivity|]. split; [exact Hv|]. split; [reflexivity|].
  split; [reflexivity|]. split; reflexivity.
Qed.

(** The record without results, and the whole of a returned record. *)
Lemma generate_json_file_ok (read : string -> file_read)
    (mrn_value room_value name_value cpap_value BR apnea_count : string) (out_json : dict) :
  snd (generate_json_file read mrn_value room_value name_value cpap_value BR apnea_count)
  = Ok out_json ->
  exists mrn room,
    py_int mrn_value = Ok mrn /\ py_int room_value = Ok room
    /\ ((cpap_value = EmptyString /\ (BR = no_data \/ apnea_count = no_data)
         /\ out_json = patient_part mrn room name_value)
        \/ (cpap_value <> EmptyString /\ BR <> no_data /\ apnea_count <> no_data
            /\ exists p rate apnea b64,
                 py_int cpap_value = Ok p /\ (4 <= p <= 25)%Z /\ py_float BR = Ok rate
                 /\ py_int apnea_count = Ok apnea /\ read "flow_plot.jpg" = Encoded b64
                 /\ out_json
                    = patient_part mrn room name_value
                      ++ [("data", JList [JDict (uploaded_entry p rate apnea b64)])])).
Proof.
  unfold generate_json_file.
  destruct ((mrn_value =? EmptyString)%string || (room_value =? EmptyString)%string);
    [discriminate|].
  destruct (py_int mrn_value) as [mrn|e1] eqn:Hm; [|discriminate].
  destruct (py_int room_value) as [room|e2] eqn:Hr; [|discriminate].
  cbv zeta. intros H. exists mrn, room. split; [reflexivity|]. split; [reflexivity|].
  assert (Hbase : (if negb (name_value =? EmptyString)%string
                   then dict_set [("mrn", JInt mrn); ("room", JInt room)] "name" (JStr name_value)
                   else [("mrn", JInt mrn); ("room", JInt room)])
                  = patient_part mrn room name_value).
  { unfold patient_part. destruct (name_value =? EmptyString)%string; reflexivity. }
  rewrite Hbase in H. clear Hbase.
  destruct (cpap_value =? EmptyString)%string eqn:Hc;
    destruct (BR =? no_data)%string eqn:Hb;
    destruct (apnea_count =? no_data)%string eqn:Ha;
    cbn [negb andb orb snd] in H; try discriminate H.
  - left. injection H as <-. apply String.eqb_eq in Hc, Hb.
    split; [exact Hc|]. split; [left; exact Hb | reflexivity].
  - left. injection H as <-. apply String.eqb_eq in Hc, Hb.
    split; [exact Hc|]. split; [left; exact Hb | reflexivity].
  - left. injection H as <-. apply String.eqb_eq in Hc, Ha.
    split; [exact Hc|]. split; [right; exact Ha | reflexivity].
  - right. destruct (data_entry read cpap_value BR apnea_count) as [entry|str_e] eqn:He;
      cbn [snd] in H; [|discriminate H].
    injection H as <-.
    apply data_entry_inl in He as (p & rate & apnea & b64 & Hp & Hrange & Hrate & Hap & Hread & ->).
    apply String.eqb_neq in Hc, Hb, Ha.
    split; [exact Hc|]. split; [exact Hb|]. split; [exact Ha|].
    exists p, rate, apnea, b64.
    split; [exact Hp|]. split; [exact Hrange|]. split; [exact Hrate|].
    split; [exact Hap|]. split; [exact Hread|].
    unfold patient_part. destruct (name_value =? EmptyString)%string; reflexivity.
Qed.

(** X15: a record [generate_json_file] returns holds the MRN and the room
    as the integers the two fields read as, the name exactly when one was
    typed, never a top-level CPAP pressure, and the calculated data all or
    nothing: without a pressure and without results there is no [data];
    otherwise [data] is one entry with the pressure, an integer from 4 to
    25, the breathing rate, the apnea count and the encoded flow plot. *)
Theorem generate_json_file_all_or_nothing (read : string -> file_read)
    (mrn_value room_value name_value cpap_value BR apnea_count : string) (out_json : dict) :
  snd (generate_json_file read mrn_value room_value name_value cpap_value BR apnea_count)
  = Ok out_json ->
  (exists mrn room,
      py_int mrn_value = Ok mrn /\ py_int room_value = Ok room
      /\ lookup "mrn" out_json = Some (JInt mrn)
      /\ lookup "room" out_json = Some (JInt room))
  /\ lookup "name" out_json
     = (if (name_value =? EmptyString)%string then None else Some (JStr name_value))
  /\ has_key out_json "cpap_pressure" = false
  /\ ((cpap_value = EmptyString /\ (BR = no_data \/ apnea_count = no_data)
       /\ lookup "data" out_json = None)
      \/ (cpap_value <> EmptyString /\ BR <> no_data /\ apnea_count <> no_data
          /\ exists p rate apnea b64,
               py_int cpap_value = Ok p /\ (4 <= p <= 25)%Z /\ py_float BR = Ok rate
               /\ py_int apnea_count = Ok apnea /\ read "flow_plot.jpg" = Encoded b64
               /\ lookup "data" out_json
                  = Some (JList [JDict (uploaded_entry p rate apnea b64)]))).
Proof.
  intros H.
  apply generate_json_file_ok in H
    as (mrn & room & Hm & Hr & [(Hc & Hd & ->)
                               |(Hc & Hb & Ha & p & rate & apnea & b64 & Hp & Hrange & Hrate
                                 & Hap & Hread & ->)]);
    unfold patient_part.
  - split; [exists mrn, room; split; [exact Hm|]; split; [exact Hr|];
            destruct (name_value =? EmptyString)%string; split; reflexivity|].
    split; [destruct (name_value =? EmptyString)%string; reflexivity|].
    split; [destruct (name_value =? EmptyString)%string; reflexivity|].
    left. split; [exact Hc|]. split; [exact Hd|].
    destruct (name_value =? EmptyString)%string; reflexivity.
  - split; [exists mrn, room; split; [exact Hm|]; split; [exact Hr|];
            destruct (name_value =? EmptyString)%string; split; reflexivity|].
    split; [destruct (name_value =? EmptyString)%string; reflexivity|].
    split; [destruct (name_value =? EmptyString)%string; reflexivity|].
    right. split; [exact Hc|]. split; [exact Hb|]. split; [exact Ha|].
    exists p, rate, apnea, b64.
    split; [exact Hp|]. split; [exact Hrange|]. split; [exact Hrate|].
    split; [exact Hap|]. split; [exact Hread|].
    destruct (name_value =? EmptyString)%string; reflexivity.
Qed.

Lemma generate_json_file_all_or_nothing_witness :
  exists out_json,
    snd (generate_json_file (reads_as "QUJD") "7" "3" "Ada" "12" "15.5" "2") = Ok out_json
    /\ lookup "name" out_json = Some (JStr "Ada")
    /\ has_key out_json "cpap_pressure" = false.
Proof.
  eexists. split; [vm_compute; reflexivity|].
  match goal with
  | |- lookup _ ?d = _ /\ _ =>
      destruct (generate_json_file_all_or_nothing
                  (reads_as "QUJD") "7" "3" "Ada" "12" "15.5" "2" d)
        as (_ & Hname & Hkey & _); [vm_compute; reflexivity|]
  end.
  split; [exact Hname | exact Hkey].
Defined.

(** X16: [generate_json_file] raises nothing but [ValueError]; a typed
    pressure outside 4..25 and a flow plot that cannot be read are both
    reported as an invalid CPAP pressure, the second with the text of the
    read failure although the pressure is a valid one. *)
Theorem generate_json_file_wraps_failures (read : string -> file_read)
    (mrn_value room_value name_value cpap_value BR apnea_count : string) :
  let outcome :=
    snd (generate_json_file read mrn_value room_value name_value cpap_value BR apnea_count) in
  (forall e, outcome = Raise e -> exists msg, e = ValueError msg)
  /\ (forall mrn room p,
        py_int mrn_value = Ok mrn -> py_int room_value = Ok room ->
        py_int cpap_value = Ok p -> BR <> no_data -> apnea_count <> no_data ->
        (~ (4 <= p <= 25)%Z ->
         outcome = Raise (ValueError ("Invalid CPAP pressure: " ++ range_message)))
        /\ (forall rate apnea str_e,
              (4 <= p <= 25)%Z -> py_float BR = Ok rate -> py_int apnea_count = Ok apnea ->
              read "flow_plot.jpg" = Read_error str_e ->
              outcome = Raise (ValueError ("Invalid CPAP pressure: " ++ str_e)))).
Proof.
  cbv zeta. split.
  - intros e. unfold generate_json_file.
    destruct ((mrn_value =? EmptyString)%string || (room_value =? EmptyString)%string);
      [cbn [snd]; intros H; injection H as <-; eexists; reflexivity|].
    destruct (py_int mrn_value) as [mrn|e1];
      [|cbn [snd]; intros H; injection H as <-; eexists; reflexivity].
    destruct (py_int room_value) as [room|e2];
      [|cbn [snd]; intros H; injection H as <-; eexists; reflexivity].
    cbv zeta.
    destruct (negb (cpap_value =? EmptyString)%string);
      destruct (negb (BR =? no_data)%string && negb (apnea_count =? no_data)%string);
      cbn [negb andb snd]; try discriminate;
      try (intros H; injection H as <-; eexists; reflexivity).
    destruct (data_entry read cpap_value BR apnea_count); cbn [snd]; [discriminate|].
    intros H; injection H as <-; eexists; reflexivity.
  - intros mrn room p Hm Hr Hp Hb Ha.
    assert (Hne : forall s z, py_int s = Ok z -> (s =? EmptyString)%string = false).
    { intros s z Hs. destruct s; [discriminate Hs | reflexivity]. }
    assert (Hhead : forall str_e,
               data_entry read cpap_value BR apnea_count = inr str_e ->
               snd (generate_json_file read mrn_value room_value name_value cpap_value BR
                      apnea_count)
               = Raise (ValueError ("Invalid CPAP pressure: " ++ str_e))).
    { intros str_e He. unfold generate_json_file.
      rewrite (Hne _ _ Hm), (Hne _ _ Hr), Hm, Hr, (Hne _ _ Hp). cbv zeta.
      apply String.eqb_neq in Hb, Ha. rewrite Hb, Ha. cbn [negb andb orb].
      rewrite He. reflexivity. }
    split.
    + intros Hout. apply Hhead. unfold data_entry. rewrite Hp.
      destruct (validate_cpap_data (JInt p)) eqn:Hv.
      * apply (proj1 (validate_cpap_data_range p)) in Hv. contradiction.
      * revert Hv. unfold validate_cpap_data. cbn [isinstance negb int_value].
        destruct ((4 <=? p)%Z && (p <=? 25)%Z); cbn [negb]; [discriminate|].
        intros Hv. injection Hv as <-. reflexivity.
    + intros rate apnea str_e Hin Hrate Hap Hread. apply Hhead. unfold data_entry.
      rewrite Hp, (proj2 (validate_cpap_data_range p) Hin), Hrate, Hap, Hread. reflexivity.
Qed.

Lemma generate_json_file_wraps_failures_witness :
  snd (generate_json_file (read_fails "No such file") "7" "3" "Ada" "12" "15.5" "2")
  = Raise (ValueError "Invalid CPAP pressure: No such file")
  /\ snd (generate_json_file (reads_as "QUJD") "7" "3" "Ada" "30" "15.5" "2")
     = Raise (ValueError ("Invalid CPAP pressure: " ++ range_message)).
Proof.
  split.
  - destruct (generate_json_file_wraps_failures
                (read_fails "No such file") "7" "3" "Ada" "12" "15.5" "2") as [_ H].
    destruct (H 7%Z 3%Z 12%Z) as [_ Hread];
      [vm_compute; reflexivity | vm_compute; reflexivity | vm_compute; reflexivity
      | discriminate | discriminate |].
    destruct (py_float "15.5") as [rate|e] eqn:Hrate; [|vm_compute in Hrate; discriminate Hrate].
    apply (Hread rate 2%Z "No such file"); [lia | reflexivity | vm_compute; reflexivity | reflexivity].
  - destruct (generate_json_file_wraps_failures
                (reads_as "QUJD") "7" "3" "Ada" "30" "15.5" "2") as [_ H].
    destruct (H 7%Z 3%Z 30%Z) as [Hout _];
      [vm_compute; reflexivity | vm_compute; reflexivity | vm_compute; reflexivity
      | discriminate | discriminate |].
    apply Hout. lia.
Defined.

(** ** The station and the server together *)

Lemma validated_entries (in_data : dict) (entries : list json) :
  validate_input_data in_data = Valid ->
  lookup "data" in_data = Some (JList entries) ->
  Forall (fun entry => exists e, entry = JDict e /\ has_required_keys e) entries.
Proof.
  unfold validate_input_data. intros H Hdata.
  destruct (check_expected [("mrn", Py_int); ("room", Py_int)] in_data); [|discriminate H].
  destruct (match lookup "name" in_data with
            | Some name => negb (isinstance name Py_str)
            | None => false
            end); [discriminate H|].
  rewrite Hdata in H. destruct entries as [|entry entries']; [constructor|].
  apply check_entries_valid. exact H.
Qed.

Lemma create_cpap_entry_with_keys (now : Z) (e : dict) :
  has_required_keys e ->
  exists pressure rate apnea image,
    lookup "cpap_pressure" e = Some pressure
    /\ lookup "breathing_rate" e = Some rate
    /\ lookup "apnea_count" e = Some apnea
    /\ lookup "flow_image_base64" e = Some image
    /\ Server.create_cpap_entry now e
       = match validate_cpap_data pressure with
         | Valid => inl {| Server.cpap_pressure := pressure; Server.breathing_rate := rate;
                           Server.apnea_count := apnea; Server.flow_image_base64 := image;
                           Server.timestamp := now |}
         | Invalid cpap_check => inr (Server.ValueError cpap_check)
         end.
Proof.
  unfold has_required_keys, required_data_keys, has_key. intros H.
  inversion H as [|? ? H1 Hk1]; subst. inversion Hk1 as [|? ? H2 Hk2]; subst.
  inversion Hk2 as [|? ? H3 Hk3]; subst. inversion Hk3 as [|? ? H4 _]; subst.
  destruct (lookup "cpap_pressure" e) as [pressure|] eqn:E1; [|discriminate H1].
  destruct (lookup "breathing_rate" e) as [rate|] eqn:E2; [|discriminate H2].
  destruct (lookup "apnea_count" e) as [apnea|] eqn:E3; [|discriminate H3].
  destruct (lookup "flow_image_base64" e) as [image|] eqn:E4; [|discriminate H4].
  exists pressure, rate, apnea, image.
  split; [reflexivity|]. split; [reflexivity|]. split; [reflexivity|]. split; [reflexivity|].
  unfold Server.create_cpap_entry, Server.getitem. rewrite E1, E2, E3, E4. reflexivity.
Qed.

(** X17: whatever record [generate_json_file] returns, the server takes:
    [validate_input_data] accepts it, and [create_cpap_entry] builds an
    entry from each element of its [data], with the uploaded pressure and
    the time of the call. *)
Theorem generated_upload_passes_server_checks (read : string -> file_read)
    (mrn_value room_value name_value cpap_value BR apnea_count : string) (out_json : dict)
    (now : Z) :
  snd (generate_json_file read mrn_value room_value name_value cpap_value BR apnea_count)
  = Ok out_json ->
  validate_input_data out_json = Valid
  /\ forall entries,
       lookup "data" out_json = Some (JList entries) ->
       Forall (fun entry =>
                 exists e c,
                   entry = JDict e
                   /\ Server.create_cpap_entry now e = inl c
                   /\ lookup "cpap_pressure" e = Some (Server.cpap_pressure c)
                   /\ Server.timestamp c = now) entries.
Proof.
  intros H.
  apply generate_json_file_ok in H
    as (mrn & room & Hm & Hr & [(Hc & Hd & ->)
                               |(Hc & Hb & Ha & p & rate & apnea & b64 & Hp & Hrange & Hrate
                                 & Hap & Hread & ->)]);
    unfold patient_part.
  - split; [destruct (name_value =? EmptyString)%string; reflexivity|].
    intros entries. destruct (name_value =? EmptyString)%string; discriminate.
  - split; [destruct (name_value =? EmptyString)%string; reflexivity|].
    intros entries Hentries.
    assert (Hone : entries = [JDict (uploaded_entry p rate apnea b64)]).
    { destruct (name_value =? EmptyString)%string;
        cbn in Hentries; injection Hentries as <-; reflexivity. }
    subst entries. constructor; [|constructor].
    exists (uploaded_entry p rate apnea b64).
    exists {| Server.cpap_pressure := JInt p; Server.breathing_rate := JFloat rate;
              Server.apnea_count := JInt apnea; Server.flow_image_base64 := JStr b64;
              Server.timestamp := now |}.
    split; [reflexivity|]. split; [|split; reflexivity].
    pose proof (proj2 (validate_cpap_data_range p) Hrange) as Hv.
    unfold Server.create_cpap_entry, uploaded_entry, Server.getitem.
    change (lookup "cpap_pressure" _) with (Some (JInt p)).
    cbv beta iota. rewrite Hv. reflexivity.
Qed.

Lemma generated_upload_passes_server_checks_witness :
  exists out_json,
    snd (generate_json_file (reads_as "QUJD") "7" "3" "Ada" "12" "15.5" "2") = Ok out_json
    /\ validate_input_data out_json = Valid.
Proof.
  eexists. split; [vm_compute; reflexivity|].
  match goal with
  | |- validate_input_data ?d = _ =>
      destruct (generated_upload_passes_server_checks
                  (reads_as "QUJD") "7" "3" "Ada" "12" "15.5" "2" d 0%Z)
        as [Hvalid _]; [vm_compute; reflexivity|]
  end.
  exact Hvalid.
Defined.

(** X18: in an upload [validate_input_data] has accepted, [create_cpap_entry]
    finds every key it reads in every entry of [data]: it never raises
    [KeyError]; it builds the entry from the four values as they are when
    [validate_cpap_data] accepts the pressure, and raises [ValueError] with
    that function's message when it does not, which the earlier validation
    does not exclude. *)
Theorem create_cpap_entry_after_validation (in_data : dict) (entries : list json) (now : Z) :
  validate_input_data in_data = Valid ->
  lookup "data" in_data = Some (JList entries) ->
  Forall (fun entry =>
            exists e pressure rate apnea image,
              entry = JDict e
              /\ lookup "cpap_pressure" e = Some pressure
              /\ lookup "breathing_rate" e = Some rate
              /\ lookup "apnea_count" e = Some apnea
              /\ lookup "flow_image_base64" e = Some image
              /\ Server.create_cpap_entry now e
                 = match validate_cpap_data pressure with
                   | Valid =>
                       inl {| Server.cpap_pressure := pressure;
                              Server.breathing_rate := rate;
                              Server.apnea_count := apnea;
                              Server.flow_image_base64 := image;
                              Server.timestamp := now |}
                   | Invalid cpap_check => inr (Server.ValueError cpap_check)
                   end) entries.
Proof.
  intros Hvalid Hdata.
  refine (Forall_impl _ _ (validated_entries in_data entries Hvalid Hdata)).
  intros entry (e & -> & Hkeys).
  destruct (create_cpap_entry_with_keys now e Hkeys)
    as (pressure & rate & apnea & image & H1 & H2 & H3 & H4 & Hc).
  exists e, pressure, rate, apnea, image.
  split; [reflexivity|]. split; [exact H1|]. split; [exact H2|]. split; [exact H3|].
  split; [exact H4 | exact Hc].
Qed.

Lemma create_cpap_entry_after_validation_witness :
  validate_input_data (foreign_upload (JStr "high")) = Valid
  /\ Server.create_cpap_entry 0
       [("cpap_pressure", JStr "high"); ("breathing_rate", JInt 12);
        ("apnea_count", JNone); ("flow_image_base64", JInt 0)]
     = inr (Server.ValueError "The CPAP entry must be an integer.").
Proof.
  split; [reflexivity|].
  pose proof (create_cpap_entry_after_validation
                (foreign_upload (JStr "high"))
                [JDict [("cpap_pressure", JStr "high"); ("breathing_rate", JInt 12);
                        ("apnea_count", JNone); ("flow_image_base64", JInt 0)]]
                0%Z eq_refl eq_refl) as H.
  inversion H as [|? ? (e & pressure & rate & apnea & image & He & H1 & _ & _ & _ & Hc) _].
  injection He as <-. injection H1 as <-. exact Hc.
Defined.
